(** * funowl: the ontology document (src/funowl/ontology_document.py)

    A shallow embedding of [Import], [Ontology] and [OntologyDocument]:
    the grammar-directed constructor, the builder [imports], attribute
    assignment on documents, and the two renderings (functional syntax and
    RDF triples). *)

From stdpp Require Import gmap strings list fin_maps.

Set Warnings "-register-all".

Open Scope string_scope.

(** ** RDF terms and the graph sink *)

Inductive node :=
| URIRef (s : string)
| Literal (s : string)
| BNode (n : nat).

Definition triple : Type := node * node * node.

Definition RDF_type : node := URIRef "http://www.w3.org/1999/02/22-rdf-syntax-ns#type".
Definition OWL_Ontology : node := URIRef "http://www.w3.org/2002/07/owl#Ontology".
Definition OWL_versionIRI : node := URIRef "http://www.w3.org/2002/07/owl#versionIRI".
Definition OWL_imports : node := URIRef "http://www.w3.org/2002/07/owl#imports".

(** ** Python values reaching this module *)

Definition ref := nat.

(** Modelled from the spec: the axiom classes (funowl.axioms and the modules
    of concrete axiom kinds) are not under src/.  An axiom is kept as the
    text of its functional rendering and the triples its own [to_rdf] emits,
    written over the anonymous nodes it mints: [BNode i] with
    [i < axiom_fresh] stands for the i-th node minted by the call.  (The
    class is named Axiom in the source, a reserved word here.) *)
Record OwlAxiom := {
  axiom_functional : string;
  axiom_fresh : nat;
  axiom_triples : list triple
}.

(** Modelled from the spec: funowl.annotations is not under src/.  An
    annotation is a property identifier and a value, an identifier or a
    literal. *)
Inductive AnnotationValue :=
| AV_IRI (s : string)
| AV_Literal (s : string).

Record Annotation := {
  annotation_property : string;
  annotation_value : AnnotationValue
}.

Inductive value :=
| VNone
| VStr (s : string)
| VList (l : list value)
| VIRI (s : string)                     (* an instance of funowl.identifiers.IRI *)
| VImport (iri : value)                 (* Import(iri) *)
| VAxiom (a : OwlAxiom)
| VAnnotation (a : Annotation)
| VPrefix (prefixName fullIRI : value)  (* Prefix(prefixName, fullIRI) *)
| VOntology (r : ref)                   (* a reference to an Ontology object *)
| VMethod (name : string).              (* a bound method of an object *)

(** The instance dictionary of an object. *)
Abbreviation obj := (gmap string value).

(** ** Exceptions *)

Inductive exn :=
| ValueError_Unknown_argument (k : string)
| ValueError_Unrecognized_arguments (args : list value)
| ValueError_versionIRI_without_ontologyIRI
| TypeError
| AttributeError
| AssertionError
| RecursionError
| ReferenceError.

Inductive result (A : Type) :=
| Ok (a : A)
| Raise (e : exn).
Arguments Ok {A} a.
Arguments Raise {A} e.

#[global] Instance result_ret : MRet result := fun A a => Ok a.
#[global] Instance result_bind : MBind result := fun A B f m =>
  match m with
  | Ok a => f a
  | Raise e => Raise e
  end.

(** ** What lies outside src/ and the spec

    [inherited_attr k] is the attribute [k] that an instance finds on the
    base classes (Annotatable, FunOwlBase, object) or that the dataclass
    decorator adds to the class; [foreign_str v] is
    [str(v)] for the values whose string form is produced by code outside
    this module; [resolve ns s] is the full form of the identifier [s] under
    the namespace bindings [ns] (IRI.full_uri) and [abbreviate ns s] its
    text in functional syntax; [default_namespaces] are the bindings of a
    new rdflib Graph.  [str_isinstance_IRI s] tells whether the plain string
    [s] passes [isinstance(s, IRI)], a check that the class overloads;
    [foreign_add a b] is [a + b] where the sum is defined by a class outside
    this module, the class of the lists that the slots hold among them;
    [slot_full_uri s ns] is what [full_uri] returns, under the bindings
    [ns], for the value that the version slot holds for the identifier [s],
    None when that value has no such method; [Prefix_register n f ns] are
    the bindings that [Prefix(n, f).to_rdf] leaves in a graph whose bindings
    were [ns]. *)
Class Outside := {
  inherited_attr : string -> option value;
  foreign_str : value -> string;
  resolve : list (string * string) -> string -> string;
  abbreviate : list (string * string) -> string -> string;
  default_namespaces : list (string * string);
  str_isinstance_IRI : string -> bool;
  foreign_add : value -> value -> result value;
  slot_full_uri : string -> list (string * string) -> option string;
  Prefix_register : value -> value -> list (string * string)
                    -> result (list (string * string))
}.

Section Model.
Context `{!Outside}.

(** ** Python primitives *)

Definition str_in (k : string) (l : list string) : bool := existsb (String.eqb k) l.

Definition truthy (v : value) : bool :=
  match v with
  | VNone => false
  | VStr s => negb (String.eqb s "")
  | VList l => negb (bool_decide (length l = 0))
  | _ => true
  end.

Definition py_str (v : value) : string :=
  match v with
  | VNone => "None"
  | VStr s => s
  | VIRI s => s
  | _ => foreign_str v
  end.

(** [a + b].  Python itself gives the sum of two strings, and gives None and
    a bound method no sum with None, a string, a list or a method, nor a
    string one with None or a method; every other sum is the one of a class
    outside this module, that of a list read from a slot among them. *)
Definition py_add (a b : value) : result value :=
  match a, b with
  | VStr s1, VStr s2 => Ok (VStr (s1 ++ s2))
  | (VNone | VMethod _), (VNone | VStr _ | VList _ | VMethod _) => Raise TypeError
  | VStr _, (VNone | VMethod _) => Raise TypeError
  | _, _ => foreign_add a b
  end.

(** [isinstance(v, IRI)]: an IRI is an instance, a plain string is one when
    it passes the overloaded check, and no other value modelled here is. *)
Definition isinstance_IRI (v : value) : bool :=
  match v with
  | VIRI _ => true
  | VStr s => str_isinstance_IRI s
  | _ => false
  end.
Definition isinstance_Axiom (v : value) : bool :=
  match v with VAxiom _ => true | _ => false end.
Definition isinstance_Import (v : value) : bool :=
  match v with VImport _ => true | _ => false end.
Definition isinstance_Ontology (v : value) : bool :=
  match v with VOntology _ => true | _ => false end.
Definition isinstance_list (v : value) : bool :=
  match v with VList _ => true | _ => false end.

(** Modelled from the spec: IRI(s), PrefixName(s) and FullIRI(v) belong to
    funowl.identifiers and funowl.general_definitions; syntactic validation
    of identifiers is out of scope, so the constructors accept every string. *)
Definition IRI (s : string) : value := VIRI s.
Definition PrefixName (s : string) : value := VStr s.
Definition FullIRI (v : value) : value := VStr (py_str v).

(** ** Ontology: attribute lookup *)

Definition Ontology_methods : list string :=
  ["__init__"; "annotation"; "declaration"; "subClassOf"; "equivalentClasses";
   "subObjectPropertyOf"; "inverseObjectProperties"; "functionalObjectProperty";
   "inverseFunctionalObjectProperty"; "objectPropertyDomain";
   "objectPropertyRange"; "imports"; "to_functional"; "to_rdf"].

(** Class attributes: the dataclass defaults [iri = None], [version = None],
    the methods of the class body, then what the base classes provide. *)
Definition Ontology_class_attr (k : string) : option value :=
  if str_in k ["iri"; "version"] then Some VNone
  else if str_in k Ontology_methods then Some (VMethod k)
  else inherited_attr k.

(** [getattr(self, k, MISSING)], [None] standing for MISSING. *)
Definition Ontology_getattr (self : obj) (k : string) : option value :=
  match self !! k with
  | Some v => Some v
  | None => Ontology_class_attr k
  end.

(** ** Ontology.__init__ *)

(** [if args and p(args[0]): slot = args.pop(0)] *)
Definition pop_if (p : value -> bool) (args : list value) : option value * list value :=
  match args with
  | a :: rest => if p a then (Some a, rest) else (None, args)
  | [] => (None, [])
  end.

(** [while args and p(args[0]): slot.append(args.pop(0))] *)
Fixpoint pop_while (p : value -> bool) (args : list value) : list value * list value :=
  match args with
  | a :: rest =>
      if p a then let '(taken, args') := pop_while p rest in (a :: taken, args')
      else ([], args)
  | [] => ([], [])
  end.

Definition is_identifier (v : value) : bool :=
  isinstance_IRI v && negb (isinstance_Axiom v).

Definition set_opt (k : string) (v : option value) (self : obj) : obj :=
  match v with
  | Some x => <[k := x]> self
  | None => self
  end.

(** The positional part of the constructor: the object after the four slots
    were filled, and the arguments left over. *)
Definition Ontology_positional (args : list value) : obj * list value :=
  let self : obj := ∅ in
  let '(iri, args) := pop_if is_identifier args in
  let self := set_opt "iri" iri self in
  let '(version, args) := pop_if is_identifier args in
  let self := set_opt "version" version self in
  let '(imports, args) := pop_while isinstance_Import args in
  let self := <["directlyImportsDocuments" := VList imports]> self in
  let '(axioms, args) := pop_while isinstance_Axiom args in
  let self := <["axioms" := VList axioms]> self in
  (self, args).

(** kwargs is a dict: insertion-ordered, its keys distinct. *)
Fixpoint kwargs_lookup (kwargs : list (string * value)) (k : string) : option value :=
  match kwargs with
  | (k', v) :: rest => if String.eqb k' k then Some v else kwargs_lookup rest k
  | [] => None
  end.

(** [kwargs.get(k, dflt)] *)
Definition kwargs_get (kwargs : list (string * value)) (k : string) (dflt : value) : value :=
  default dflt (kwargs_lookup kwargs k).

(** One round of [for k, v in kwargs.items()]. *)
Definition apply_kwarg (self : obj) (kv : string * value) : result obj :=
  let '(k, v) := kv in
  match Ontology_getattr self k with
  | None => Raise (ValueError_Unknown_argument k)
  | Some VNone => Ok (<[k := v]> self)
  | Some cur_v =>
      if String.eqb k "annotations" then Ok self
      else new ← py_add cur_v v; Ok (<[k := new]> self)
  end.

Fixpoint apply_kwargs (self : obj) (kwargs : list (string * value)) : result obj :=
  match kwargs with
  | [] => Ok self
  | kv :: rest => self' ← apply_kwarg self kv; apply_kwargs self' rest
  end.

Definition Ontology___init__ (args : list value) (kwargs : list (string * value)) : result obj :=
  let '(self, args) := Ontology_positional args in
  let self := <["annotations" := kwargs_get kwargs "annotations" (VList [])]> self in
  self ← apply_kwargs self kwargs;
  match args with
  | [] => Ok self
  | _ => Raise (ValueError_Unrecognized_arguments args)
  end.

(** ** The graph sink

    Modelled from the spec: the sink (an rdflib Graph) supports adding a
    triple and registering a namespace; it is kept as the sequence of the
    triples added, whose elements are the graph's triple set, and its
    namespace bindings. *)
Record Graph := {
  triples : list triple;
  namespaces : list (string * string)
}.

Definition Graph_new : Graph :=
  {| triples := []; namespaces := default_namespaces |}.

Definition Graph_add (t : triple) (g : Graph) : Graph :=
  {| triples := triples g ++ [t]; namespaces := namespaces g |}.

(** [bind(prefix, namespace, override=True, replace=True)] *)
Definition bind (p ns : string) (l : list (string * string)) : list (string * string) :=
  filter (fun b => negb (String.eqb b.1 p) && negb (String.eqb b.2 ns)) l ++ [(p, ns)].

(** ** The world: the objects allocated so far and the supply of anonymous
    nodes

    Ontology objects are mutable and shared by reference, so they live in a
    heap.  [BNode()] draws a node never drawn before. *)
Record world := {
  heap : gmap ref obj;
  next_ref : ref;
  next_bnode : nat
}.

Definition M (A : Type) : Type := world -> result (A * world).

#[global] Instance M_ret : MRet M := fun A a ω => Ok (a, ω).
#[global] Instance M_bind : MBind M := fun A B f m ω =>
  match m ω with
  | Ok (a, ω') => f a ω'
  | Raise e => Raise e
  end.

Definition raise {A} (e : exn) : M A := fun _ => Raise e.

Definition lift {A} (r : result A) : M A := fun ω =>
  match r with
  | Ok a => Ok (a, ω)
  | Raise e => Raise e
  end.

(** A reference always names a live object in Python; the heap lookup of the
    model fails with ReferenceError on any other. *)
Definition deref (r : ref) : M obj := fun ω =>
  match heap ω !! r with
  | Some o => Ok (o, ω)
  | None => Raise ReferenceError
  end.

Definition store (r : ref) (o : obj) : M unit := fun ω =>
  Ok (tt, {| heap := <[r := o]> (heap ω); next_ref := next_ref ω; next_bnode := next_bnode ω |}).

Definition alloc (o : obj) : M ref := fun ω =>
  Ok (next_ref ω,
      {| heap := <[next_ref ω := o]> (heap ω); next_ref := S (next_ref ω);
         next_bnode := next_bnode ω |}).

(** [BNode()] *)
Definition new_BNode : M node := fun ω =>
  Ok (BNode (next_bnode ω),
      {| heap := heap ω; next_ref := next_ref ω; next_bnode := S (next_bnode ω) |}).

(** [self.k] on an Ontology instance. *)
Definition Ontology_attr (self : obj) (k : string) : result value :=
  match Ontology_getattr self k with
  | Some v => Ok v
  | None => Raise AttributeError
  end.

(** A call of the class [Ontology]: a new object, initialised. *)
Definition Ontology_new (args : list value) (kwargs : list (string * value)) : M value :=
  self ← lift (Ontology___init__ args kwargs);
  r ← alloc self;
  mret (VOntology r).

(** ** Import *)

(** [self.iri if isinstance(self.iri, IRI) else self.iri.iri], for the
    Import wrapping [iri].  The attribute [iri] exists on an Ontology and on
    an Import. *)
Definition Import_ontology_iri (iri : value) : M value :=
  if isinstance_IRI iri then mret iri
  else match iri with
       | VOntology r => o ← deref r; lift (Ontology_attr o "iri")
       | VImport x => mret x
       | _ => raise AttributeError
       end.

(** [URIRef(str(self.ontology_iri()))] *)
Definition Import_to_rdf (iri : value) (g : Graph) : M node :=
  x ← Import_ontology_iri iri;
  mret (URIRef (py_str x)).

(** ** Ontology.imports *)

Definition Ontology_imports (self : ref) (import_ : value) : M value :=
  o ← deref self;
  lst ← lift (Ontology_attr o "directlyImportsDocuments");
  match lst with
  | VList l =>
      x ← match import_ with
          | VOntology r => o' ← deref r; lift (Ontology_attr o' "iri")
          | _ => mret (IRI (py_str import_))
          end;
      _ ← store self (<["directlyImportsDocuments" := VList (l ++ [VImport x])]> o);
      mret (VOntology self)
  | _ => raise AttributeError
  end.

(** ** Rendering as triples *)

(** [for x in v]: a list yields its elements, a string its characters; no
    other value modelled here is iterable. *)
Definition py_iter (v : value) : result (list value) :=
  match v with
  | VList l => Ok l
  | VStr s => Ok ((fun c => VStr (String c EmptyString)) <$> String.list_ascii_of_string s)
  | _ => Raise TypeError
  end.

(** [for x in l: s = f(x, s)] *)
Fixpoint for_each {A S : Type} (f : A -> S -> M S) (l : list A) (s : S) : M S :=
  match l with
  | [] => mret s
  | x :: rest => s' ← f x s; for_each f rest s'
  end.

(** Modelled from the spec: IRI.to_rdf (funowl.identifiers) gives the
    identifier's resource form, its full form under the bindings of the
    sink, and emits nothing. *)
Definition IRI_to_rdf (s : string) (g : Graph) : node :=
  URIRef (resolve (namespaces g) s).

(** [v.full_uri(g)], for [v] read from the version slot: whether the value
    that the slot holds for an identifier has the method is decided by its
    class, outside this module; no other value modelled here has it. *)
Definition full_uri (v : value) (g : Graph) : result string :=
  match v with
  | VIRI s =>
      match slot_full_uri s (namespaces g) with
      | Some u => Ok u
      | None => Raise AttributeError
      end
  | _ => Raise AttributeError
  end.

Definition shift_node (b : nat) (n : node) : node :=
  match n with
  | BNode i => BNode (b + i)
  | _ => n
  end.

Definition shift_triple (b : nat) (t : triple) : triple :=
  (shift_node b t.1.1, shift_node b t.1.2, shift_node b t.2).

(** Modelled from the spec: an axiom emits its own triples on the subjects it
    determines itself, minting the anonymous nodes it needs. *)
Definition Axiom_to_rdf (a : OwlAxiom) (g : Graph) : M Graph := fun ω =>
  Ok ({| triples := triples g ++ (shift_triple (next_bnode ω) <$> axiom_triples a);
         namespaces := namespaces g |},
      {| heap := heap ω; next_ref := next_ref ω;
         next_bnode := next_bnode ω + axiom_fresh a |}).

Definition AnnotationValue_to_rdf (v : AnnotationValue) (g : Graph) : node :=
  match v with
  | AV_IRI s => URIRef (resolve (namespaces g) s)
  | AV_Literal s => Literal s
  end.

(** Modelled from the spec: Annotatable.to_rdf (funowl.annotations) attaches
    each annotation of the node, as one triple, to the node's subject. *)
Definition Annotatable_to_rdf (subject : node) (annotations : value) (g : Graph) : result Graph :=
  l ← py_iter annotations;
  foldl (fun (acc : result Graph) x =>
           g ← acc;
           match x with
           | VAnnotation a =>
               Ok (Graph_add (subject, URIRef (resolve (namespaces g) (annotation_property a)),
                              AnnotationValue_to_rdf (annotation_value a) g) g)
           | _ => Raise AttributeError
           end) (Ok g) l.

(** A triple needs rdflib terms: [g.add] asserts it. *)
Definition term (n : option node) : M node :=
  match n with
  | Some n => mret n
  | None => raise AssertionError
  end.

(** The body of [Ontology.to_rdf], [to_rdf] being the call [x.to_rdf(g)] on a
    child [x]. *)
Definition Ontology_to_rdf_body (to_rdf : value -> Graph -> M (option node * Graph))
    (self : ref) (g : Graph) : M (node * Graph) :=
  o ← deref self;
  iri ← lift (Ontology_attr o "iri");
  '(ontology_uri, g) ←
    (if truthy iri then '(n, g) ← to_rdf iri g; n ← term n; mret (n, g)
     else n ← new_BNode; mret (n, g));
  let g := Graph_add (ontology_uri, RDF_type, OWL_Ontology) g in
  version ← lift (Ontology_attr o "version");
  g ← (if truthy version
       then u ← lift (full_uri version g);
            mret (Graph_add (ontology_uri, OWL_versionIRI, URIRef u) g)
       else mret g);
  imports ← lift (Ontology_attr o "directlyImportsDocuments" ≫= py_iter);
  g ← for_each (fun imp g =>
                  '(n, g) ← to_rdf imp g; n ← term n;
                  mret (Graph_add (ontology_uri, OWL_imports, n) g)) imports g;
  axioms ← lift (Ontology_attr o "axioms" ≫= py_iter);
  g ← for_each (fun axiom g => '(_, g) ← to_rdf axiom g; mret g) axioms g;
  annotations ← lift (Ontology_attr o "annotations");
  g ← lift (Annotatable_to_rdf ontology_uri annotations g);
  mret (ontology_uri, g).

(** [v.to_rdf(g)], by the class of [v]; [depth] bounds the nesting of calls as
    the interpreter's recursion limit does. *)
Fixpoint to_rdf (depth : nat) (v : value) (g : Graph) : M (option node * Graph) :=
  match depth with
  | 0 => raise RecursionError
  | S depth =>
      match v with
      | VImport iri => n ← Import_to_rdf iri g; mret (Some n, g)
      | VOntology r => '(n, g) ← Ontology_to_rdf_body (to_rdf depth) r g; mret (Some n, g)
      | VAxiom a => g ← Axiom_to_rdf a g; mret (None, g)
      | VIRI s => mret (Some (IRI_to_rdf s g), g)
      | VPrefix n f =>
          ns ← lift (Prefix_register n f (namespaces g));
          mret (None, {| triples := triples g; namespaces := ns |})
      | _ => raise AttributeError
      end
  end.

Definition recursion_limit : nat := 1000.

Definition Ontology_to_rdf_at (depth : nat) (self : ref) (g : Graph) : M (node * Graph) :=
  match depth with
  | 0 => raise RecursionError
  | S depth => Ontology_to_rdf_body (to_rdf depth) self g
  end.

Definition Ontology_to_rdf : ref -> Graph -> M (node * Graph) :=
  Ontology_to_rdf_at recursion_limit.

(** ** Rendering as functional syntax

    Modelled from the spec: FunctionalWriter (funowl.writers) is not under
    src/.  The writer accumulates text and keeps the namespace registry of
    its graph; a node is written as its keyword, an opening parenthesis, its
    children separated by spaces, a closing parenthesis; line breaks are the
    only pretty-printing kept, indentation is not. *)
Record FunctionalWriter := {
  output : string;
  w_namespaces : list (string * string)
}.

Definition FunctionalWriter_new : FunctionalWriter :=
  {| output := ""; w_namespaces := default_namespaces |}.

Definition newline : string := String (Ascii.ascii_of_nat 10) EmptyString.

Fixpoint last_char (s : string) : option Ascii.ascii :=
  match s with
  | EmptyString => None
  | String c EmptyString => Some c
  | String _ s' => last_char s'
  end.

(** A child starts its group or its line, or is set off by a space. *)
Definition separator (out : string) : string :=
  match last_char out with
  | None => ""
  | Some c => if Ascii.eqb c (Ascii.ascii_of_nat 40) || Ascii.eqb c (Ascii.ascii_of_nat 10) then "" else " "
  end.

Definition w_emit (s : string) (w : FunctionalWriter) : FunctionalWriter :=
  {| output := output w ++ separator (output w) ++ s; w_namespaces := w_namespaces w |}.

Definition w_close (w : FunctionalWriter) : FunctionalWriter :=
  {| output := output w ++ ")"; w_namespaces := w_namespaces w |}.

(** [w.br(condition)] and [w.hardbr()] *)
Definition w_br (condition : bool) (w : FunctionalWriter) : FunctionalWriter :=
  if condition then {| output := output w ++ newline; w_namespaces := w_namespaces w |}
  else w.

Definition w_hardbr (w : FunctionalWriter) : FunctionalWriter := w_br true w.

(** [w.func(node, contents)]: the keyword is the name of the node's class. *)
Definition w_func (keyword : string) (contents : FunctionalWriter -> M FunctionalWriter)
    (w : FunctionalWriter) : M FunctionalWriter :=
  w ← contents (w_emit (keyword ++ "(") w);
  mret (w_close w).

Section Writer.
(** [add v w] is [w + v]: the node [v] writes itself. *)
Variable add : value -> FunctionalWriter -> M FunctionalWriter.

(** [w.opt(v)] *)
Definition w_opt (v : value) (w : FunctionalWriter) : M FunctionalWriter :=
  match v with
  | VNone => mret w
  | _ => add v w
  end.

(** [w.iter(l)]: every element on a line of its own. *)
Definition w_iter (l : value) (w : FunctionalWriter) : M FunctionalWriter :=
  l ← lift (py_iter l);
  for_each (fun x w => w ← add x w; mret (w_br true w)) l w.

(** [Import.to_functional]: [w.func(self, lambda: (w + self.iri))] *)
Definition Import_to_functional (iri : value) (w : FunctionalWriter) : M FunctionalWriter :=
  w_func "Import" (add iri) w.

(** [Ontology.to_functional] *)
Definition Ontology_to_functional_body (self : ref) (w : option FunctionalWriter)
    : M FunctionalWriter :=
  o ← deref self;
  version ← lift (Ontology_attr o "version");
  iri ← lift (Ontology_attr o "iri");
  if truthy version && negb (truthy iri)
  then raise ValueError_versionIRI_without_ontologyIRI
  else
    let w := default FunctionalWriter_new w in
    imports ← lift (Ontology_attr o "directlyImportsDocuments");
    annotations ← lift (Ontology_attr o "annotations");
    axioms ← lift (Ontology_attr o "axioms");
    w_func "Ontology"
      (fun w =>
         w ← w_opt iri w;
         w ← w_opt version w;
         let w := w_br (truthy imports || truthy annotations || truthy axioms) w in
         w ← w_iter imports w;
         w ← w_iter annotations w;
         w_iter axioms w) w.

End Writer.

Definition AnnotationValue_text (ns : list (string * string)) (v : AnnotationValue) : string :=
  match v with
  | AV_IRI s => abbreviate ns s
  | AV_Literal s => s
  end.

(** [w + v], by the class of [v]: a node of the module writes itself, an
    identifier is abbreviated under the registry of the writer, anything
    else is written as its string form. *)
Fixpoint to_functional (depth : nat) (v : value) (w : FunctionalWriter) : M FunctionalWriter :=
  match depth with
  | 0 => raise RecursionError
  | S depth =>
      match v with
      | VNone => mret w
      | VImport iri => Import_to_functional (to_functional depth) iri w
      | VOntology r => Ontology_to_functional_body (to_functional depth) r (Some w)
      | VIRI s => mret (w_emit (abbreviate (w_namespaces w) s) w)
      | VAxiom a => mret (w_emit (axiom_functional a) w)
      | VAnnotation a =>
          mret (w_emit ("Annotation(" ++ abbreviate (w_namespaces w) (annotation_property a)
                          ++ " " ++ AnnotationValue_text (w_namespaces w) (annotation_value a)
                          ++ ")") w)
      | VPrefix n f => mret (w_emit ("Prefix(" ++ py_str n ++ ":=<" ++ py_str f ++ ">)") w)
      | _ => mret (w_emit (py_str v) w)
      end
  end.

Definition Ontology_to_functional_at (depth : nat) (self : ref) (w : option FunctionalWriter)
    : M FunctionalWriter :=
  match depth with
  | 0 => raise RecursionError
  | S depth => Ontology_to_functional_body (to_functional depth) self w
  end.

Definition Ontology_to_functional : ref -> option FunctionalWriter -> M FunctionalWriter :=
  Ontology_to_functional_at recursion_limit.

(** ** OntologyDocument *)

(** [self.k] for the two fields the methods read: the instance dictionary,
    then the dataclass default [ontology = None]; [__getattr__] ends in
    AttributeError for a name that is no prefix. *)
Definition Document_attr (self : obj) (k : string) : result value :=
  match self !! k with
  | Some v => Ok v
  | None => if String.eqb k "ontology" then Ok VNone else Raise AttributeError
  end.

Definition startswith_underscore (key : string) : bool :=
  match key with
  | String c _ => Ascii.eqb c (Ascii.ascii_of_nat 95)
  | EmptyString => false
  end.

(** [OntologyDocument.__setattr__] *)
Definition Document___setattr__ (self : obj) (key : string) (v : value) : result obj :=
  if startswith_underscore key || str_in key ["prefixDeclarations"; "ontology"]
  then Ok (<[key := v]> self)
  else
    let prefix := VPrefix (if negb (String.eqb key "") then PrefixName key else VNone)
                          (FullIRI v) in
    lst ← Document_attr self "prefixDeclarations";
    match lst with
    | VList l => Ok (<["prefixDeclarations" := VList (l ++ [prefix])]> self)
    | _ => Raise AttributeError
    end.

(** [OntologyDocument.__init__(self, *prefix, ontology=None)]; every
    assignment to [self] goes through [__setattr__]. *)
Definition Document___init__ (prefix : list value) (ontology : value) : M obj :=
  let self : obj := ∅ in
  match prefix with
  | [VList l] =>
      self ← lift (Document___setattr__ self "prefixDeclarations" (VList l));
      lift (Document___setattr__ self "ontology" ontology)
  | _ =>
      match last prefix with
      | Some (VOntology r) =>
          self ← lift (Document___setattr__ self "prefixDeclarations"
                         (VList (take (length prefix - 1) prefix)));
          lift (Document___setattr__ self "ontology" (VOntology r))
      | _ =>
          self ← lift (Document___setattr__ self "prefixDeclarations" (VList prefix));
          ontology ← (if truthy ontology then mret ontology else Ontology_new [] []);
          lift (Document___setattr__ self "ontology" ontology)
      end
  end.

(** [w.g.namespace_manager.bind(str(prefix.prefixName), str(prefix.fullIRI), True, True)] *)
Definition bind_prefix (prefix : value) (w : FunctionalWriter) : M FunctionalWriter :=
  match prefix with
  | VPrefix n f =>
      mret {| output := output w; w_namespaces := bind (py_str n) (py_str f) (w_namespaces w) |}
  | _ => raise AttributeError
  end.

(** [OntologyDocument.to_functional] *)
Definition Document_to_functional_at (depth : nat) (self : obj) (w : option FunctionalWriter)
    : M FunctionalWriter :=
  match depth with
  | 0 => raise RecursionError
  | S depth =>
      let w := default FunctionalWriter_new w in
      prefixes ← lift (Document_attr self "prefixDeclarations" ≫= py_iter);
      w ← for_each bind_prefix prefixes w;
      w ← w_iter (to_functional depth)
            (VList ((fun b => VPrefix (VStr b.1) (VStr b.2)) <$> w_namespaces w)) w;
      let w := w_hardbr w in
      ontology ← lift (Document_attr self "ontology");
      ontology ← (if truthy ontology then mret ontology else Ontology_new [] []);
      to_functional depth ontology w
  end.

Definition Document_to_functional : obj -> option FunctionalWriter -> M FunctionalWriter :=
  Document_to_functional_at recursion_limit.

(** [OntologyDocument.to_rdf] *)
Definition Document_to_rdf_at (depth : nat) (self : obj) (g : Graph) : M (option node * Graph) :=
  match depth with
  | 0 => raise RecursionError
  | S depth =>
      prefixes ← lift (Document_attr self "prefixDeclarations" ≫= py_iter);
      g ← for_each (fun p g => '(_, g) ← to_rdf depth p g; mret g) prefixes g;
      ontology ← lift (Document_attr self "ontology");
      to_rdf depth ontology g
  end.

Definition Document_to_rdf : obj -> Graph -> M (option node * Graph) :=
  Document_to_rdf_at recursion_limit.

End Model.

(** * The vocabulary of the statements *)

Section Vocabulary.
Context `{!Outside}.

(** The dataclass fields of [Ontology]. *)
Definition Ontology_slots : list string :=
  ["iri"; "version"; "directlyImportsDocuments"; "axioms"; "annotations"].

(** The content of an optional slot and of a list slot. *)
Definition single (v : option value) : list value :=
  match v with
  | None | Some VNone => []
  | Some x => [x]
  end.

Definition items (v : option value) : list value :=
  match v with
  | Some (VList l) => l
  | _ => []
  end.

(** The slots in slot order: identifier, version, imports, axioms. *)
Definition slot_contents (o : obj) : list value :=
  single (Ontology_getattr o "iri") ++ single (Ontology_getattr o "version")
  ++ items (Ontology_getattr o "directlyImportsDocuments")
  ++ items (Ontology_getattr o "axioms").

(** What one named field leaves in its slot, the slot holding [cur]. *)
Definition kwarg_slot (k : string) (cur v : value) : result value :=
  match cur with
  | VNone => Ok v
  | _ => if String.eqb k "annotations" then Ok cur else py_add cur v
  end.

(** The object on which the named fields are applied. *)
Definition before_kwargs (args : list value) (kwargs : list (string * value)) : obj :=
  <["annotations" := kwargs_get kwargs "annotations" (VList [])]> (Ontology_positional args).1.

(** The Import wrapping [iri] stands for the identifier [s]: it wraps the
    identifier itself, or an ontology whose identifier it is. *)
Definition Import_resolves (h : gmap ref obj) (iri : value) (s : string) : Prop :=
  iri = VIRI s
  \/ exists r o, iri = VOntology r /\ h !! r = Some o
                 /\ Ontology_getattr o "iri" = Some (VIRI s).

(** The graph [g] after the triples [ts] were added, and the world after
    [n] anonymous nodes were drawn. *)
Definition Graph_extend (ts : list triple) (g : Graph) : Graph :=
  {| triples := triples g ++ ts; namespaces := namespaces g |}.

Definition mint (n : nat) (ω : world) : world :=
  {| heap := heap ω; next_ref := next_ref ω; next_bnode := next_bnode ω + n |}.

(** The triples of the axioms [axs], the first anonymous node free being
    [b], and the number of nodes they mint. *)
Fixpoint axioms_triples (b : nat) (axs : list OwlAxiom) : list triple :=
  match axs with
  | [] => []
  | a :: rest =>
      ((shift_triple b <$> axiom_triples a) ++ axioms_triples (b + axiom_fresh a) rest)%list
  end.

Definition axioms_fresh (axs : list OwlAxiom) : nat := sum_list (axiom_fresh <$> axs).

Definition annotation_triple (subject : node) (ns : list (string * string))
    (a : Annotation) : triple :=
  (subject, URIRef (resolve ns (annotation_property a)),
   match annotation_value a with
   | AV_IRI s => URIRef (resolve ns s)
   | AV_Literal s => Literal s
   end).

(** What [full_uri] gives for the version slot, under the bindings [ns]:
    nothing when no version is set, the attribute error when the value of
    the slot has no such method. *)
Definition version_uri (ns : list (string * string)) (version : option string)
    : result (option string) :=
  match version with
  | None => Ok None
  | Some s =>
      match slot_full_uri s ns with
      | Some u => Ok (Some u)
      | None => Raise AttributeError
      end
  end.

Definition version_triple (subject : node) (vuri : option string) : list triple :=
  match vuri with
  | Some u => [(subject, OWL_versionIRI, URIRef u)]
  | None => []
  end.

(** What [Ontology.to_rdf] adds for the subject [subject], [vuri] being what
    [full_uri] gave for the version. *)
Definition Ontology_triples (subject : node) (ns : list (string * string))
    (vuri : option string) (names : list string) (b : nat)
    (axs : list OwlAxiom) (anns : list Annotation) : list triple :=
  ([(subject, RDF_type, OWL_Ontology)]
   ++ version_triple subject vuri
   ++ ((fun s => (subject, OWL_imports, URIRef s)) <$> names)
   ++ axioms_triples b axs
   ++ (annotation_triple subject ns <$> anns))%list.

Definition opt_IRI (s : option string) : value :=
  match s with
  | Some s => VIRI s
  | None => VNone
  end.

(** The object and the world a call of [Ontology] with no argument leaves. *)
Definition Ontology_empty : obj :=
  <["annotations" := VList []]>
    (<["axioms" := VList []]> (<["directlyImportsDocuments" := VList []]> ∅)).

Definition allocated (o : obj) (ω : world) : world :=
  {| heap := <[next_ref ω := o]> (heap ω); next_ref := S (next_ref ω);
     next_bnode := next_bnode ω |}.

(** A computation that leaves the world as it found it. *)
Definition keeps {A} (m : M A) : Prop :=
  forall ω a ω', m ω = Ok (a, ω') -> ω' = ω.

(** The graph and the result of [to_rdf] with every anonymous node renamed
    by [shift_node n]. *)
Definition shift_graph (n : nat) (g : Graph) : Graph :=
  {| triples := shift_triple n <$> triples g; namespaces := namespaces g |}.

Definition shift_result (n : nat) (r : option node * Graph) : option node * Graph :=
  (shift_node n <$> r.1, shift_graph n r.2).

(** A computation that changes nothing in the world but the supply of
    anonymous nodes. *)
Definition grows {A} (m : M A) : Prop :=
  forall ω a ω', m ω = Ok (a, ω') -> exists n, ω' = mint n ω.

(** [m'] is [m] run after [n] more anonymous nodes were drawn, its result
    renamed by [ρ]. *)
Definition shifted {A} (n : nat) (ρ : A -> A) (m m' : M A) : Prop :=
  forall ω, m' (mint n ω) = match m ω with
                            | Ok (a, ω') => Ok (ρ a, mint n ω')
                            | Raise e => Raise e
                            end.

(** The object a call of [Ontology] with the axioms [axs] and the named
    field [version] leaves. *)
Definition Ontology_versioned (s : string) (axs : list OwlAxiom) : obj :=
  <["version" := VIRI s]>
    (<["annotations" := VList []]>
       (<["axioms" := VList (VAxiom <$> axs)]>
          (<["directlyImportsDocuments" := VList []]> ∅))).

Definition isinstance_Prefix (v : value) : bool :=
  match v with VPrefix _ _ => true | _ => false end.

(** A computation that neither reads nor changes the world. *)
Definition constant {A} (m : M A) : Prop :=
  exists r : result A, forall ω, m ω = lift r ω.

End Vocabulary.

(** * The sugar methods and the other methods of the document *)

(** The classes built by the sugar methods (funowl.annotations,
    funowl.declarations, funowl.class_axioms, funowl.class_expressions, the
    object property modules) lie outside src/ and the spec:
    [construct c args] is the call of the class named [c] on the positional
    arguments [args], which returns a value or raises and touches no
    ontology.  [base_attr k] is the attribute [k] that a document finds on
    FunOwlBase and object.  [isinstance_PrefixName item] is
    [isinstance(item, PrefixName)] for the string [item]: the check is the
    library's own, and strings pass it or not by their characters. *)
Class Library := {
  construct : string -> list value -> result value;
  base_attr : string -> option value;
  isinstance_PrefixName : string -> bool
}.

Section Sugar.
Context `{!Outside, !Library}.

(** [self.k.append(x); return self]: the list is looked up, then the argument
    is evaluated, then the list is extended in place. *)
Definition Ontology_append (self : ref) (k : string) (x : result value) : M value :=
  o ← deref self;
  lst ← lift (Ontology_attr o k);
  match lst with
  | VList l =>
      x ← lift x;
      _ ← store self (<[k := VList (l ++ [x])]> o);
      mret (VOntology self)
  | _ => raise AttributeError
  end.

Definition Ontology_annotation (self : ref) (prop val : value) : M value :=
  Ontology_append self "annotations" (construct "Annotation" [prop; val]).

Definition Ontology_declaration (self : ref) (decl : value) : M value :=
  Ontology_append self "axioms" (construct "Declaration" [decl]).

Definition Ontology_subClassOf (self : ref) (sub sup : value) : M value :=
  Ontology_append self "axioms"
    (c1 ← construct "Class" [sub]; c2 ← construct "Class" [sup];
     construct "SubClassOf" [c1; c2]).

Definition Ontology_equivalentClasses (self : ref) (classExpressions : list value) : M value :=
  Ontology_append self "axioms" (construct "EquivalentClasses" classExpressions).

Definition Ontology_subObjectPropertyOf (self : ref) (sub sup : value) : M value :=
  subp ← lift (construct "SubObjectPropertyExpression" [sub]);
  supp ← lift (construct "ObjectPropertyExpression" [sup]);
  Ontology_append self "axioms" (construct "SubObjectPropertyOf" [subp; supp]).

Definition Ontology_inverseObjectProperties (self : ref) (exp1 exp2 : value) : M value :=
  exp1p ← lift (construct "ObjectPropertyExpression" [exp1]);
  exp2p ← lift (construct "ObjectPropertyExpression" [exp2]);
  Ontology_append self "axioms" (construct "InverseObjectProperties" [exp1p; exp2p]).

Definition Ontology_functionalObjectProperty (self : ref) (ope : value) : M value :=
  opep ← lift (construct "ObjectPropertyExpression" [ope]);
  Ontology_append self "axioms" (construct "FunctionalObjectProperty" [opep]).

Definition Ontology_inverseFunctionalObjectProperty (self : ref) (ope : value) : M value :=
  opep ← lift (construct "ObjectPropertyExpression" [ope]);
  Ontology_append self "axioms" (construct "InverseFunctionalObjectProperty" [opep]).

Definition Ontology_objectPropertyDomain (self : ref) (ope ce : value) : M value :=
  Ontology_append self "axioms" (construct "ObjectPropertyDomain" [ope; ce]).

Definition Ontology_objectPropertyRange (self : ref) (ope ce : value) : M value :=
  Ontology_append self "axioms" (construct "ObjectPropertyRange" [ope; ce]).

(** ** OntologyDocument.prefixes *)

(** [self.prefixDeclarations.append(p)] *)
Definition prefixDeclarations_append (self : obj) (p : value) : result obj :=
  lst ← Document_attr self "prefixDeclarations";
  match lst with
  | VList l => Ok (<["prefixDeclarations" := VList (l ++ [p])]> self)
  | _ => Raise AttributeError
  end.

(** [OntologyDocument.prefixes(self, dflt, **prefixes)] *)
Definition Document_prefixes (self : obj) (dflt : value) (prefixes : list (string * value))
    : result obj :=
  self ← (if truthy dflt then prefixDeclarations_append self (VPrefix (VStr "") dflt)
          else Ok self);
  foldl (fun (acc : result obj) '(ns, iri) =>
           self ← acc; prefixDeclarations_append self (VPrefix (PrefixName ns) iri))
        (Ok self) prefixes.

(** ** OntologyDocument.__getattr__ *)

Definition Document_methods : list string :=
  ["__init__"; "prefixes"; "__setattr__"; "__getattr__"; "to_functional"; "to_rdf"].

(** [super().__getattribute__(item)]: the instance dictionary, then the
    class (the dataclass default [ontology = None], the methods of the class
    body), then the base classes. *)
Definition Document___getattribute__ (self : obj) (item : string) : result value :=
  match self !! item with
  | Some v => Ok v
  | None =>
      if String.eqb item "ontology" then Ok VNone
      else if str_in item Document_methods then Ok (VMethod item)
      else match base_attr item with
           | Some v => Ok v
           | None => Raise AttributeError
           end
  end.

(** [x == item] for a string [item]: a string equals it when it has the same
    characters, and no other value modelled here equals a string. *)
Definition py_eq_str (x : value) (item : string) : bool :=
  match x with
  | VStr s => String.eqb s item
  | _ => false
  end.

(** [for p in l: if p.prefixName == item: return p.fullIRI]; among the values
    modelled here only a Prefix has the two attributes. *)
Fixpoint prefix_scan (item : string) (l : list value) : result (option value) :=
  match l with
  | [] => Ok None
  | VPrefix n f :: rest => if py_eq_str n item then Ok (Some f) else prefix_scan item rest
  | _ :: _ => Raise AttributeError
  end.

(** [OntologyDocument.__getattr__(self, item)] *)
Definition Document___getattr__ (self : obj) (item : string) : result value :=
  found ← (if isinstance_PrefixName item
           then l ← Document_attr self "prefixDeclarations" ≫= py_iter; prefix_scan item l
           else Ok None);
  match found with
  | Some fullIRI => Ok fullIRI
  | None => Document___getattribute__ self item
  end.

End Sugar.

(** * The vocabulary of the statements on the sugar methods *)

Section SugarVocabulary.
Context `{!Outside, !Library}.

(** The positional sequences of the grammar: at most two identifiers that
    are no axioms, then Imports, then axioms. *)
Definition grammatical (args : list value) : Prop :=
  exists ids imps axs,
    args = (ids ++ imps ++ axs)%list /\ (length ids ≤ 2)%nat
    /\ forallb is_identifier ids = true
    /\ forallb isinstance_Import imps = true
    /\ forallb isinstance_Axiom axs = true.

(** A call of a sugar method with its arguments, and that call on the
    ontology [self]. *)
Inductive call :=
| Call_annotation (prop val : value)
| Call_declaration (decl : value)
| Call_subClassOf (sub sup : value)
| Call_equivalentClasses (classExpressions : list value)
| Call_subObjectPropertyOf (sub sup : value)
| Call_inverseObjectProperties (exp1 exp2 : value)
| Call_functionalObjectProperty (ope : value)
| Call_inverseFunctionalObjectProperty (ope : value)
| Call_objectPropertyDomain (ope ce : value)
| Call_objectPropertyRange (ope ce : value)
| Call_imports (import_ : value).

Definition Ontology_call (self : ref) (c : call) : M value :=
  match c with
  | Call_annotation prop val => Ontology_annotation self prop val
  | Call_declaration decl => Ontology_declaration self decl
  | Call_subClassOf sub sup => Ontology_subClassOf self sub sup
  | Call_equivalentClasses classExpressions => Ontology_equivalentClasses self classExpressions
  | Call_subObjectPropertyOf sub sup => Ontology_subObjectPropertyOf self sub sup
  | Call_inverseObjectProperties exp1 exp2 => Ontology_inverseObjectProperties self exp1 exp2
  | Call_functionalObjectProperty ope => Ontology_functionalObjectProperty self ope
  | Call_inverseFunctionalObjectProperty ope => Ontology_inverseFunctionalObjectProperty self ope
  | Call_objectPropertyDomain ope ce => Ontology_objectPropertyDomain self ope ce
  | Call_objectPropertyRange ope ce => Ontology_objectPropertyRange self ope ce
  | Call_imports import_ => Ontology_imports self import_
  end.

(** The chain [self.m1(...).m2(...)...]: each method is called on what the
    call before it returned. *)
Definition chain (self : ref) (cs : list call) : M value :=
  for_each (fun c v => match v with
                       | VOntology r => Ontology_call r c
                       | _ => raise AttributeError
                       end) cs (VOntology self).

(** The list slot that a call extends and the element it appends there, the
    objects being [h]. *)
Definition made (h : gmap ref obj) (c : call) : result (string * value) :=
  match c with
  | Call_annotation prop val =>
      x ← construct "Annotation" [prop; val]; Ok ("annotations", x)
  | Call_declaration decl =>
      x ← construct "Declaration" [decl]; Ok ("axioms", x)
  | Call_subClassOf sub sup =>
      c1 ← construct "Class" [sub]; c2 ← construct "Class" [sup];
      x ← construct "SubClassOf" [c1; c2]; Ok ("axioms", x)
  | Call_equivalentClasses classExpressions =>
      x ← construct "EquivalentClasses" classExpressions; Ok ("axioms", x)
  | Call_subObjectPropertyOf sub sup =>
      subp ← construct "SubObjectPropertyExpression" [sub];
      supp ← construct "ObjectPropertyExpression" [sup];
      x ← construct "SubObjectPropertyOf" [subp; supp]; Ok ("axioms", x)
  | Call_inverseObjectProperties exp1 exp2 =>
      exp1p ← construct "ObjectPropertyExpression" [exp1];
      exp2p ← construct "ObjectPropertyExpression" [exp2];
      x ← construct "InverseObjectProperties" [exp1p; exp2p]; Ok ("axioms", x)
  | Call_functionalObjectProperty ope =>
      opep ← construct "ObjectPropertyExpression" [ope];
      x ← construct "FunctionalObjectProperty" [opep]; Ok ("axioms", x)
  | Call_inverseFunctionalObjectProperty ope =>
      opep ← construct "ObjectPropertyExpression" [ope];
      x ← construct "InverseFunctionalObjectProperty" [opep]; Ok ("axioms", x)
  | Call_objectPropertyDomain ope ce =>
      x ← construct "ObjectPropertyDomain" [ope; ce]; Ok ("axioms", x)
  | Call_objectPropertyRange ope ce =>
      x ← construct "ObjectPropertyRange" [ope; ce]; Ok ("axioms", x)
  | Call_imports import_ =>
      x ← match import_ with
          | VOntology r =>
              match h !! r with
              | Some o' => Ontology_attr o' "iri"
              | None => Raise ReferenceError
              end
          | _ => Ok (IRI (py_str import_))
          end;
      Ok ("directlyImportsDocuments", VImport x)
  end.

(** What the calls [cs] append to the slot [k], in the order of the calls. *)
Definition added (h : gmap ref obj) (k : string) (cs : list call) : list value :=
  omap (fun c => match made h c with
                 | Ok (k', x) => if String.eqb k' k then Some x else None
                 | Raise _ => None
                 end) cs.

Definition Ontology_list_slots : list string :=
  ["directlyImportsDocuments"; "axioms"; "annotations"].

(** The world after the object at [self] was replaced by [o]. *)
Definition stored (self : ref) (o : obj) (ω : world) : world :=
  {| heap := <[self := o]> (heap ω); next_ref := next_ref ω; next_bnode := next_bnode ω |}.

(** The graph [g'] holds the triples of [g], in place, and then others. *)
Definition Graph_extends (g g' : Graph) : Prop :=
  exists ts, triples g' = (triples g ++ ts)%list.

(** An entry of a prefix list: a Prefix whose short name is a string or
    None. *)
Definition isinstance_entry (v : value) : bool :=
  match v with
  | VPrefix (VStr _) _ | VPrefix VNone _ => true
  | _ => false
  end.

(** The full identifier of the first entry of [l] named [item]. *)
Definition first_named (item : string) (l : list value) : option value :=
  match List.find (fun p => match p with
                            | VPrefix n _ => py_eq_str n item
                            | _ => false
                            end) l with
  | Some (VPrefix _ f) => Some f
  | _ => None
  end.

(** A name for which assignment on a document declares a prefix. *)
Definition declares_prefix (key : string) : bool :=
  negb (startswith_underscore key || str_in key ["prefixDeclarations"; "ontology"]).

(** The assignments [self.k = v] of [kw], in turn. *)
Definition Document_assign (self : obj) (kw : list (string * value)) : result obj :=
  foldl (fun (acc : result obj) '(k, v) => self ← acc; Document___setattr__ self k v)
        (Ok self) kw.

(** A name and a value for which [self.k = v] declares the prefix that
    [prefixes] declares for them: the name is not empty and declares a
    prefix, the value is a string. *)
Definition plain_prefix (kv : string * value) : bool :=
  declares_prefix kv.1 && negb (String.eqb kv.1 "")
  && match kv.2 with VStr _ => true | _ => false end.

(** The writer after a child was written: an identifier, an Import of an
    identifier, an axiom, an annotation or a prefix; None writes nothing. *)
Definition child_written (v : value) (w : FunctionalWriter) : FunctionalWriter :=
  match v with
  | VIRI s => w_emit (abbreviate (w_namespaces w) s) w
  | VImport (VIRI s) =>
      w_close (w_emit (abbreviate (w_namespaces w) s) (w_emit "Import(" w))
  | VAxiom a => w_emit (axiom_functional a) w
  | VAnnotation a =>
      w_emit ("Annotation(" ++ abbreviate (w_namespaces w) (annotation_property a)
                ++ " " ++ AnnotationValue_text (w_namespaces w) (annotation_value a)
                ++ ")") w
  | VPrefix n f => w_emit ("Prefix(" ++ py_str n ++ ":=<" ++ py_str f ++ ">)") w
  | _ => w
  end.

Definition isinstance_child (v : value) : bool :=
  match v with
  | VIRI _ | VImport (VIRI _) | VAxiom _ | VAnnotation _ | VPrefix _ _ => true
  | _ => false
  end.

(** The writer after the children [l] were written, a line break after
    each. *)
Definition children_written (l : list value) (w : FunctionalWriter) : FunctionalWriter :=
  foldl (fun w v => w_br true (child_written v w)) w l.

(** The writer after an ontology was written: the keyword, the identifier,
    the version, a line break when there is any import, annotation or axiom,
    then the imports, the annotations and the axioms. *)
Definition Ontology_written (iri version : value) (imports annotations axioms : list value)
    (w : FunctionalWriter) : FunctionalWriter :=
  w_close
    (children_written axioms
       (children_written annotations
          (children_written imports
             (w_br (truthy (VList imports) || truthy (VList annotations)
                    || truthy (VList axioms))
                (child_written version (child_written iri (w_emit "Ontology(" w))))))).

(** The writer whose registry holds the prefixes [ps], bound in turn. *)
Definition w_bound (ps : list value) (w : FunctionalWriter) : FunctionalWriter :=
  foldl (fun w p => match p with
                    | VPrefix n f =>
                        {| output := output w;
                           w_namespaces := bind (py_str n) (py_str f) (w_namespaces w) |}
                    | _ => w
                    end) w ps.

(** The namespace bindings after the [to_rdf] of each of the prefixes [ps]
    registered it in turn, or the error of the first that raised. *)
Fixpoint registered (ps : list value) (ns : list (string * string))
    : result (list (string * string)) :=
  match ps with
  | [] => Ok ns
  | VPrefix n f :: ps => ns ← Prefix_register n f ns; registered ps ns
  | _ :: ps => registered ps ns
  end.

End SugarVocabulary.

(** * Sample values *)

(** The bindings after a prefix was registered in a graph, when a name that
    is bound already is kept and the new binding takes a new name. *)
Definition register_kept (p ns : string) (l : list (string * string))
    : list (string * string) :=
  if existsb (fun b => String.eqb b.1 p && String.eqb b.2 ns) l then l
  else if existsb (fun b => String.eqb b.1 p) l then (l ++ [(String.append p "1", ns)])%list
  else (l ++ [(p, ns)])%list.

(** A run-time with nothing inherited, identifiers in full form and no
    default namespace, where every plain string passes for an IRI, the sum
    of a list read from a slot with anything is None, the value in the
    version slot has no [full_uri], and registering a prefix keeps the
    bindings there are. *)
Definition plain : Outside :=
  {| inherited_attr := fun _ => None;
     foreign_str := fun _ => "";
     resolve := fun _ s => s;
     abbreviate := fun _ s => "<" ++ s ++ ">";
     default_namespaces := [];
     str_isinstance_IRI := fun _ => true;
     foreign_add := fun a _ => match a with
                               | VList _ => Ok VNone
                               | _ => Raise TypeError
                               end;
     slot_full_uri := fun _ _ => None;
     Prefix_register := fun n f l =>
       match n, f with
       | VStr p, VStr ns => Ok (register_kept p ns l)
       | _, _ => Raise TypeError
       end |}.

Definition rdfs_subClassOf : node := URIRef "http://www.w3.org/2000/01/rdf-schema#subClassOf".

(** A subclass axiom between two named classes, and one whose superclass is
    an anonymous restriction. *)
Definition sample_axiom : OwlAxiom :=
  {| axiom_functional := "SubClassOf(<http://x/A> <http://x/B>)";
     axiom_fresh := 0;
     axiom_triples := [(URIRef "http://x/A", rdfs_subClassOf, URIRef "http://x/B")] |}.

Definition sample_restriction : OwlAxiom :=
  {| axiom_functional := "SubClassOf(<http://x/A> ObjectSomeValuesFrom(<http://x/p> <http://x/B>))";
     axiom_fresh := 1;
     axiom_triples := [(URIRef "http://x/A", rdfs_subClassOf, BNode 0);
                       (BNode 0, RDF_type, URIRef "http://www.w3.org/2002/07/owl#Restriction")] |}.

(** The object of [Ontology(IRI("http://x/o"), Import(IRI("http://x/i")), a)],
    [a] the restriction axiom, and the object of [Ontology(a)]. *)
Definition sample_named : obj :=
  <["annotations" := VList []]>
    (<["axioms" := VList [VAxiom sample_restriction]]>
       (<["directlyImportsDocuments" := VList [VImport (VIRI "http://x/i")]]>
          (<["iri" := VIRI "http://x/o"]> ∅))).

Definition sample_anonymous : obj :=
  <["annotations" := VList []]>
    (<["axioms" := VList [VAxiom sample_restriction]]>
       (<["directlyImportsDocuments" := VList []]> ∅)).

(** A world holding the two, and the world before anything was built. *)
Definition sample_world : world :=
  {| heap := <[1 := sample_anonymous]> (<[0 := sample_named]> ∅);
     next_ref := 2; next_bnode := 0 |}.

Definition empty_world : world := {| heap := ∅; next_ref := 0; next_bnode := 0 |}.

(** The ontology with an identifier and a version, and nothing else. *)
Definition sample_versioned : obj :=
  <["annotations" := VList []]>
    (<["axioms" := VList []]>
       (<["directlyImportsDocuments" := VList []]>
          (<["version" := VIRI "http://x/v"]> (<["iri" := VIRI "http://x/o"]> ∅)))).

(** A document with no prefix and no ontology. *)
Definition sample_document : obj :=
  <["ontology" := VNone]> (<["prefixDeclarations" := VList []]> ∅).

(** A library whose expression classes return their argument, whose
    Annotation takes two identifiers, whose SubClassOf of two identifiers is
    the axiom of one triple, and whose other axiom classes return an axiom
    with no triple, written as the name of its class; every string but the
    empty one passes its PrefixName check. *)
Definition plain_library : Library :=
  {| construct := fun c args =>
       if str_in c ["Class"; "ObjectPropertyExpression"; "SubObjectPropertyExpression"]
       then match args with
            | [x] => Ok x
            | _ => Raise TypeError
            end
       else if String.eqb c "Annotation"
       then match args with
            | [VIRI p; VIRI v] =>
                Ok (VAnnotation {| annotation_property := p; annotation_value := AV_IRI v |})
            | _ => Raise TypeError
            end
       else if String.eqb c "SubClassOf"
       then match args with
            | [VIRI a; VIRI b] =>
                Ok (VAxiom {| axiom_functional := "SubClassOf(<" ++ a ++ "> <" ++ b ++ ">)";
                              axiom_fresh := 0;
                              axiom_triples := [(URIRef a, rdfs_subClassOf, URIRef b)] |})
            | _ => Raise TypeError
            end
       else Ok (VAxiom {| axiom_functional := c ++ "()"; axiom_fresh := 0;
                          axiom_triples := [] |});
     base_attr := fun _ => None;
     isinstance_PrefixName := fun item => negb (String.eqb item "") |}.

(** A document with one prefix that holds the ontology at reference 0. *)
Definition sample_prefixed : obj :=
  <["ontology" := VOntology 0]>
    (<["prefixDeclarations" := VList [VPrefix (VStr "ex") (VStr "http://example.org/")]]> ∅).

(** The calls of the chain
    [o.subClassOf(A, B).annotation(p, v).imports(o0).declaration(C)], for
    [o0] the ontology at reference 0. *)
Definition sample_calls : list call :=
  [Call_subClassOf (VIRI "http://x/A") (VIRI "http://x/B");
   Call_annotation (VIRI "http://x/p") (VIRI "http://x/v");
   Call_imports (VOntology 0);
   Call_declaration (VIRI "http://x/C")].

(** Two named fields, in the two orders. *)
Definition sample_kwargs : list (string * value) :=
  [("iri", VIRI "http://x/o"); ("axioms", VList [VAxiom sample_axiom])].

Definition sample_kwargs_swapped : list (string * value) :=
  [("axioms", VList [VAxiom sample_axiom]); ("iri", VIRI "http://x/o")].

(** * Properties *)

Section Constructor.
Context `{!Outside}.

(** ** Reading the slots back *)

Lemma result_bind_Ok {A B} (m : result A) (f : A -> result B) b :
  m ≫= f = Ok b -> exists a, m = Ok a /\ f a = Ok b.
Proof. destruct m as [a|e]; simpl; [eauto | discriminate]. Qed.

Lemma pop_while_app p l rest :
  forallb p l = true ->
  match rest with [] => True | x :: _ => p x = false end ->
  pop_while p (l ++ rest) = (l, rest).
Proof.
  intros Hl Hrest. induction l as [|a l IH]; simpl in *.
  - destruct rest as [|x rest]; [done|]. simpl. by rewrite Hrest.
  - apply andb_prop in Hl as [Ha Hl]. rewrite Ha, (IH Hl). done.
Qed.

Lemma pop_while_head p args :
  match (pop_while p args).2 with [] => True | x :: _ => p x = false end.
Proof.
  induction args as [|a args IH]; simpl; [done|].
  destruct (p a) eqn:Ha; simpl; [|by rewrite Ha].
  destruct (pop_while p args); done.
Qed.

Lemma Ontology_getattr_ext (s s' : obj) k :
  s !! k = s' !! k -> Ontology_getattr s k = Ontology_getattr s' k.
Proof. unfold Ontology_getattr. by intros ->. Qed.

Lemma apply_kwarg_getattr (self s : obj) k v :
  apply_kwarg self (k, v) = Ok s ->
  exists cur x, Ontology_getattr self k = Some cur /\ kwarg_slot k cur v = Ok x
    /\ Ontology_getattr s k = Some x /\ forall k', k' ≠ k -> s !! k' = self !! k'.
Proof.
  unfold apply_kwarg, kwarg_slot. intros Hs.
  destruct (Ontology_getattr self k) as [cur|] eqn:Hcur; [|discriminate].
  exists cur.
  assert (Hins : forall x, Ontology_getattr (<[k:=x]> self) k = Some x).
  { intros x. unfold Ontology_getattr. by rewrite lookup_insert_eq. }
  assert (Hne : forall x k', k' ≠ k -> (<[k:=x]> self : obj) !! k' = self !! k').
  { intros x k' Hk. by rewrite lookup_insert_ne. }
  destruct cur; try (injection Hs as <-; eauto 10);
    (destruct (String.eqb k "annotations");
       [injection Hs as <-; eauto 10
       |apply result_bind_Ok in Hs as (new & Hadd & [= <-]); eauto 10]).
Qed.

Lemma kwargs_lookup_elem kwargs k v :
  NoDup kwargs.*1 -> (k, v) ∈ kwargs -> kwargs_lookup kwargs k = Some v.
Proof.
  induction kwargs as [|[k0 v0] kwargs IH]; simpl; intros Hnd Hin.
  - by apply elem_of_nil in Hin.
  - apply NoDup_cons in Hnd as [Hk0 Hnd].
    apply elem_of_cons in Hin as [[= -> ->]|Hin].
    + by rewrite String.eqb_refl.
    + destruct (String.eqb_spec k0 k) as [->|Hne]; [|by apply IH].
      exfalso. apply Hk0. apply list_elem_of_fmap. by exists (k, v).
Qed.

Lemma kwargs_lookup_None kwargs k :
  kwargs_lookup kwargs k = None <-> k ∉ kwargs.*1.
Proof.
  induction kwargs as [|[k0 v0] kwargs IH]; simpl.
  - split; [intros _; apply not_elem_of_nil | done].
  - rewrite not_elem_of_cons. destruct (String.eqb_spec k0 k) as [->|Hne].
    + split; [discriminate | intros [? _]; done].
    + rewrite IH. split; [intros ?; split; [by intros -> | done] | intros [_ ?]; done].
Qed.

(** The named fields, applied in turn, leave in every slot what the one
    field of that name leaves there, and nothing else changes. *)
Lemma apply_kwargs_getattr kwargs : forall (self s : obj),
  NoDup kwargs.*1 ->
  apply_kwargs self kwargs = Ok s ->
  forall k,
    match kwargs_lookup kwargs k with
    | None => s !! k = self !! k
    | Some v => exists cur x, Ontology_getattr self k = Some cur
                  /\ kwarg_slot k cur v = Ok x /\ Ontology_getattr s k = Some x
    end.
Proof.
  induction kwargs as [|[k0 v0] kwargs IH]; simpl; intros self s Hnd Hs k.
  - by injection Hs as <-.
  - apply NoDup_cons in Hnd as [Hk0 Hnd].
    apply result_bind_Ok in Hs as (s1 & H1 & Hs).
    apply apply_kwarg_getattr in H1 as (cur & x & Hcur & Hx & Hs1 & Hframe).
    specialize (IH _ _ Hnd Hs).
    destruct (String.eqb_spec k0 k) as [->|Hne].
    + exists cur, x. split_and!; [done..|].
      specialize (IH k). apply kwargs_lookup_None in Hk0. rewrite Hk0 in IH.
      by rewrite (Ontology_getattr_ext _ _ _ IH).
    + specialize (IH k). destruct (kwargs_lookup kwargs k) as [v|].
      * destruct IH as (cur' & x' & Hcur' & Hx' & Hs').
        exists cur', x'. split_and!; [|done..].
        rewrite <- Hcur'. apply Ontology_getattr_ext. symmetry. by apply Hframe.
      * rewrite IH. by apply Hframe.
Qed.

Lemma Ontology_init_unfold args kwargs :
  Ontology___init__ args kwargs =
  s ← apply_kwargs (before_kwargs args kwargs) kwargs;
  match (Ontology_positional args).2 with
  | [] => Ok s
  | rest => Raise (ValueError_Unrecognized_arguments rest)
  end.
Proof.
  unfold Ontology___init__, before_kwargs.
  by destruct (Ontology_positional args) as [self [|x rest]].
Qed.

Lemma apply_kwarg_ok (self : obj) k v cur x :
  Ontology_getattr self k = Some cur -> kwarg_slot k cur v = Ok x ->
  exists s, apply_kwarg self (k, v) = Ok s.
Proof.
  unfold apply_kwarg, kwarg_slot. intros -> Hx.
  destruct cur; eauto; (destruct (String.eqb k "annotations"); [eauto|]);
    rewrite Hx; simpl; eauto.
Qed.

Lemma apply_kwargs_ok kwargs : forall self : obj,
  NoDup kwargs.*1 ->
  (forall k v, (k, v) ∈ kwargs ->
     exists cur x, Ontology_getattr self k = Some cur /\ kwarg_slot k cur v = Ok x) ->
  exists s, apply_kwargs self kwargs = Ok s.
Proof.
  induction kwargs as [|[k0 v0] kwargs IH]; intros self Hnd Hgood; [simpl; eauto|].
  rewrite fmap_cons in Hnd. apply NoDup_cons in Hnd as [Hk0 Hnd].
  destruct (Hgood k0 v0) as (cur & x & Hcur & Hx); [apply elem_of_cons; auto|].
  destruct (apply_kwarg_ok _ _ _ _ _ Hcur Hx) as [s1 H1].
  cbn [apply_kwargs]. rewrite H1. simpl.
  apply IH; [done|]. intros k v Hin.
  destruct (Hgood k v) as (cur' & x' & Hcur' & Hx'); [apply elem_of_cons; auto|].
  exists cur', x'. split; [|done]. rewrite <- Hcur'.
  apply Ontology_getattr_ext.
  apply apply_kwarg_getattr in H1 as (_ & _ & _ & _ & _ & Hframe).
  apply Hframe. intros ->. apply Hk0, list_elem_of_fmap. by exists (k0, v).
Qed.

Lemma pop_if_stop p l :
  match l with [] => True | x :: _ => p x = false end -> pop_if p l = (None, l).
Proof. destruct l as [|x l]; simpl; [done|]. by intros ->. Qed.

Lemma head_fails (p q : value -> bool) l1 l2 :
  (forall x, q x = true -> p x = false) ->
  forallb q l1 = true ->
  match l2 with [] => True | x :: _ => p x = false end ->
  match (l1 ++ l2)%list with [] => True | x :: _ => p x = false end.
Proof.
  intros Hpq Hl1 Hl2. destruct l1 as [|x l1]; simpl in *; [done|].
  apply andb_prop in Hl1 as [Hx _]. by apply Hpq.
Qed.

Lemma head_forall (p q : value -> bool) l :
  (forall x, q x = true -> p x = false) ->
  forallb q l = true ->
  match l with [] => True | x :: _ => p x = false end.
Proof.
  intros Hpq Hl. destruct l as [|x l]; simpl in *; [done|].
  apply andb_prop in Hl as [Hx _]. by apply Hpq.
Qed.

Lemma Import_not_identifier x : isinstance_Import x = true -> is_identifier x = false.
Proof. by destruct x. Qed.

Lemma Axiom_not_identifier x : isinstance_Axiom x = true -> is_identifier x = false.
Proof. by destruct x. Qed.

Lemma Axiom_not_Import x : isinstance_Axiom x = true -> isinstance_Import x = false.
Proof. by destruct x. Qed.

Lemma Ontology_positional_valid ids imps axs :
  (length ids ≤ 2)%nat ->
  forallb is_identifier ids = true ->
  forallb isinstance_Import imps = true ->
  forallb isinstance_Axiom axs = true ->
  Ontology_positional (ids ++ imps ++ axs)%list =
  (<["axioms" := VList axs]>
     (<["directlyImportsDocuments" := VList imps]>
        (set_opt "version" (ids !! 1) (set_opt "iri" (ids !! 0) ∅))), []).
Proof.
  intros Hlen Hids Himps Haxs.
  assert (Htail : match (imps ++ axs)%list with [] => True | x :: _ => is_identifier x = false end).
  { apply (head_fails _ isinstance_Import); [apply Import_not_identifier|done|].
    apply (head_forall _ isinstance_Axiom); [apply Axiom_not_identifier|done]. }
  assert (Hwhile : pop_while isinstance_Import (imps ++ axs)%list = (imps, axs)).
  { apply pop_while_app; [done|].
    apply (head_forall _ isinstance_Axiom); [apply Axiom_not_Import|done]. }
  assert (Hwhile' : pop_while isinstance_Axiom axs = (axs, [])).
  { rewrite <- (app_nil_r axs) at 1. by apply pop_while_app. }
  unfold Ontology_positional.
  destruct ids as [|i1 [|i2 [|i3 ids]]]; simpl in *; [| | |lia].
  - rewrite !(pop_if_stop _ _ Htail), Hwhile, Hwhile'. done.
  - apply andb_prop in Hids as [-> _].
    rewrite (pop_if_stop _ _ Htail), Hwhile, Hwhile'. done.
  - apply andb_prop in Hids as [-> Hids]. apply andb_prop in Hids as [H2 _].
    simpl. rewrite H2, Hwhile, Hwhile'. done.
Qed.

(** The version slot is filled from the positional values only after the
    identifier slot. *)
Lemma Ontology_positional_version args :
  is_Some ((Ontology_positional args).1 !! "version") ->
  is_Some ((Ontology_positional args).1 !! "iri").
Proof.
  unfold Ontology_positional.
  destruct (pop_if is_identifier args) as [iri args1] eqn:H1.
  destruct (pop_if is_identifier args1) as [version args2] eqn:H2.
  destruct (pop_while isinstance_Import args2) as [imports args3].
  destruct (pop_while isinstance_Axiom args3) as [axioms args4]. simpl.
  rewrite !lookup_insert_ne by done.
  destruct iri as [i|]; simpl.
  - intros _. destruct version; simpl.
    + rewrite lookup_insert_ne by done. rewrite lookup_insert_eq. eauto.
    + rewrite lookup_insert_eq. eauto.
  - destruct version as [v|]; simpl.
    + exfalso. destruct args as [|a args]; simpl in H1; [injection H1 as <-; discriminate|].
      destruct (is_identifier a) eqn:Ha; [discriminate|].
      injection H1 as <-. simpl in H2. rewrite Ha in H2. discriminate.
    + rewrite lookup_empty. by intros [? ?].
Qed.

(** What the slots read back, for an object holding the positional values
    of the grammar's form and [x] in its axioms slot. *)
Lemma slot_contents_of (ids imps : list value) (o : obj) (x : value) :
  (length ids ≤ 2)%nat ->
  forallb is_identifier ids = true ->
  Ontology_getattr o "iri" = Some (default VNone (ids !! 0)) ->
  Ontology_getattr o "version" = Some (default VNone (ids !! 1)) ->
  Ontology_getattr o "directlyImportsDocuments" = Some (VList imps) ->
  Ontology_getattr o "axioms" = Some x ->
  slot_contents o = (ids ++ imps ++ items (Some x))%list.
Proof.
  intros Hlen Hids Hiri Hver Himp Hax. unfold slot_contents.
  rewrite Hiri, Hver, Himp, Hax.
  destruct ids as [|i1 [|i2 [|i3 ids]]]; simpl in *; [done| | |lia].
  - apply andb_prop in Hids as [H1 _]. by destruct i1.
  - apply andb_prop in Hids as [H1 Hids]. apply andb_prop in Hids as [H2 _].
    by destruct i1, i2.
Qed.

(** C1.  On a positional sequence of the grammar's form, at most two
    identifiers that are no axioms, then Imports, then axioms, the
    constructor called with no named field returns an object whose slots,
    read back in slot order, give the sequence itself, and the positional
    values fill the version slot only after the identifier slot.  With the
    named field [axioms] the constructor stores in the slot the sum of the
    list it holds and the value given, as the class of that list computes
    it and without looking at it: the slots then read back as the
    identifiers, the imports and whatever list that sum is, nothing when it
    is None. *)
Theorem Ontology_init_slot_contents (ids imps axs : list value) :
  (length ids ≤ 2)%nat ->
  forallb is_identifier ids = true ->
  forallb isinstance_Import imps = true ->
  forallb isinstance_Axiom axs = true ->
  (exists o, Ontology___init__ (ids ++ imps ++ axs)%list [] = Ok o
             /\ slot_contents o = (ids ++ imps ++ axs)%list)
  /\ (forall args, is_Some ((Ontology_positional args).1 !! "version") ->
                   is_Some ((Ontology_positional args).1 !! "iri"))
  /\ (forall v, Ontology___init__ (ids ++ imps ++ axs)%list [("axioms", v)]
                = x ← foreign_add (VList axs) v;
                  Ok (<["axioms" := x]>
                        (before_kwargs (ids ++ imps ++ axs)%list [("axioms", v)])))
  /\ (forall v x, foreign_add (VList axs) v = Ok x ->
        exists o, Ontology___init__ (ids ++ imps ++ axs)%list [("axioms", v)] = Ok o
                  /\ Ontology_getattr o "axioms" = Some x
                  /\ slot_contents o = (ids ++ imps ++ items (Some x))%list).
Proof.
  intros Hlen Hids Himps Haxs.
  pose proof (Ontology_positional_valid ids imps axs Hlen Hids Himps Haxs) as Hpos.
  set (self0 := fun kw : list (string * value) =>
                  before_kwargs (ids ++ imps ++ axs)%list kw).
  assert (Hiri : forall kw, Ontology_getattr (self0 kw) "iri" = Some (default VNone (ids !! 0))).
  { intros kw. unfold self0, before_kwargs, Ontology_getattr. rewrite Hpos. simpl.
    rewrite !lookup_insert_ne by done.
    destruct ids as [|i1 [|i2 ids']]; simpl; rewrite ?lookup_insert_ne by done;
      rewrite ?lookup_insert_eq, ?lookup_empty; done. }
  assert (Hver : forall kw, Ontology_getattr (self0 kw) "version" = Some (default VNone (ids !! 1))).
  { intros kw. unfold self0, before_kwargs, Ontology_getattr. rewrite Hpos. simpl.
    rewrite !lookup_insert_ne by done.
    destruct ids as [|i1 [|i2 ids']]; simpl; rewrite ?lookup_insert_ne by done;
      rewrite ?lookup_insert_eq, ?lookup_empty; done. }
  assert (Himp : forall kw, Ontology_getattr (self0 kw) "directlyImportsDocuments" = Some (VList imps)).
  { intros kw. unfold self0, before_kwargs, Ontology_getattr. rewrite Hpos. simpl.
    rewrite !lookup_insert_ne by done. by rewrite lookup_insert_eq. }
  assert (Hax : forall kw, Ontology_getattr (self0 kw) "axioms" = Some (VList axs)).
  { intros kw. unfold self0, before_kwargs, Ontology_getattr. rewrite Hpos. simpl.
    rewrite !lookup_insert_ne by done. by rewrite lookup_insert_eq. }
  assert (Hno : Ontology___init__ (ids ++ imps ++ axs)%list [] = Ok (self0 [])).
  { rewrite Ontology_init_unfold, Hpos. reflexivity. }
  assert (Hnamed : forall v, Ontology___init__ (ids ++ imps ++ axs)%list [("axioms", v)]
                   = x ← foreign_add (VList axs) v;
                     Ok (<["axioms" := x]> (self0 [("axioms", v)]))).
  { intros v. rewrite Ontology_init_unfold, Hpos. cbn [snd apply_kwargs].
    fold (self0 [("axioms", v)]). unfold apply_kwarg. rewrite Hax. cbn [String.eqb].
    change (py_add (VList axs) v) with (foreign_add (VList axs) v).
    by destruct (foreign_add (VList axs) v). }
  split_and!.
  - exists (self0 []). split; [exact Hno|].
    rewrite (slot_contents_of ids imps _ (VList axs)) by done. done.
  - apply Ontology_positional_version.
  - exact Hnamed.
  - intros v x Hx. exists (<["axioms" := x]> (self0 [("axioms", v)])).
    assert (Hget : forall k, k ≠ "axioms" ->
              Ontology_getattr (<["axioms" := x]> (self0 [("axioms", v)])) k
              = Ontology_getattr (self0 [("axioms", v)]) k).
    { intros k Hk. apply Ontology_getattr_ext. by apply lookup_insert_ne. }
    assert (Hx' : Ontology_getattr (<["axioms" := x]> (self0 [("axioms", v)])) "axioms" = Some x).
    { unfold Ontology_getattr. by rewrite lookup_insert_eq. }
    split_and!; [by rewrite Hnamed, Hx|exact Hx'|].
    apply slot_contents_of; [done|done|by rewrite Hget|by rewrite Hget|by rewrite Hget|exact Hx'].
Qed.

Lemma apply_kwargs_app l1 l2 : forall self : obj,
  apply_kwargs self (l1 ++ l2) = s ← apply_kwargs self l1; apply_kwargs s l2.
Proof.
  induction l1 as [|kv l1 IH]; intros self; [done|].
  cbn [apply_kwargs app]. destruct (apply_kwarg self kv) as [s1|e]; simpl; [apply IH|done].
Qed.

Lemma Ontology_positional_leftover args x rest :
  (Ontology_positional args).2 = x :: rest -> isinstance_Axiom x = false.
Proof.
  unfold Ontology_positional.
  destruct (pop_if is_identifier args) as [iri args1].
  destruct (pop_if is_identifier args1) as [version args2].
  destruct (pop_while isinstance_Import args2) as [imports args3].
  pose proof (pop_while_head isinstance_Axiom args3) as Hhead.
  destruct (pop_while isinstance_Axiom args3) as [axioms args4]. simpl in *.
  intros ->. done.
Qed.

(** C5, as amended.  When a positional value is left over after the four
    slots, the constructor returns no object.  The named fields are applied
    before the left-over values are looked at: when they are applied without
    error (in particular when there is none) the error is the
    unrecognized-arguments one and carries the values left, the offending
    one first; when applying them raises, that error is raised instead. *)
Theorem Ontology_init_leftover (args : list value) (kwargs : list (string * value))
    (x : value) (rest : list value) :
  (Ontology_positional args).2 = x :: rest ->
  isinstance_Axiom x = false
  /\ (forall o, Ontology___init__ args kwargs ≠ Ok o)
  /\ (forall s, apply_kwargs (before_kwargs args kwargs) kwargs = Ok s ->
        Ontology___init__ args kwargs = Raise (ValueError_Unrecognized_arguments (x :: rest)))
  /\ (forall e, apply_kwargs (before_kwargs args kwargs) kwargs = Raise e ->
        Ontology___init__ args kwargs = Raise e)
  /\ Ontology___init__ args [] = Raise (ValueError_Unrecognized_arguments (x :: rest)).
Proof.
  intros Hrest. split; [by eapply Ontology_positional_leftover|].
  rewrite !Ontology_init_unfold, Hrest. split_and!.
  - intros o. by destruct (apply_kwargs _ kwargs).
  - by intros s ->.
  - by intros e ->.
  - done.
Qed.

(** The instance dictionary before the named fields holds slots only. *)
Lemma before_kwargs_slots args kwargs k :
  str_in k Ontology_slots = false -> before_kwargs args kwargs !! k = None.
Proof.
  intros Hk. unfold str_in, Ontology_slots in Hk. cbn [existsb] in Hk.
  repeat (apply orb_false_elim in Hk as [?%String.eqb_neq Hk]).
  unfold before_kwargs, Ontology_positional.
  destruct (pop_if is_identifier args) as [iri args1].
  destruct (pop_if is_identifier args1) as [version args2].
  destruct (pop_while isinstance_Import args2) as [imports args3].
  destruct (pop_while isinstance_Axiom args3) as [axioms args4]. cbn [fst].
  rewrite !lookup_insert_ne by done.
  destruct iri, version; cbn [set_opt]; rewrite ?lookup_insert_ne by done;
    apply lookup_empty.
Qed.

Lemma method_not_slot m :
  str_in m Ontology_methods = true ->
  str_in m Ontology_slots = false /\ str_in m ["iri"; "version"] = false
  /\ String.eqb m "annotations" = false.
Proof.
  unfold str_in, Ontology_methods. cbn [existsb]. intros Hm.
  repeat (apply orb_prop in Hm as [Hm|Hm]; [apply String.eqb_eq in Hm as ->; done|]).
  discriminate.
Qed.

(** C6.  A named field whose name is no attribute of the object makes the
    constructor fail, with the unknown-argument error when the fields before
    it were applied without error; a named field whose slot holds None is
    assigned to it; for one whose slot holds a list, the slot is assigned
    the sum of that list and the value, as the class of the list computes
    it.  A name is looked up as an attribute, so the name of a method of the
    class is not taken for unknown: with a list for value the sum of the
    bound method and the list raises TypeError, and the constructor called
    with such a field alone raises it, whatever the positional values. *)
Theorem Ontology_init_named_fields (args : list value) (kwargs : list (string * value))
    (k : string) (v : value) :
  NoDup kwargs.*1 ->
  (k, v) ∈ kwargs ->
  (Ontology_getattr (before_kwargs args kwargs) k = None ->
     (exists e, Ontology___init__ args kwargs = Raise e)
     /\ forall pre post s, kwargs = (pre ++ (k, v) :: post)%list ->
          apply_kwargs (before_kwargs args kwargs) pre = Ok s ->
          Ontology___init__ args kwargs = Raise (ValueError_Unknown_argument k))
  /\ (forall self : obj, Ontology_getattr self k = Some VNone ->
        apply_kwarg self (k, v) = Ok (<[k := v]> self))
  /\ (forall (self : obj) l, Ontology_getattr self k = Some (VList l) ->
        k ≠ "annotations" ->
        apply_kwarg self (k, v) = x ← foreign_add (VList l) v; Ok (<[k := x]> self))
  /\ (forall (self : obj) m l, str_in m Ontology_methods = true -> self !! m = None ->
        apply_kwarg self (m, VList l) = Raise TypeError)
  /\ (forall args' m l, str_in m Ontology_methods = true ->
        Ontology___init__ args' [(m, VList l)] = Raise TypeError).
Proof.
  intros Hnd Hin.
  assert (Hmethod : forall (self : obj) m l, str_in m Ontology_methods = true ->
            self !! m = None -> apply_kwarg self (m, VList l) = Raise TypeError).
  { intros self m l Hm Hself. destruct (method_not_slot m Hm) as (_ & Hopt & Hann).
    unfold apply_kwarg, Ontology_getattr, Ontology_class_attr.
    by rewrite Hself, Hopt, Hm, Hann. }
  split_and!.
  - intros Hmissing.
    assert (Hat : forall pre post s, kwargs = (pre ++ (k, v) :: post)%list ->
              apply_kwargs (before_kwargs args kwargs) pre = Ok s ->
              Ontology___init__ args kwargs = Raise (ValueError_Unknown_argument k)).
    { intros pre post s Hsplit Hpre. rewrite Ontology_init_unfold.
      rewrite Hsplit at 2. rewrite apply_kwargs_app, Hpre. simpl.
      assert (Hk : k ∉ pre.*1).
      { rewrite Hsplit, fmap_app, fmap_cons in Hnd.
        apply NoDup_app in Hnd as (_ & Hdisj & _). intros Hk.
        apply (Hdisj _ Hk). apply elem_of_cons. by left. }
      assert (Hpre_nd : NoDup pre.*1).
      { rewrite Hsplit, fmap_app in Hnd. by apply NoDup_app in Hnd as (? & _ & _). }
      pose proof (apply_kwargs_getattr pre _ _ Hpre_nd Hpre k) as Hget.
      apply kwargs_lookup_None in Hk. rewrite Hk in Hget.
      unfold apply_kwarg. rewrite (Ontology_getattr_ext _ _ _ Hget), Hmissing. done. }
    split; [|done].
    apply list_elem_of_split in Hin as (pre & post & Hsplit).
    destruct (apply_kwargs (before_kwargs args kwargs) pre) as [s|e] eqn:Hpre.
    + eauto.
    + exists e. rewrite Ontology_init_unfold. rewrite Hsplit at 2.
      by rewrite apply_kwargs_app, Hpre.
  - intros self Hcur. unfold apply_kwarg. by rewrite Hcur.
  - intros self l Hcur Hk. unfold apply_kwarg. rewrite Hcur.
    by destruct (String.eqb_spec k "annotations").
  - exact Hmethod.
  - intros args' m l Hm. rewrite Ontology_init_unfold. cbn [apply_kwargs].
    rewrite Hmethod; [done..|].
    apply before_kwargs_slots. by destruct (method_not_slot m Hm).
Qed.

End Constructor.

Section Rendering.
Context `{!Outside}.

Lemma bind_run {A B} (m : M A) (f : A -> M B) (ω : world) :
  (m ≫= f) ω = match m ω with Ok (a, ω') => f a ω' | Raise e => Raise e end.
Proof. reflexivity. Qed.

Lemma lift_run {A} (r : result A) (ω : world) :
  lift r ω = match r with Ok a => Ok (a, ω) | Raise e => Raise e end.
Proof. reflexivity. Qed.

Lemma deref_run r ω o : heap ω !! r = Some o -> deref r ω = Ok (o, ω).
Proof. unfold deref. by intros ->. Qed.

Lemma Ontology_attr_Some (o : obj) k v :
  Ontology_getattr o k = Some v -> Ontology_attr o k = Ok v.
Proof. unfold Ontology_attr. by intros ->. Qed.

(** ** Import *)

Lemma Import_to_rdf_resolves iri s g ω :
  Import_resolves (heap ω) iri s -> Import_to_rdf iri g ω = Ok (URIRef s, ω).
Proof.
  intros [->|(r & o & -> & Hr & Hiri)]; [done|].
  unfold Import_to_rdf, Import_ontology_iri. cbn [isinstance_IRI].
  rewrite !bind_run, (deref_run _ _ _ Hr), lift_run, (Ontology_attr_Some _ _ _ Hiri).
  done.
Qed.

(** C3, as amended.  An Import wrapping a plain identifier gives the
    resource of that identifier as it is, and an Import wrapping an ontology
    that has an identifier gives the resource of the ontology's identifier;
    the graph is not touched. *)
Theorem Import_to_rdf_identifier (iri : value) (s : string) (g : Graph) (ω : world) :
  Import_resolves (heap ω) iri s ->
  Import_to_rdf iri g ω = Ok (URIRef s, ω)
  /\ forall depth, to_rdf (S depth) (VImport iri) g ω = Ok ((Some (URIRef s), g), ω).
Proof.
  intros Hres. split; [by apply Import_to_rdf_resolves|].
  intros depth. cbn [to_rdf]. by rewrite bind_run, (Import_to_rdf_resolves _ _ _ _ Hres).
Qed.

(** ** Ontology.imports *)


(** ** Ontology.to_rdf *)

Lemma Graph_extend_nil g : Graph_extend [] g = g.
Proof. destruct g. unfold Graph_extend. simpl. by rewrite app_nil_r. Qed.

Lemma Graph_extend_app ts1 ts2 g :
  Graph_extend ts2 (Graph_extend ts1 g) = Graph_extend (ts1 ++ ts2) g.
Proof. unfold Graph_extend. simpl. by rewrite app_assoc. Qed.

Lemma Graph_add_extend t g : Graph_add t g = Graph_extend [t] g.
Proof. done. Qed.

Lemma mint_0 ω : mint 0 ω = ω.
Proof. destruct ω. unfold mint. simpl. by rewrite Nat.add_0_r. Qed.

Lemma mint_mint n m ω : mint m (mint n ω) = mint (n + m) ω.
Proof. unfold mint. simpl. by rewrite Nat.add_assoc. Qed.

Lemma import_step depth (u : node) t s g ω :
  Import_resolves (heap ω) t s ->
  ('(n, g) ← to_rdf (S depth) (VImport t) g; n ← term n;
   mret (Graph_add (u, OWL_imports, n) g)) ω
  = Ok (Graph_add (u, OWL_imports, URIRef s) g, ω).
Proof.
  intros Hts. cbn [to_rdf]. by rewrite !bind_run, (Import_to_rdf_resolves _ _ _ _ Hts).
Qed.

Lemma imports_loop depth (u : node) targets names : forall g ω,
  Forall2 (Import_resolves (heap ω)) targets names ->
  for_each (fun imp g =>
              '(n, g) ← to_rdf (S depth) imp g; n ← term n;
              mret (Graph_add (u, OWL_imports, n) g)) (VImport <$> targets) g ω
  = Ok (Graph_extend ((fun s => (u, OWL_imports, URIRef s)) <$> names) g, ω).
Proof.
  intros g ω Hres. revert g.
  induction Hres as [|t s targets names Hts _ IH]; intros g.
  - simpl. by rewrite Graph_extend_nil.
  - cbn [fmap list_fmap for_each]. rewrite bind_run. cbv beta.
    rewrite (import_step _ _ _ _ _ _ Hts), IH, Graph_add_extend, Graph_extend_app. done.
Qed.

Lemma axiom_step depth a g ω :
  ('(_, g) ← to_rdf (S depth) (VAxiom a) g; mret g) ω
  = Ok (Graph_extend (shift_triple (next_bnode ω) <$> axiom_triples a) g,
        mint (axiom_fresh a) ω).
Proof. reflexivity. Qed.

Lemma axioms_loop depth axs : forall g ω,
  for_each (fun axiom g => '(_, g) ← to_rdf (S depth) axiom g; mret g) (VAxiom <$> axs) g ω
  = Ok (Graph_extend (axioms_triples (next_bnode ω) axs) g, mint (axioms_fresh axs) ω).
Proof.
  induction axs as [|a axs IH]; intros g ω.
  - simpl. by rewrite Graph_extend_nil, mint_0.
  - cbn [fmap list_fmap for_each]. rewrite bind_run. cbv beta.
    rewrite axiom_step, IH, Graph_extend_app, mint_mint. done.
Qed.

Lemma annotations_fold (u : node) anns : forall g,
  foldl (fun (acc : result Graph) x =>
           g ← acc;
           match x with
           | VAnnotation a =>
               Ok (Graph_add (u, URIRef (resolve (namespaces g) (annotation_property a)),
                              AnnotationValue_to_rdf (annotation_value a) g) g)
           | _ => Raise AttributeError
           end) (Ok g) (VAnnotation <$> anns)
  = Ok (Graph_extend (annotation_triple u (namespaces g) <$> anns) g).
Proof.
  induction anns as [|a anns IH]; intros g.
  - simpl. by rewrite Graph_extend_nil.
  - cbn [fmap list_fmap foldl]. cbn [mbind result_bind].
    rewrite IH, Graph_add_extend, Graph_extend_app. done.
Qed.

Lemma Annotatable_to_rdf_typed (u : node) anns g :
  Annotatable_to_rdf u (VList (VAnnotation <$> anns)) g
  = Ok (Graph_extend (annotation_triple u (namespaces g) <$> anns) g).
Proof. unfold Annotatable_to_rdf. simpl. apply annotations_fold. Qed.

(** The first steps of [Ontology.to_rdf]: the subject, then the type triple
    and the version triple. *)
Lemma subject_step depth (iri : option string) g ω :
  (if truthy (opt_IRI iri)
   then '(n, g0) ← to_rdf (S depth) (opt_IRI iri) g; n0 ← term n; mret (n0, g0)
   else n ← new_BNode; mret (n, g)) ω
  = Ok ((match iri with
         | Some s => URIRef (resolve (namespaces g) s)
         | None => BNode (next_bnode ω)
         end, g),
        match iri with Some _ => ω | None => mint 1 ω end).
Proof. destruct iri as [s|]; simpl; [done|]. unfold mint. by rewrite Nat.add_1_r. Qed.

Lemma version_step (subject : node) (version : option string) g ω :
  (if truthy (opt_IRI version)
   then u ← lift (full_uri (opt_IRI version) (Graph_add (subject, RDF_type, OWL_Ontology) g));
        mret (Graph_add (subject, OWL_versionIRI, URIRef u)
                (Graph_add (subject, RDF_type, OWL_Ontology) g))
   else mret (Graph_add (subject, RDF_type, OWL_Ontology) g)) ω
  = match version_uri (namespaces g) version with
    | Ok vuri =>
        Ok (Graph_extend ([(subject, RDF_type, OWL_Ontology)] ++ version_triple subject vuri) g,
            ω)
    | Raise e => Raise e
    end.
Proof.
  destruct version as [s|]; [|done].
  cbn [opt_IRI truthy version_uri]. rewrite bind_run, lift_run. cbn [full_uri Graph_add namespaces].
  destruct (slot_full_uri s (namespaces g)) as [u|]; [|done].
  unfold Graph_extend, Graph_add. cbn. by rewrite <- app_assoc.
Qed.

(** The body up to the loop on the imports. *)
Lemma Ontology_to_rdf_body_head depth (self : ref) (g : Graph) (ω : world) (o : obj)
    (iri version : option string) :
  heap ω !! self = Some o ->
  Ontology_getattr o "iri" = Some (opt_IRI iri) ->
  Ontology_getattr o "version" = Some (opt_IRI version) ->
  let subject := match iri with
                 | Some s => URIRef (resolve (namespaces g) s)
                 | None => BNode (next_bnode ω)
                 end in
  let ω1 := match iri with Some _ => ω | None => mint 1 ω end in
  Ontology_to_rdf_body (to_rdf (S depth)) self g ω
  = match version_uri (namespaces g) version with
    | Raise e => Raise e
    | Ok vuri =>
        (imports ← lift (Ontology_attr o "directlyImportsDocuments" ≫= py_iter);
         g ← for_each (fun imp g =>
                         '(n, g) ← to_rdf (S depth) imp g; n ← term n;
                         mret (Graph_add (subject, OWL_imports, n) g)) imports
               (Graph_extend ([(subject, RDF_type, OWL_Ontology)]
                              ++ version_triple subject vuri) g);
         axioms ← lift (Ontology_attr o "axioms" ≫= py_iter);
         g ← for_each (fun axiom g => '(_, g) ← to_rdf (S depth) axiom g; mret g) axioms g;
         annotations ← lift (Ontology_attr o "annotations");
         g ← lift (Annotatable_to_rdf subject annotations g);
         mret (subject, g)) ω1
    end.
Proof.
  intros Hself Hiri Hver subject ω1.
  unfold Ontology_to_rdf_body.
  rewrite bind_run, (deref_run _ _ _ Hself).
  rewrite bind_run, lift_run, (Ontology_attr_Some _ _ _ Hiri).
  rewrite bind_run, subject_step. fold subject ω1. cbv beta iota zeta.
  rewrite bind_run, lift_run, (Ontology_attr_Some _ _ _ Hver).
  rewrite bind_run, version_step.
  by destruct (version_uri (namespaces g) version).
Qed.

(** The closed form of [Ontology.to_rdf] on an ontology whose slots hold
    what they are declared to hold, when [full_uri] returns for the
    version. *)
Lemma Ontology_to_rdf_body_closed depth (self : ref) (g : Graph) (ω : world) (o : obj)
    (iri version vuri : option string) (targets : list value) (names : list string)
    (axs : list OwlAxiom) (anns : list Annotation) :
  heap ω !! self = Some o ->
  Ontology_getattr o "iri" = Some (opt_IRI iri) ->
  Ontology_getattr o "version" = Some (opt_IRI version) ->
  Ontology_getattr o "directlyImportsDocuments" = Some (VList (VImport <$> targets)) ->
  Forall2 (Import_resolves (heap ω)) targets names ->
  Ontology_getattr o "axioms" = Some (VList (VAxiom <$> axs)) ->
  Ontology_getattr o "annotations" = Some (VList (VAnnotation <$> anns)) ->
  version_uri (namespaces g) version = Ok vuri ->
  let subject := match iri with
                 | Some s => URIRef (resolve (namespaces g) s)
                 | None => BNode (next_bnode ω)
                 end in
  let ω1 := match iri with Some _ => ω | None => mint 1 ω end in
  Ontology_to_rdf_body (to_rdf (S depth)) self g ω
  = Ok ((subject,
         Graph_extend (Ontology_triples subject (namespaces g) vuri names
                         (next_bnode ω1) axs anns) g),
        mint (axioms_fresh axs) ω1).
Proof.
  intros Hself Hiri Hver Himp Hres Hax Hann Hvuri subject ω1.
  rewrite (Ontology_to_rdf_body_head depth self g ω o iri version Hself Hiri Hver), Hvuri.
  fold subject ω1.
  rewrite bind_run, lift_run, (Ontology_attr_Some _ _ _ Himp). cbn [mbind result_bind py_iter].
  rewrite bind_run, imports_loop with (names := names);
    [|by destruct iri; subst ω1].
  rewrite bind_run, lift_run, (Ontology_attr_Some _ _ _ Hax). cbn [mbind result_bind py_iter].
  rewrite bind_run, axioms_loop.
  rewrite bind_run, lift_run, (Ontology_attr_Some _ _ _ Hann).
  rewrite bind_run, lift_run, Annotatable_to_rdf_typed.
  cbn [mret M_ret]. rewrite !Graph_extend_app. unfold Ontology_triples.
  cbn [Graph_extend namespaces]. by rewrite <- !app_assoc.
Qed.

(** [to_rdf] raises what [full_uri] raises for the version. *)
Lemma Ontology_to_rdf_body_version depth (self : ref) (g : Graph) (ω : world) (o : obj)
    (iri version : option string) e :
  heap ω !! self = Some o ->
  Ontology_getattr o "iri" = Some (opt_IRI iri) ->
  Ontology_getattr o "version" = Some (opt_IRI version) ->
  version_uri (namespaces g) version = Raise e ->
  Ontology_to_rdf_body (to_rdf (S depth)) self g ω = Raise e.
Proof.
  intros Hself Hiri Hver Hvuri.
  by rewrite (Ontology_to_rdf_body_head depth self g ω o iri version Hself Hiri Hver), Hvuri.
Qed.

Ltac attr :=
  unfold Ontology_getattr;
  repeat first [rewrite lookup_insert_eq | rewrite lookup_insert_ne by done];
  rewrite ?lookup_empty; reflexivity.

Lemma Ontology_to_rdf_unfold (self : ref) (g : Graph) :
  Ontology_to_rdf self g = Ontology_to_rdf_body (to_rdf (S 998)) self g.
Proof. reflexivity. Qed.

Lemma Ontology_to_rdf_closed (self : ref) (g : Graph) (ω : world) (o : obj)
    (iri version vuri : option string) (targets : list value) (names : list string)
    (axs : list OwlAxiom) (anns : list Annotation) :
  heap ω !! self = Some o ->
  Ontology_getattr o "iri" = Some (opt_IRI iri) ->
  Ontology_getattr o "version" = Some (opt_IRI version) ->
  Ontology_getattr o "directlyImportsDocuments" = Some (VList (VImport <$> targets)) ->
  Forall2 (Import_resolves (heap ω)) targets names ->
  Ontology_getattr o "axioms" = Some (VList (VAxiom <$> axs)) ->
  Ontology_getattr o "annotations" = Some (VList (VAnnotation <$> anns)) ->
  version_uri (namespaces g) version = Ok vuri ->
  let subject := match iri with
                 | Some s => URIRef (resolve (namespaces g) s)
                 | None => BNode (next_bnode ω)
                 end in
  let ω1 := match iri with Some _ => ω | None => mint 1 ω end in
  Ontology_to_rdf self g ω
  = Ok ((subject,
         Graph_extend (Ontology_triples subject (namespaces g) vuri names
                         (next_bnode ω1) axs anns) g),
        mint (axioms_fresh axs) ω1).
Proof.
  intros. rewrite Ontology_to_rdf_unfold. by eapply Ontology_to_rdf_body_closed.
Qed.

(** The same, whatever [full_uri] does for the version. *)
Lemma Ontology_to_rdf_typed (self : ref) (g : Graph) (ω : world) (o : obj)
    (iri version : option string) (targets : list value) (names : list string)
    (axs : list OwlAxiom) (anns : list Annotation) :
  heap ω !! self = Some o ->
  Ontology_getattr o "iri" = Some (opt_IRI iri) ->
  Ontology_getattr o "version" = Some (opt_IRI version) ->
  Ontology_getattr o "directlyImportsDocuments" = Some (VList (VImport <$> targets)) ->
  Forall2 (Import_resolves (heap ω)) targets names ->
  Ontology_getattr o "axioms" = Some (VList (VAxiom <$> axs)) ->
  Ontology_getattr o "annotations" = Some (VList (VAnnotation <$> anns)) ->
  let subject := match iri with
                 | Some s => URIRef (resolve (namespaces g) s)
                 | None => BNode (next_bnode ω)
                 end in
  let ω1 := match iri with Some _ => ω | None => mint 1 ω end in
  Ontology_to_rdf self g ω
  = match version_uri (namespaces g) version with
    | Raise e => Raise e
    | Ok vuri =>
        Ok ((subject,
             Graph_extend (Ontology_triples subject (namespaces g) vuri names
                             (next_bnode ω1) axs anns) g),
            mint (axioms_fresh axs) ω1)
    end.
Proof.
  intros Hself Hiri Hver Himp Hres Hax Hann subject ω1.
  destruct (version_uri (namespaces g) version) as [vuri|e] eqn:Hvuri.
  - by apply (Ontology_to_rdf_closed self g ω o iri version vuri targets names axs anns).
  - rewrite Ontology_to_rdf_unfold.
    by apply (Ontology_to_rdf_body_version 998 self g ω o iri version e).
Qed.


Lemma Ontology_new_empty ω :
  Ontology_new [] [] ω = Ok (VOntology (next_ref ω), allocated Ontology_empty ω).
Proof. reflexivity. Qed.

(** C4.  On an ontology whose slots hold what they are declared to hold
    (identifiers or None, Imports that resolve, axioms, annotations),
    [to_rdf] takes as subject the identifier's resource when the identifier
    is present and a newly drawn anonymous node otherwise and adds the type
    triple.  When a version is set it then calls [full_uri] on the value of
    the version slot: where that value has no such method the call raises
    the attribute error and nothing is returned; where it returns, the
    version triple is added.  Then come one imports triple per Import in
    order, what each axiom's own [to_rdf] adds and the annotations, and the
    subject is returned.  The ontology built with no argument yields exactly
    the type triple on an anonymous subject. *)
Theorem Ontology_to_rdf_emits (self : ref) (g : Graph) (ω : world) (o : obj)
    (iri version : option string) (targets : list value) (names : list string)
    (axs : list OwlAxiom) (anns : list Annotation) :
  heap ω !! self = Some o ->
  Ontology_getattr o "iri" = Some (opt_IRI iri) ->
  Ontology_getattr o "version" = Some (opt_IRI version) ->
  Ontology_getattr o "directlyImportsDocuments" = Some (VList (VImport <$> targets)) ->
  Forall2 (Import_resolves (heap ω)) targets names ->
  Ontology_getattr o "axioms" = Some (VList (VAxiom <$> axs)) ->
  Ontology_getattr o "annotations" = Some (VList (VAnnotation <$> anns)) ->
  let subject := match iri with
                 | Some s => IRI_to_rdf s g
                 | None => BNode (next_bnode ω)
                 end in
  let ω1 := match iri with Some _ => ω | None => mint 1 ω end in
  Ontology_to_rdf self g ω
  = match version_uri (namespaces g) version with
    | Raise e => Raise e
    | Ok vuri =>
        Ok ((subject,
             Graph_extend
               ([(subject, RDF_type, OWL_Ontology)]
                ++ version_triple subject vuri
                ++ ((fun s => (subject, OWL_imports, URIRef s)) <$> names)
                ++ axioms_triples (next_bnode ω1) axs
                ++ (annotation_triple subject (namespaces g) <$> anns)) g),
            mint (axioms_fresh axs) ω1)
    end
  /\ (forall s, version = Some s -> slot_full_uri s (namespaces g) = None ->
        Ontology_to_rdf self g ω = Raise AttributeError)
  /\ forall ω0,
       Ontology_new [] [] ω0 = Ok (VOntology (next_ref ω0), allocated Ontology_empty ω0)
       /\ Ontology_to_rdf (next_ref ω0) Graph_new (allocated Ontology_empty ω0)
          = Ok ((BNode (next_bnode ω0),
                 {| triples := [(BNode (next_bnode ω0), RDF_type, OWL_Ontology)];
                    namespaces := default_namespaces |}),
                mint 1 (allocated Ontology_empty ω0)).
Proof.
  intros Hself Hiri Hver Himp Hres Hax Hann subject ω1.
  pose proof (Ontology_to_rdf_typed self g ω o iri version targets names axs anns
                Hself Hiri Hver Himp Hres Hax Hann) as Hrun.
  cbv zeta in Hrun. split; [exact Hrun|]. split.
  - intros s -> Hs. rewrite Hrun. cbn [version_uri]. by rewrite Hs.
  - intros ω0. split; [done|].
    rewrite (Ontology_to_rdf_closed _ _ _ Ontology_empty None None None [] [] [] []);
      [|solve [apply lookup_insert_eq | constructor | unfold Ontology_empty; attr]..].
    simpl. by rewrite mint_0.
Qed.

(** ** Rendering does not touch the objects *)

Lemma keeps_ret {A} (a : A) : keeps (mret a).
Proof. by intros ω a' ω' [= _ <-]. Qed.

Lemma keeps_raise {A} e : keeps (@raise A e).
Proof. by intros ω a ω'. Qed.

Lemma keeps_lift {A} (r : result A) : keeps (lift r).
Proof. intros ω a ω'. rewrite lift_run. destruct r; [by intros [= _ <-]|done]. Qed.

Lemma keeps_deref r : keeps (deref r).
Proof. intros ω a ω'. unfold deref. destruct (heap ω !! r); [by intros [= _ <-]|done]. Qed.

Lemma keeps_bind {A B} (m : M A) (f : A -> M B) :
  keeps m -> (forall a, keeps (f a)) -> keeps (m ≫= f).
Proof.
  intros Hm Hf ω b ω'. rewrite bind_run.
  destruct (m ω) as [[a ω1]|e] eqn:Hrun; [|done].
  apply Hm in Hrun as ->. apply Hf.
Qed.

Lemma keeps_for_each {A S} (f : A -> S -> M S) l :
  (forall x s, keeps (f x s)) -> forall s, keeps (for_each f l s).
Proof.
  intros Hf. induction l as [|x l IH]; intros s; simpl.
  - apply keeps_ret.
  - apply keeps_bind; [apply Hf | apply IH].
Qed.

Lemma w_func_keeps keyword contents w :
  (forall w, keeps (contents w)) -> keeps (w_func keyword contents w).
Proof.
  intros Hc. unfold w_func. apply keeps_bind; [apply Hc|]. intro. apply keeps_ret.
Qed.

Lemma w_opt_keeps add v w : (forall v w, keeps (add v w)) -> keeps (w_opt add v w).
Proof. intros Hadd. unfold w_opt. destruct v; first [apply keeps_ret | apply Hadd]. Qed.

Lemma w_iter_keeps add l w : (forall v w, keeps (add v w)) -> keeps (w_iter add l w).
Proof.
  intros Hadd. unfold w_iter. apply keeps_bind; [apply keeps_lift|]. intro.
  apply keeps_for_each. intros x s. apply keeps_bind; [apply Hadd|].
  intro. apply keeps_ret.
Qed.

Ltac keeps :=
  repeat first
    [ apply keeps_ret | apply keeps_raise | apply keeps_lift | apply keeps_deref
    | apply w_func_keeps; intro
    | apply w_opt_keeps; assumption
    | apply w_iter_keeps; assumption
    | apply keeps_bind; [|intro]
    | progress cbv beta zeta
    | match goal with
      | |- keeps (if ?c then _ else _) => destruct c
      end ].

Lemma Ontology_to_functional_body_keeps add self w :
  (forall v w, keeps (add v w)) -> keeps (Ontology_to_functional_body add self w).
Proof. intros Hadd. unfold Ontology_to_functional_body. keeps. Qed.

Lemma to_functional_keeps depth : forall v w, keeps (to_functional depth v w).
Proof.
  induction depth as [|depth IH]; intros v w; cbn [to_functional]; [apply keeps_raise|].
  destruct v; try apply keeps_ret.
  - unfold Import_to_functional. by apply w_func_keeps.
  - by apply Ontology_to_functional_body_keeps.
Qed.

Lemma Ontology_to_functional_keeps self w : keeps (Ontology_to_functional self w).
Proof.
  unfold Ontology_to_functional, recursion_limit. change 1000 with (S 999).
  cbn [Ontology_to_functional_at].
  apply Ontology_to_functional_body_keeps, to_functional_keeps.
Qed.

(** The guard of [Ontology.to_functional]. *)
Lemma Ontology_to_functional_guard self w ω (o : obj) version iri :
  heap ω !! self = Some o ->
  Ontology_getattr o "version" = Some version -> truthy version = true ->
  Ontology_getattr o "iri" = Some iri -> truthy iri = false ->
  Ontology_to_functional self w ω = Raise ValueError_versionIRI_without_ontologyIRI.
Proof.
  intros Hself Hver Htv Hiri Hti.
  unfold Ontology_to_functional, recursion_limit. change 1000 with (S 999).
  cbn [Ontology_to_functional_at]. unfold Ontology_to_functional_body.
  rewrite bind_run, (deref_run _ _ _ Hself).
  rewrite bind_run, lift_run, (Ontology_attr_Some _ _ _ Hver).
  rewrite bind_run, lift_run, (Ontology_attr_Some _ _ _ Hiri).
  by rewrite Htv, Hti.
Qed.

(** ** Two passes of [to_rdf]

    A pass draws its anonymous nodes after those of the passes before it:
    what the second pass emits is what the first emitted, every anonymous
    node renamed by [shift_node n], [n] the number of nodes the first drew. *)

Lemma shift_node_inj n : Inj (=) (=) (shift_node n).
Proof.
  intros [s| s |i] [s'|s'|i']; simpl; try congruence.
  intros [= Heq]. f_equal. lia.
Qed.

Lemma shift_node_add b n x : shift_node (b + n) x = shift_node n (shift_node b x).
Proof. destruct x; simpl; [done..|]. f_equal. lia. Qed.

Lemma shift_triple_add b n t : shift_triple (b + n) t = shift_triple n (shift_triple b t).
Proof. destruct t as [[x y] z]. unfold shift_triple. simpl. by rewrite !shift_node_add. Qed.

Lemma shift_graph_add n t g :
  shift_graph n (Graph_add t g) = Graph_add (shift_triple n t) (shift_graph n g).
Proof. unfold shift_graph, Graph_add. simpl. by rewrite fmap_app. Qed.

Lemma grows_ret {A} (a : A) : grows (mret a).
Proof. intros ω a' ω' [= _ <-]. exists 0. by rewrite mint_0. Qed.

Lemma grows_raise {A} e : grows (@raise A e).
Proof. by intros ω a ω'. Qed.

Lemma grows_lift {A} (r : result A) : grows (lift r).
Proof.
  intros ω a ω'. rewrite lift_run. destruct r; [|done].
  intros [= _ <-]. exists 0. by rewrite mint_0.
Qed.

Lemma grows_deref r : grows (deref r).
Proof.
  intros ω a ω'. unfold deref. destruct (heap ω !! r); [|done].
  intros [= _ <-]. exists 0. by rewrite mint_0.
Qed.

Lemma grows_new_BNode : grows new_BNode.
Proof.
  intros ω a ω' [= _ <-]. exists 1. unfold mint. by rewrite Nat.add_1_r.
Qed.

Lemma grows_Axiom_to_rdf a g : grows (Axiom_to_rdf a g).
Proof. intros ω g' ω' [= _ <-]. by exists (axiom_fresh a). Qed.

Lemma grows_bind {A B} (m : M A) (f : A -> M B) :
  grows m -> (forall a, grows (f a)) -> grows (m ≫= f).
Proof.
  intros Hm Hf ω b ω'. rewrite bind_run.
  destruct (m ω) as [[a ω1]|e] eqn:Hrun; [|done].
  apply Hm in Hrun as [n ->]. intros [k ->]%Hf. exists (n + k). by rewrite mint_mint.
Qed.

Lemma grows_for_each {A S} (f : A -> S -> M S) l :
  (forall x s, grows (f x s)) -> forall s, grows (for_each f l s).
Proof.
  intros Hf. induction l as [|x l IH]; intros s; simpl.
  - apply grows_ret.
  - apply grows_bind; [apply Hf | apply IH].
Qed.

Lemma grows_term n : grows (term n).
Proof. destruct n; [apply grows_ret | apply grows_raise]. Qed.

Ltac grows :=
  repeat first
    [ apply grows_ret | apply grows_raise | apply grows_lift | apply grows_deref
    | apply grows_new_BNode | apply grows_Axiom_to_rdf | apply grows_term
    | assumption
    | apply grows_for_each; intros ? ?
    | apply grows_bind; [|intro]
    | progress cbv beta zeta
    | match goal with
      | |- grows (if ?c then _ else _) => destruct c
      | |- grows (let (_, _) := ?x in _) => destruct x
      | |- grows (match ?x with (_, _) => _ end) => destruct x
      end ].

Lemma Ontology_to_rdf_body_grows rec self g :
  (forall v g, grows (rec v g)) -> grows (Ontology_to_rdf_body rec self g).
Proof.
  intros Hrec. unfold Ontology_to_rdf_body. grows.
  all: first [apply Hrec | idtac].
Qed.

Lemma to_rdf_grows depth : forall v g, grows (to_rdf depth v g).
Proof.
  induction depth as [|depth IH]; intros v g; cbn [to_rdf]; [apply grows_raise|].
  destruct v as [|s|l|s|iri|a|a|n f|r|name];
    try apply grows_raise; try apply grows_ret.
  - unfold Import_to_rdf, Import_ontology_iri. grows. destruct iri; grows.
  - grows.
  - grows.
  - apply grows_bind; [by apply Ontology_to_rdf_body_grows|]. intros [n g']. apply grows_ret.
Qed.

Lemma shifted_ret {A} n (ρ : A -> A) a : shifted n ρ (mret a) (mret (ρ a)).
Proof. by intros ω. Qed.

Lemma shifted_raise {A} n (ρ : A -> A) e : shifted n ρ (raise e) (raise e).
Proof. by intros ω. Qed.

Lemma shifted_lift {A} n (ρ : A -> A) (r r' : result A) :
  r' = match r with Ok a => Ok (ρ a) | Raise e => Raise e end ->
  shifted n ρ (lift r) (lift r').
Proof. intros -> ω. rewrite !lift_run. by destruct r. Qed.

Lemma shifted_lift_id {A} n (r : result A) : shifted n id (lift r) (lift r).
Proof. apply shifted_lift. by destruct r. Qed.

Lemma shifted_deref n r : shifted n id (deref r) (deref r).
Proof. intros ω. unfold deref. simpl. by destruct (heap ω !! r). Qed.

Lemma shifted_new_BNode n : shifted n (shift_node n) new_BNode new_BNode.
Proof.
  intros ω. unfold new_BNode, mint. simpl. do 3 f_equal. lia.
Qed.

Lemma shifted_bind {A B} n (ρA : A -> A) (ρB : B -> B) (m m' : M A) (f f' : A -> M B) :
  shifted n ρA m m' -> (forall a, shifted n ρB (f a) (f' (ρA a))) ->
  shifted n ρB (m ≫= f) (m' ≫= f').
Proof.
  intros Hm Hf ω. rewrite !bind_run, (Hm ω).
  destruct (m ω) as [[a ω1]|e]; [apply Hf|done].
Qed.

Lemma shifted_for_each {A S} n (ρ : S -> S) (f f' : A -> S -> M S) l :
  (forall x s, shifted n ρ (f x s) (f' x (ρ s))) ->
  forall s, shifted n ρ (for_each f l s) (for_each f' l (ρ s)).
Proof.
  intros Hf. induction l as [|x l IH]; intros s; simpl.
  - apply shifted_ret.
  - eapply shifted_bind; [apply Hf | apply IH].
Qed.

Lemma shifted_term n (o : option node) :
  shifted n (shift_node n) (term o) (term (shift_node n <$> o)).
Proof. destruct o; [apply shifted_ret | apply shifted_raise]. Qed.

Lemma shifted_Axiom_to_rdf n a g :
  shifted n (shift_graph n) (Axiom_to_rdf a g) (Axiom_to_rdf a (shift_graph n g)).
Proof.
  intros ω. unfold Axiom_to_rdf, shift_graph, mint. simpl. do 2 f_equal.
  - f_equal. rewrite fmap_app. f_equal. rewrite <- list_fmap_compose.
    apply list_fmap_ext. intros _ t _. apply shift_triple_add.
  - f_equal. lia.
Qed.

Lemma shifted_Import_to_rdf n iri g g' :
  shifted n (shift_node n) (Import_to_rdf iri g) (Import_to_rdf iri g').
Proof.
  unfold Import_to_rdf. apply shifted_bind with (ρA := id).
  - unfold Import_ontology_iri. destruct (isinstance_IRI iri); [apply (shifted_ret n id)|].
    destruct iri; try apply shifted_raise; try apply (shifted_ret n id).
    apply shifted_bind with (ρA := id); [apply shifted_deref|].
    intros o. apply shifted_lift_id.
  - intros x. apply (shifted_ret n (shift_node n) (URIRef (py_str x))).
Qed.

Lemma Annotatable_to_rdf_shift n u annotations g :
  Annotatable_to_rdf (shift_node n u) annotations (shift_graph n g)
  = match Annotatable_to_rdf u annotations g with
    | Ok g' => Ok (shift_graph n g')
    | Raise e => Raise e
    end.
Proof.
  unfold Annotatable_to_rdf. destruct (py_iter annotations) as [l|e]; [|done].
  cbn [mbind result_bind].
  assert (Hfold : forall (acc : result Graph),
    foldl (fun (acc : result Graph) x =>
             g ← acc;
             match x with
             | VAnnotation a =>
                 Ok (Graph_add (shift_node n u,
                                URIRef (resolve (namespaces g) (annotation_property a)),
                                AnnotationValue_to_rdf (annotation_value a) g) g)
             | _ => Raise AttributeError
             end)
          (match acc with Ok g => Ok (shift_graph n g) | Raise e => Raise e end) l
    = match foldl (fun (acc : result Graph) x =>
                     g ← acc;
                     match x with
                     | VAnnotation a =>
                         Ok (Graph_add (u, URIRef (resolve (namespaces g) (annotation_property a)),
                                        AnnotationValue_to_rdf (annotation_value a) g) g)
                     | _ => Raise AttributeError
                     end) acc l with
      | Ok g' => Ok (shift_graph n g')
      | Raise e => Raise e
      end).
  { induction l as [|x l IH]; intros acc; [done|].
    cbn [foldl]. rewrite <- IH. f_equal.
    destruct acc as [g0|e]; [|done]. cbn [mbind result_bind].
    destruct x; try done. rewrite shift_graph_add. f_equal. f_equal.
    unfold shift_triple. simpl. by destruct (annotation_value a). }
  apply (Hfold (Ok g)).
Qed.

Lemma full_uri_shift n v g : full_uri v (shift_graph n g) = full_uri v g.
Proof. by destruct v. Qed.

Lemma Ontology_to_rdf_body_shifted n rec self g :
  (forall v g, shifted n (shift_result n) (rec v g) (rec v (shift_graph n g))) ->
  shifted n (prod_map (shift_node n) (shift_graph n))
    (Ontology_to_rdf_body rec self g) (Ontology_to_rdf_body rec self (shift_graph n g)).
Proof.
  intros Hrec. unfold Ontology_to_rdf_body.
  apply shifted_bind with (ρA := id); [apply shifted_deref|]. intros o. unfold id.
  apply shifted_bind with (ρA := id); [apply shifted_lift_id|]. intros iri. unfold id.
  apply shifted_bind with (ρA := prod_map (shift_node n) (shift_graph n)).
  { destruct (truthy iri).
    - apply shifted_bind with (ρA := shift_result n); [apply Hrec|].
      intros [o' g']. cbn [shift_result fst snd].
      apply shifted_bind with (ρA := shift_node n); [apply shifted_term|].
      intros u. apply (shifted_ret n (prod_map (shift_node n) (shift_graph n)) (u, g')).
    - apply shifted_bind with (ρA := shift_node n); [apply shifted_new_BNode|].
      intros u. apply (shifted_ret n (prod_map (shift_node n) (shift_graph n)) (u, g)). }
  intros [u g1]. cbn [prod_map fst snd]. cbv zeta.
  change (Graph_add (shift_node n u, RDF_type, OWL_Ontology) (shift_graph n g1))
    with (Graph_add (shift_triple n (u, RDF_type, OWL_Ontology)) (shift_graph n g1)).
  rewrite <- shift_graph_add.
  set (g2 := Graph_add (u, RDF_type, OWL_Ontology) g1).
  apply shifted_bind with (ρA := id); [apply shifted_lift_id|]. intros version. unfold id.
  apply shifted_bind with (ρA := shift_graph n).
  { destruct (truthy version); [|apply shifted_ret].
    rewrite full_uri_shift.
    apply shifted_bind with (ρA := id); [apply shifted_lift_id|]. intros s0. unfold id.
    change (Graph_add (shift_node n u, OWL_versionIRI, URIRef s0) (shift_graph n g2))
      with (Graph_add (shift_triple n (u, OWL_versionIRI, URIRef s0)) (shift_graph n g2)).
    rewrite <- shift_graph_add. apply shifted_ret. }
  intros g3.
  apply shifted_bind with (ρA := id); [apply shifted_lift_id|]. intros imports. unfold id.
  apply shifted_bind with (ρA := shift_graph n).
  { apply shifted_for_each. intros imp g4.
    apply shifted_bind with (ρA := shift_result n); [apply Hrec|].
    intros [o' g']. cbn [shift_result fst snd].
    apply shifted_bind with (ρA := shift_node n); [apply shifted_term|].
    intros u'.
    change (Graph_add (shift_node n u, OWL_imports, shift_node n u') (shift_graph n g'))
      with (Graph_add (shift_triple n (u, OWL_imports, u')) (shift_graph n g')).
    rewrite <- shift_graph_add. apply shifted_ret. }
  intros g4.
  apply shifted_bind with (ρA := id); [apply shifted_lift_id|]. intros axioms. unfold id.
  apply shifted_bind with (ρA := shift_graph n).
  { apply shifted_for_each. intros axiom g5.
    apply shifted_bind with (ρA := shift_result n); [apply Hrec|].
    intros [o' g']. apply shifted_ret. }
  intros g5.
  apply shifted_bind with (ρA := id); [apply shifted_lift_id|]. intros annotations. unfold id.
  apply shifted_bind with (ρA := shift_graph n).
  { apply shifted_lift. apply Annotatable_to_rdf_shift. }
  intros g6. apply (shifted_ret n (prod_map (shift_node n) (shift_graph n)) (u, g6)).
Qed.

Lemma to_rdf_shifted n depth : forall v g,
  shifted n (shift_result n) (to_rdf depth v g) (to_rdf depth v (shift_graph n g)).
Proof.
  induction depth as [|depth IH]; intros v g; cbn [to_rdf]; [apply shifted_raise|].
  destruct v as [|s|l|s|iri|a|a|p f|r|name]; try apply shifted_raise.
  - apply (shifted_ret n (shift_result n) (Some (IRI_to_rdf s g), g)).
  - apply shifted_bind with (ρA := shift_node n); [apply shifted_Import_to_rdf|].
    intros u. apply (shifted_ret n (shift_result n) (Some u, g)).
  - apply shifted_bind with (ρA := shift_graph n); [apply shifted_Axiom_to_rdf|].
    intros g'. apply (shifted_ret n (shift_result n) (None, g')).
  - apply shifted_bind with (ρA := id); [apply shifted_lift_id|]. intros ns.
    apply (shifted_ret n (shift_result n)
             (None, {| triples := triples g; namespaces := ns |})).
  - apply shifted_bind with (ρA := prod_map (shift_node n) (shift_graph n));
      [by apply Ontology_to_rdf_body_shifted|].
    intros [u g']. apply (shifted_ret n (shift_result n) (Some u, g')).
Qed.

Lemma Ontology_to_rdf_shifted n self g :
  shifted n (prod_map (shift_node n) (shift_graph n))
    (Ontology_to_rdf self g) (Ontology_to_rdf self (shift_graph n g)).
Proof.
  unfold Ontology_to_rdf, recursion_limit. change 1000 with (S 999).
  cbn [Ontology_to_rdf_at]. apply Ontology_to_rdf_body_shifted, to_rdf_shifted.
Qed.

Lemma Ontology_to_rdf_grows self g : grows (Ontology_to_rdf self g).
Proof.
  unfold Ontology_to_rdf, recursion_limit. change 1000 with (S 999).
  cbn [Ontology_to_rdf_at]. apply Ontology_to_rdf_body_grows, to_rdf_grows.
Qed.

(** C8.  Rendering an ontology twice, with a new writer or a new graph for
    each pass: functional rendering leaves the world as it was, so the
    second pass writes the very same text; RDF rendering changes nothing but
    the supply of anonymous nodes, and the second pass returns the subject
    and the triples of the first, in the same order, under an injective
    renaming of the anonymous nodes. *)
Theorem Ontology_render_twice (self : ref) (ω : world) :
  (forall w1 ω1, Ontology_to_functional self None ω = Ok (w1, ω1) ->
     ω1 = ω /\ Ontology_to_functional self None ω1 = Ok (w1, ω1))
  /\ (forall u1 g1 ω1, Ontology_to_rdf self Graph_new ω = Ok ((u1, g1), ω1) ->
        exists n, heap ω1 = heap ω /\ Inj (=) (=) (shift_node n)
          /\ Ontology_to_rdf self Graph_new ω1
             = Ok ((shift_node n u1,
                    {| triples := shift_triple n <$> triples g1;
                       namespaces := namespaces g1 |}),
                   mint n ω1)).
Proof.
  split.
  - intros w1 ω1 Hrun.
    pose proof (Ontology_to_functional_keeps self None ω w1 ω1 Hrun) as ->. done.
  - intros u1 g1 ω1 Hrun.
    destruct (Ontology_to_rdf_grows self Graph_new ω _ _ Hrun) as [n ->].
    exists n. split_and!; [done|apply shift_node_inj|].
    pose proof (Ontology_to_rdf_shifted n self Graph_new ω) as Hshift.
    rewrite Hrun in Hshift. exact Hshift.
Qed.

(** ** An ontology with a version and no identifier *)

Lemma forallb_Axiom axs : forallb isinstance_Axiom (VAxiom <$> axs) = true.
Proof. by induction axs. Qed.

Lemma Ontology_init_version s axs :
  Ontology___init__ (VAxiom <$> axs) [("version", VIRI s)] = Ok (Ontology_versioned s axs).
Proof.
  pose proof (Ontology_positional_valid [] [] (VAxiom <$> axs)) as Hpos.
  cbn [app] in Hpos.
  rewrite Ontology_init_unfold. unfold before_kwargs.
  rewrite Hpos; [|simpl; lia|done|done|apply forallb_Axiom].
  reflexivity.
Qed.

(** C2.  The constructor accepts a version given by name with no identifier
    (here with any axioms); on the object it returns, functional rendering
    raises the version-without-identifier error whatever the writer.  RDF
    rendering draws an anonymous node as subject, adds the type triple and
    calls [full_uri] on the value of the version slot: where that value has
    no such method, the call raises the attribute error and no subject is
    returned; where it returns, the version triple is added and the subject
    returned.  Functional rendering raises its error on every object whose
    version is set and whose identifier is not. *)
Theorem Ontology_version_without_iri (s : string) (axs : list OwlAxiom) (ω : world) :
  let self := next_ref ω in
  let ω1 := allocated (Ontology_versioned s axs) ω in
  let subject := BNode (next_bnode ω) in
  Ontology_new (VAxiom <$> axs) [("version", VIRI s)] ω = Ok (VOntology self, ω1)
  /\ Ontology_getattr (Ontology_versioned s axs) "version" = Some (VIRI s)
  /\ Ontology_getattr (Ontology_versioned s axs) "iri" = Some VNone
  /\ (forall w, Ontology_to_functional self w ω1
                = Raise ValueError_versionIRI_without_ontologyIRI)
  /\ (forall g, Ontology_to_rdf self g ω1
                = match slot_full_uri s (namespaces g) with
                  | None => Raise AttributeError
                  | Some u =>
                      Ok ((subject,
                           Graph_extend
                             ([(subject, RDF_type, OWL_Ontology);
                               (subject, OWL_versionIRI, URIRef u)]
                              ++ axioms_triples (S (next_bnode ω)) axs) g),
                          mint (axioms_fresh axs) (mint 1 ω1))
                  end)
  /\ (forall r w ω' (o : obj) version iri,
        heap ω' !! r = Some o ->
        Ontology_getattr o "version" = Some version -> truthy version = true ->
        Ontology_getattr o "iri" = Some iri -> truthy iri = false ->
        Ontology_to_functional r w ω' = Raise ValueError_versionIRI_without_ontologyIRI).
Proof.
  intros self ω1 subject.
  assert (Hself : heap ω1 !! self = Some (Ontology_versioned s axs))
    by apply lookup_insert_eq.
  assert (Hver : Ontology_getattr (Ontology_versioned s axs) "version" = Some (VIRI s))
    by (unfold Ontology_versioned; attr).
  assert (Hiri : Ontology_getattr (Ontology_versioned s axs) "iri" = Some VNone)
    by (unfold Ontology_versioned; attr).
  split_and!; [|done|done|..].
  - unfold Ontology_new. by rewrite bind_run, lift_run, Ontology_init_version.
  - intros w. by eapply Ontology_to_functional_guard.
  - intros g. destruct (slot_full_uri s (namespaces g)) as [u|] eqn:Hu.
    + rewrite (Ontology_to_rdf_closed self g ω1 (Ontology_versioned s axs)
                 None (Some s) (Some u) [] [] axs []);
        [|solve [done | constructor | unfold Ontology_versioned; attr
                | cbn [version_uri]; by rewrite Hu]..].
      unfold Ontology_triples. subst subject ω1. simpl.
      by rewrite app_nil_r, Nat.add_1_r.
    + rewrite Ontology_to_rdf_unfold.
      apply (Ontology_to_rdf_body_version 998 self g ω1 (Ontology_versioned s axs)
               None (Some s)); [done..|].
      cbn [version_uri]. by rewrite Hu.
  - intros. by eapply Ontology_to_functional_guard.
Qed.

(** ** OntologyDocument.__setattr__ *)

(** C7, as amended.  Assigning to an attribute of a document whose name
    starts with an underscore, or is one of the two fields, sets that
    attribute and nothing else.  For every other name nothing is set: a new
    prefix is appended to the prefix list, its short name the attribute name
    (no short name for the empty name) and its full identifier the value
    assigned. *)
Theorem Document_setattr_prefix (self : obj) (key : string) (v : value) (l : list value) :
  Document_attr self "prefixDeclarations" = Ok (VList l) ->
  if startswith_underscore key || str_in key ["prefixDeclarations"; "ontology"]
  then Document___setattr__ self key v = Ok (<[key := v]> self)
       /\ (key ≠ "prefixDeclarations" ->
           Document_attr (<[key := v]> self) "prefixDeclarations" = Ok (VList l))
  else exists self',
       Document___setattr__ self key v = Ok self'
       /\ Document_attr self' "prefixDeclarations" =
          Ok (VList (l ++ [VPrefix (if String.eqb key "" then VNone else PrefixName key)
                                   (FullIRI v)]))
       /\ forall k, k ≠ "prefixDeclarations" -> self' !! k = self !! k.
Proof.
  intros Hl. unfold Document___setattr__.
  destruct (startswith_underscore key || str_in key ["prefixDeclarations"; "ontology"]).
  - split; [done|]. intros Hkey. unfold Document_attr in *.
    by rewrite lookup_insert_ne.
  - rewrite Hl. simpl. eexists. split_and!; [reflexivity|..].
    + unfold Document_attr. rewrite lookup_insert_eq. by destruct (String.eqb key "").
    + intros k Hk. by rewrite lookup_insert_ne.
Qed.

End Rendering.

(** * Further properties of the constructor *)

Section Grammar.
Context `{!Outside, !Library}.

Lemma pop_while_split p args :
  ((pop_while p args).1 ++ (pop_while p args).2)%list = args
  /\ forallb p (pop_while p args).1 = true.
Proof.
  induction args as [|a args [IH1 IH2]]; simpl; [done|].
  destruct (p a) eqn:Ha; [|done].
  destruct (pop_while p args) as [taken rest]; simpl in *.
  rewrite IH1, Ha, IH2. done.
Qed.

Lemma pop_if_split p args :
  (option_list (pop_if p args).1 ++ (pop_if p args).2)%list = args
  /\ forallb p (option_list (pop_if p args).1) = true.
Proof.
  destruct args as [|a args]; simpl; [done|].
  destruct (p a) eqn:Ha; simpl; [|done]. by rewrite Ha.
Qed.

Lemma pop_if_second p args :
  (pop_if p args).1 = None -> (pop_if p (pop_if p args).2).1 = None.
Proof.
  destruct args as [|a args]; simpl; [done|].
  destruct (p a) eqn:Ha; simpl; [done|]. by rewrite Ha.
Qed.

Lemma Ontology_positional_split args :
  exists ids imps axs,
    args = (ids ++ imps ++ axs ++ (Ontology_positional args).2)%list
    /\ (length ids ≤ 2)%nat
    /\ forallb is_identifier ids = true
    /\ forallb isinstance_Import imps = true
    /\ forallb isinstance_Axiom axs = true.
Proof.
  unfold Ontology_positional.
  destruct (pop_if_split is_identifier args) as [E1 F1].
  destruct (pop_if is_identifier args) as [iri args1]; simpl in *.
  destruct (pop_if_split is_identifier args1) as [E2 F2].
  destruct (pop_if is_identifier args1) as [version args2]; simpl in *.
  destruct (pop_while_split isinstance_Import args2) as [E3 F3].
  destruct (pop_while isinstance_Import args2) as [imports args3]; simpl in *.
  destruct (pop_while_split isinstance_Axiom args3) as [E4 F4].
  destruct (pop_while isinstance_Axiom args3) as [axioms args4]; simpl in *.
  exists (option_list iri ++ option_list version)%list, imports, axioms.
  split_and!; [|destruct iri, version; simpl; lia| |done..].
  - rewrite <- E1, <- E2, <- E3, <- E4. by rewrite <- !app_assoc.
  - rewrite forallb_app. by rewrite F1, F2.
Qed.

(** X1.  The positional values are accepted exactly when they have the form
    of the grammar: nothing is left over, and the constructor called with no
    named field returns, if and only if the sequence is at most two
    identifiers that are no axioms, then Imports, then axioms; and no named
    field makes the constructor accept any other sequence. *)
Theorem Ontology_init_grammar (args : list value) :
  ((Ontology_positional args).2 = [] <-> grammatical args)
  /\ ((exists o, Ontology___init__ args [] = Ok o) <-> grammatical args)
  /\ (forall kwargs o, Ontology___init__ args kwargs = Ok o -> grammatical args).
Proof.
  assert (H1 : (Ontology_positional args).2 = [] <-> grammatical args).
  { split.
    - intros Hrest. destruct (Ontology_positional_split args)
        as (ids & imps & axs & Hargs & Hlen & Hids & Himps & Haxs).
      rewrite Hrest, app_nil_r in Hargs. by exists ids, imps, axs.
    - intros (ids & imps & axs & -> & Hlen & Hids & Himps & Haxs).
      by rewrite Ontology_positional_valid. }
  assert (H2 : forall kwargs o, Ontology___init__ args kwargs = Ok o ->
                 (Ontology_positional args).2 = []).
  { intros kwargs o. rewrite Ontology_init_unfold.
    destruct (apply_kwargs _ kwargs); simpl; [|done].
    by destruct (Ontology_positional args).2. }
  split_and!; [done| |].
  - rewrite <- H1. split; [intros [o Ho]; by eapply H2|].
    intros Hrest. rewrite Ontology_init_unfold, Hrest. simpl. eauto.
  - intros kwargs o Ho. apply H1. by eapply H2.
Qed.

(** ** The order of the named fields *)

Lemma apply_kwarg_at (self self' s : obj) k v :
  apply_kwarg self (k, v) = Ok s -> self' !! k = self !! k ->
  exists s', apply_kwarg self' (k, v) = Ok s' /\ s' !! k = s !! k.
Proof.
  unfold apply_kwarg. intros Hs Hk.
  rewrite (Ontology_getattr_ext self' self k Hk).
  destruct (Ontology_getattr self k) as [cur|]; [|done].
  destruct cur; try (injection Hs as <-; eexists; split; [done|];
                     by rewrite !lookup_insert_eq);
    (destruct (String.eqb k "annotations");
       [injection Hs as <-; eauto
       |apply result_bind_Ok in Hs as (new & -> & [= <-]); simpl;
        eexists; split; [done|]; by rewrite !lookup_insert_eq]).
Qed.

Lemma apply_kwarg_frame (self s : obj) k v :
  apply_kwarg self (k, v) = Ok s -> forall k', k' ≠ k -> s !! k' = self !! k'.
Proof. intros Hs. by apply apply_kwarg_getattr in Hs as (_ & _ & _ & _ & _ & Hframe). Qed.

Lemma apply_kwarg_swap (self s : obj) k1 v1 k2 v2 :
  k1 ≠ k2 ->
  (s1 ← apply_kwarg self (k1, v1); apply_kwarg s1 (k2, v2)) = Ok s ->
  (s2 ← apply_kwarg self (k2, v2); apply_kwarg s2 (k1, v1)) = Ok s.
Proof.
  intros Hne (s1 & H1 & H12)%result_bind_Ok.
  pose proof (apply_kwarg_frame _ _ _ _ H1) as F1.
  pose proof (apply_kwarg_frame _ _ _ _ H12) as F12.
  destruct (apply_kwarg_at s1 self s k2 v2 H12) as (s2 & H2 & E2);
    [symmetry; by apply F1|].
  pose proof (apply_kwarg_frame _ _ _ _ H2) as F2.
  destruct (apply_kwarg_at self s2 s1 k1 v1 H1) as (s21 & H21 & E21); [by apply F2|].
  pose proof (apply_kwarg_frame _ _ _ _ H21) as F21.
  rewrite H2. cbn [mbind result_bind]. rewrite H21. f_equal. apply map_eq. intros k.
  destruct (decide (k = k1)) as [->|Hk1].
  - rewrite E21. symmetry. by apply F12.
  - rewrite (F21 k Hk1). destruct (decide (k = k2)) as [->|Hk2]; [done|].
    by rewrite (F2 k Hk2), (F12 k Hk2), (F1 k Hk1).
Qed.

Lemma apply_kwargs_Permutation kwargs kwargs' :
  kwargs ≡ₚ kwargs' -> NoDup kwargs.*1 ->
  forall self s : obj, apply_kwargs self kwargs = Ok s -> apply_kwargs self kwargs' = Ok s.
Proof.
  induction 1 as [|[k v] l l' Hperm IH|[k1 v1] [k2 v2] l|l l' l'' H1 IH1 H2 IH2];
    intros Hnd self s Hs.
  - done.
  - rewrite fmap_cons in Hnd. apply NoDup_cons in Hnd as [_ Hnd].
    cbn [apply_kwargs] in *. apply result_bind_Ok in Hs as (s1 & -> & Hs). simpl.
    by apply IH.
  - rewrite !fmap_cons in Hnd. apply NoDup_cons in Hnd as [Hk _].
    assert (Hne : k2 ≠ k1). { intros ->. apply Hk. by left. }
    cbn [apply_kwargs] in *.
    destruct (apply_kwarg self (k2, v2)) as [s2|e] eqn:E2; [|done].
    cbn [mbind result_bind] in Hs.
    destruct (apply_kwarg s2 (k1, v1)) as [s21|e] eqn:E21; [|done].
    cbn [mbind result_bind] in Hs.
    pose proof (apply_kwarg_swap self s21 k2 v2 k1 v1 Hne) as Hswap.
    rewrite E2 in Hswap. cbn [mbind result_bind] in Hswap. specialize (Hswap E21).
    apply result_bind_Ok in Hswap as (s1 & -> & Hx).
    cbn [mbind result_bind]. by rewrite Hx.
  - apply IH2; [|by apply IH1]. by rewrite <- H1.
Qed.

Lemma kwargs_lookup_Permutation kwargs kwargs' k :
  kwargs ≡ₚ kwargs' -> NoDup kwargs.*1 ->
  kwargs_lookup kwargs' k = kwargs_lookup kwargs k.
Proof.
  intros Hperm Hnd.
  assert (Hnd' : NoDup kwargs'.*1) by (by rewrite <- Hperm).
  destruct (kwargs_lookup kwargs k) as [v|] eqn:Hk.
  - apply kwargs_lookup_elem; [done|]. rewrite <- Hperm.
    clear Hperm Hnd Hnd'. induction kwargs as [|[k0 v0] kwargs IH]; simpl in Hk; [done|].
    destruct (String.eqb_spec k0 k) as [->|_]; [injection Hk as ->; by left|].
    right. by apply IH.
  - apply kwargs_lookup_None. apply kwargs_lookup_None in Hk. by rewrite <- Hperm.
Qed.

(** X2.  The order in which the named fields are written does not matter:
    when the constructor returns an object for the named fields in one
    order, it returns the same object for them in any other order. *)
Theorem Ontology_init_kwargs_order (args : list value) (kwargs kwargs' : list (string * value))
    (o : obj) :
  NoDup kwargs.*1 -> kwargs ≡ₚ kwargs' ->
  Ontology___init__ args kwargs = Ok o -> Ontology___init__ args kwargs' = Ok o.
Proof.
  intros Hnd Hperm. rewrite !Ontology_init_unfold.
  intros (s & Hs & Ho)%result_bind_Ok.
  assert (Hb : before_kwargs args kwargs' = before_kwargs args kwargs).
  { unfold before_kwargs, kwargs_get. by rewrite (kwargs_lookup_Permutation _ _ _ Hperm Hnd). }
  rewrite Hb, (apply_kwargs_Permutation _ _ Hperm Hnd _ _ Hs). exact Ho.
Qed.

End Grammar.

(** * The sugar methods *)

Section Builders.
Context `{!Outside, !Library}.

Lemma stored_id self o ω : heap ω !! self = Some o -> stored self o ω = ω.
Proof. intros Hself. destruct ω. unfold stored. simpl in *. by rewrite insert_id. Qed.

Lemma stored_stored self o o' ω : stored self o' (stored self o ω) = stored self o' ω.
Proof. unfold stored. simpl. by rewrite insert_insert_eq. Qed.

Lemma Ontology_append_run self k (x : result value) ω (o : obj) l v :
  heap ω !! self = Some o ->
  Ontology_getattr o k = Some (VList l) ->
  x = Ok v ->
  Ontology_append self k x ω
  = Ok (VOntology self, stored self (<[k := VList (l ++ [v])]> o) ω).
Proof.
  intros Hself Hl ->. unfold Ontology_append.
  by rewrite bind_run, (deref_run _ _ _ Hself), bind_run, lift_run,
    (Ontology_attr_Some _ _ _ Hl).
Qed.

Ltac made_binds H :=
  repeat match type of H with
         | _ ≫= _ = Ok _ =>
             let a := fresh "a" in let Ha := fresh "Ha" in
             apply result_bind_Ok in H as (a & Ha & H)
         end.

(** One call: the element is appended to the slot of the call. *)
Lemma Ontology_call_made self c ω (o : obj) k x l :
  heap ω !! self = Some o ->
  made (heap ω) c = Ok (k, x) ->
  Ontology_getattr o k = Some (VList l) ->
  Ontology_call self c ω
  = Ok (VOntology self, stored self (<[k := VList (l ++ [x])]> o) ω).
Proof.
  intros Hself Hmade Hl.
  destruct c; cbn [made Ontology_call] in *; made_binds Hmade;
    injection Hmade as <- <-;
    try (unfold Ontology_annotation, Ontology_declaration, Ontology_subClassOf,
           Ontology_equivalentClasses, Ontology_subObjectPropertyOf,
           Ontology_inverseObjectProperties, Ontology_functionalObjectProperty,
           Ontology_inverseFunctionalObjectProperty, Ontology_objectPropertyDomain,
           Ontology_objectPropertyRange;
         repeat match goal with
                | Hc : construct ?c ?a = Ok _ |- (lift (construct ?c ?a) ≫= _) _ = _ =>
                    rewrite bind_run, lift_run, Hc; cbv beta iota
                end;
         apply Ontology_append_run; [done..|];
         repeat match goal with
                | Hc : construct _ _ = Ok _ |- _ => rewrite Hc; cbn [mbind result_bind]
                end; done).
  unfold Ontology_imports.
  rewrite bind_run, (deref_run _ _ _ Hself), bind_run, lift_run, (Ontology_attr_Some _ _ _ Hl).
  destruct import_ as [| | | | | | | |p|]; try (injection Ha as <-; reflexivity).
  destruct (heap ω !! p) as [o'|] eqn:Hp; [|done].
  by rewrite !bind_run, (deref_run _ _ _ Hp), lift_run, Ha.
Qed.

Lemma made_slot h c k x : made h c = Ok (k, x) -> k ∈ Ontology_list_slots.
Proof.
  intros Hmade. destruct c; cbn [made] in Hmade; made_binds Hmade;
    injection Hmade as <- _; unfold Ontology_list_slots; set_solver.
Qed.

(** What a call appends does not depend on the lists of the receiver. *)
Lemma made_stable (h : gmap ref obj) self (o o1 : obj) c :
  h !! self = Some o -> o1 !! "iri" = o !! "iri" ->
  made (<[self := o1]> h) c = made h c.
Proof.
  intros Hself Hiri. destruct c; try reflexivity. cbn [made].
  destruct import_; try reflexivity.
  destruct (decide (r = self)) as [->|Hne].
  - rewrite lookup_insert_eq, Hself. unfold Ontology_attr.
    by rewrite (Ontology_getattr_ext o1 o "iri" Hiri).
  - by rewrite lookup_insert_ne.
Qed.

Lemma added_cons h k c cs :
  added h k (c :: cs)
  = (match made h c with
     | Ok (k', x) => if String.eqb k' k then [x] else []
     | Raise _ => []
     end ++ added h k cs)%list.
Proof.
  unfold added. cbn [omap list_omap]. destruct (made h c) as [[k' x]|e]; [|done].
  by destruct (String.eqb k' k).
Qed.

Lemma added_ext h h' k cs :
  (forall c, made h c = made h' c) -> added h k cs = added h' k cs.
Proof.
  intros Hext. induction cs as [|c cs IH]; [done|].
  by rewrite !added_cons, Hext, IH.
Qed.

(** A chain of calls, as the receiver sees it. *)
Lemma chain_stored (self : ref) (cs : list call) (ω : world) (o : obj) :
  heap ω !! self = Some o ->
  (forall k, k ∈ Ontology_list_slots -> exists l, Ontology_getattr o k = Some (VList l)) ->
  Forall (fun c => exists kx, made (heap ω) c = Ok kx) cs ->
  exists o',
    chain self cs ω = Ok (VOntology self, stored self o' ω)
    /\ (forall k, k ∈ Ontology_list_slots ->
          Ontology_getattr o' k
          = Some (VList (items (Ontology_getattr o k) ++ added (heap ω) k cs)))
    /\ (forall k, k ∉ Ontology_list_slots -> o' !! k = o !! k).
Proof.
  intros Hself Hlists Hmade. revert o ω Hself Hlists Hmade.
  induction cs as [|c cs IH]; intros o ω Hself Hlists Hmade.
  - exists o. split_and!; [|intros k Hk|done].
    + unfold chain. simpl. by rewrite (stored_id _ _ _ Hself).
    + destruct (Hlists k Hk) as [l ->]. simpl. by rewrite app_nil_r.
  - apply Forall_cons in Hmade as [[[k x] Hc] Hmade].
    pose proof (made_slot _ _ _ _ Hc) as Hk.
    destruct (Hlists k Hk) as [l Hl].
    set (o1 := <[k := VList (l ++ [x])]> o).
    assert (Hiri : o1 !! "iri" = o !! "iri").
    { subst o1. apply lookup_insert_ne. intros ->.
      unfold Ontology_list_slots in Hk.
      repeat (apply elem_of_cons in Hk as [?|Hk]; [discriminate|]).
      by apply elem_of_nil in Hk. }
    assert (Hstable : forall c', made (heap (stored self o1 ω)) c' = made (heap ω) c').
    { intros c'. by apply (made_stable _ _ o). }
    destruct (IH o1 (stored self o1 ω)) as (o' & Hrun & Hitems & Hframe).
    + apply lookup_insert_eq.
    + intros k' Hk'. subst o1. unfold Ontology_getattr.
      destruct (decide (k' = k)) as [->|Hne]; [rewrite lookup_insert_eq; eauto|].
      rewrite lookup_insert_ne by done. apply (Hlists k' Hk').
    + eapply Forall_impl; [exact Hmade|]. intros c' [kx Hkx]. exists kx.
      by rewrite Hstable.
    + exists o'. split_and!.
      * unfold chain in *. cbn [for_each]. rewrite bind_run.
        rewrite (Ontology_call_made _ _ _ _ _ _ _ Hself Hc Hl).
        fold o1. rewrite Hrun. by rewrite stored_stored.
      * intros k' Hk'. rewrite (Hitems k' Hk'). do 2 f_equal.
        rewrite added_cons, Hc.
        assert (Hadded : added (heap (stored self o1 ω)) k' cs = added (heap ω) k' cs).
        { by apply added_ext. }
        rewrite Hadded. subst o1. unfold Ontology_getattr.
        destruct (String.eqb_spec k k') as [->|Hne].
        -- rewrite lookup_insert_eq. unfold Ontology_getattr in Hl. rewrite Hl. simpl.
           by rewrite <- app_assoc.
        -- by rewrite lookup_insert_ne.
      * intros k' Hk'. rewrite (Hframe k' Hk'). subst o1.
        apply lookup_insert_ne. by intros ->.
Qed.

(** X4.  The sugar methods chain: when the three list slots of the ontology
    hold lists and every element can be built, a chain of calls of
    [annotation], [declaration], [subClassOf], [equivalentClasses],
    [subObjectPropertyOf], [inverseObjectProperties],
    [functionalObjectProperty], [inverseFunctionalObjectProperty],
    [objectPropertyDomain], [objectPropertyRange] and [imports] returns the
    ontology it started from; read on that ontology afterwards, each list
    slot holds what it held followed by one element per call on that slot,
    in the order of the calls, and every other attribute is as it was.  What
    the calls do to a list that the caller or another object holds too is
    not stated here. *)
Theorem Ontology_chain_appends (self : ref) (cs : list call) (ω : world) (o : obj) :
  heap ω !! self = Some o ->
  (forall k, k ∈ Ontology_list_slots -> exists l, Ontology_getattr o k = Some (VList l)) ->
  Forall (fun c => exists kx, made (heap ω) c = Ok kx) cs ->
  exists ω' o',
    chain self cs ω = Ok (VOntology self, ω')
    /\ heap ω' !! self = Some o'
    /\ (forall k, k ∈ Ontology_list_slots ->
          Ontology_getattr o' k
          = Some (VList (items (Ontology_getattr o k) ++ added (heap ω) k cs)))
    /\ (forall k, k ∉ Ontology_list_slots -> o' !! k = o !! k).
Proof.
  intros Hself Hlists Hmade.
  destruct (chain_stored self cs ω o Hself Hlists Hmade) as (o' & Hrun & Hitems & Hframe).
  exists (stored self o' ω), o'. split_and!; [done|apply lookup_insert_eq|done..].
Qed.

End Builders.

(** * [imports], then [to_rdf] *)

Section ImportsRendering.
Context `{!Outside, !Library}.







(** An element appended to the axioms does not depend on the objects. *)
Lemma made_axioms h h' c x :
  made h c = Ok ("axioms", x) -> made h' c = Ok ("axioms", x).
Proof.
  destruct c; try done. cbn [made]. intros (y & _ & Hy)%result_bind_Ok. discriminate.
Qed.

(** X14.  A new ontology and one call of a sugar method that builds an axiom,
    as in [Ontology().subClassOf(A, B)]: the ontology holds that one axiom,
    and [to_rdf] gives the type triple on a newly drawn anonymous subject
    followed by the triples of the axiom, on the subjects the axiom gives
    them; no triple of the axiom is put on the subject of the ontology. *)
Theorem Ontology_new_call_to_rdf (c : call) (a : OwlAxiom) (ω : world) :
  made (heap ω) c = Ok ("axioms", VAxiom a) ->
  let self := next_ref ω in
  let o1 := <["axioms" := VList [VAxiom a]]> Ontology_empty in
  let ω1 := stored self o1 (allocated Ontology_empty ω) in
  (v ← Ontology_new [] [];
   match v with
   | VOntology r => Ontology_call r c
   | _ => raise AttributeError
   end) ω = Ok (VOntology self, ω1)
  /\ Ontology_getattr o1 "axioms" = Some (VList [VAxiom a])
  /\ forall g,
       Ontology_to_rdf self g ω1
       = Ok ((BNode (next_bnode ω),
              Graph_extend ((BNode (next_bnode ω), RDF_type, OWL_Ontology)
                            :: (shift_triple (S (next_bnode ω)) <$> axiom_triples a)) g),
             mint (S (axiom_fresh a)) ω1).
Proof.
  intros Hmade self o1 ω1.
  assert (Hself : heap (allocated Ontology_empty ω) !! self = Some Ontology_empty)
    by apply lookup_insert_eq.
  split_and!.
  - rewrite bind_run, Ontology_new_empty. cbv beta iota.
    apply (Ontology_call_made self c (allocated Ontology_empty ω) Ontology_empty
             "axioms" (VAxiom a) []); [done| |done].
    by apply (made_axioms (heap ω)).
  - done.
  - intros g.
    rewrite (Ontology_to_rdf_closed self g ω1 o1 None None None [] [] [a] []);
      [|solve [apply lookup_insert_eq | constructor | done]..].
    unfold Ontology_triples. subst ω1. cbn [axioms_triples axioms_fresh fmap list_fmap
      sum_list sum_list_with app next_bnode mint stored allocated].
    unfold id. rewrite mint_mint, !app_nil_r, Nat.add_1_r, Nat.add_0_r. done.
Qed.

End ImportsRendering.

(** * [to_rdf] only adds triples *)

Section GraphInvariant.
Context `{!Outside, !Library}.

Lemma bind_Ok {A B} (m : M A) (f : A -> M B) ω b ω' :
  (m ≫= f) ω = Ok (b, ω') -> exists a ω1, m ω = Ok (a, ω1) /\ f a ω1 = Ok (b, ω').
Proof. rewrite bind_run. destruct (m ω) as [[a ω1]|e]; [eauto|done]. Qed.

Lemma lift_Ok {A} (r : result A) ω a ω' : lift r ω = Ok (a, ω') -> r = Ok a /\ ω' = ω.
Proof. rewrite lift_run. destruct r; [by intros [= -> ->]|done]. Qed.

Lemma Graph_extends_refl g : Graph_extends g g.
Proof. exists []. by rewrite app_nil_r. Qed.

Lemma Graph_extends_trans g1 g2 g3 :
  Graph_extends g1 g2 -> Graph_extends g2 g3 -> Graph_extends g1 g3.
Proof. intros [ts1 H1] [ts2 H2]. exists (ts1 ++ ts2)%list. by rewrite H2, H1, app_assoc. Qed.

Lemma Graph_extends_add t g : Graph_extends g (Graph_add t g).
Proof. by exists [t]. Qed.

Lemma for_each_extends {A} (f : A -> Graph -> M Graph) l :
  (forall x g ω g' ω', f x g ω = Ok (g', ω') -> Graph_extends g g') ->
  forall g ω g' ω', for_each f l g ω = Ok (g', ω') -> Graph_extends g g'.
Proof.
  intros Hf. induction l as [|x l IH]; intros g ω g' ω' Hrun; cbn [for_each] in Hrun.
  - injection Hrun as <- _. apply Graph_extends_refl.
  - apply bind_Ok in Hrun as (g1 & ω1 & H1 & Hrun).
    eapply Graph_extends_trans; [by eapply Hf|by eapply IH].
Qed.

Lemma foldl_Raise {A B} (f : result A -> B -> result A) l e :
  (forall x, f (Raise e) x = Raise e) -> foldl f (Raise e) l = Raise e.
Proof. intros Hf. induction l as [|x l IH]; simpl; [done|]. by rewrite Hf. Qed.

Lemma Annotatable_to_rdf_extends subject annotations g g' :
  Annotatable_to_rdf subject annotations g = Ok g' -> Graph_extends g g'.
Proof.
  unfold Annotatable_to_rdf. intros (l & _ & Hfold)%result_bind_Ok.
  revert g Hfold. induction l as [|x l IH]; intros g Hfold; simpl in Hfold.
  - injection Hfold as <-. apply Graph_extends_refl.
  - destruct x; try (by rewrite foldl_Raise in Hfold).
    eapply Graph_extends_trans; [apply Graph_extends_add|]. by apply IH.
Qed.

(** The body of [Ontology.to_rdf], whatever the slots hold: the triples of
    the graph stay, and the type triple of the subject returned is among
    those added. *)
Lemma Ontology_to_rdf_body_extends rec self g ω u g' ω' :
  (forall v g ω r g' ω', rec v g ω = Ok ((r, g'), ω') -> Graph_extends g g') ->
  Ontology_to_rdf_body rec self g ω = Ok ((u, g'), ω') ->
  exists ts, triples g' = (triples g ++ ts)%list /\ (u, RDF_type, OWL_Ontology) ∈ ts.
Proof.
  intros Hrec Hrun. unfold Ontology_to_rdf_body in Hrun.
  apply bind_Ok in Hrun as (o & ω1 & _ & Hrun).
  apply bind_Ok in Hrun as (iri & ω2 & _ & Hrun).
  apply bind_Ok in Hrun as ([u0 g0] & ω3 & Hsubj & Hrun).
  assert (Hg0 : Graph_extends g g0).
  { destruct (truthy iri).
    - apply bind_Ok in Hsubj as ([n g1] & ω4 & Hn & Hsubj).
      apply bind_Ok in Hsubj as (n1 & ω5 & _ & Hsubj). injection Hsubj as _ <- _.
      by eapply Hrec.
    - apply bind_Ok in Hsubj as (n & ω4 & _ & Hsubj). injection Hsubj as _ <- _.
      apply Graph_extends_refl. }
  cbv zeta in Hrun.
  apply bind_Ok in Hrun as (version & ω4 & _ & Hrun).
  apply bind_Ok in Hrun as (g2 & ω5 & Hversion & Hrun).
  assert (H2 : Graph_extends (Graph_add (u0, RDF_type, OWL_Ontology) g0) g2).
  { destruct (truthy version).
    - apply bind_Ok in Hversion as (x & ω6 & _ & Hversion). injection Hversion as <- _.
      apply Graph_extends_add.
    - injection Hversion as <- _. apply Graph_extends_refl. }
  apply bind_Ok in Hrun as (imports & ω6 & _ & Hrun).
  apply bind_Ok in Hrun as (g3 & ω7 & Himports & Hrun).
  assert (H3 : Graph_extends g2 g3).
  { eapply for_each_extends; [|exact Himports]. intros x ga ωa gb ωb Hstep.
    apply bind_Ok in Hstep as ([n g1] & ω8 & Hn & Hstep).
    apply bind_Ok in Hstep as (n1 & ω9 & _ & Hstep). injection Hstep as <- _.
    eapply Graph_extends_trans; [by eapply Hrec|apply Graph_extends_add]. }
  apply bind_Ok in Hrun as (axioms & ω8 & _ & Hrun).
  apply bind_Ok in Hrun as (g4 & ω9 & Haxioms & Hrun).
  assert (H4 : Graph_extends g3 g4).
  { eapply for_each_extends; [|exact Haxioms]. intros x ga ωa gb ωb Hstep.
    apply bind_Ok in Hstep as ([n g1] & ω10 & Hn & Hstep). injection Hstep as <- _.
    by eapply Hrec. }
  apply bind_Ok in Hrun as (annotations & ω10 & _ & Hrun).
  apply bind_Ok in Hrun as (g5 & ω11 & (Hann & _)%lift_Ok & Hrun).
  injection Hrun as <- <- _.
  apply Annotatable_to_rdf_extends in Hann.
  destruct Hg0 as [ts0 E0].
  destruct (Graph_extends_trans _ _ _ H2 (Graph_extends_trans _ _ _ H3
              (Graph_extends_trans _ _ _ H4 Hann))) as [ts E].
  exists (ts0 ++ (u0, RDF_type, OWL_Ontology) :: ts)%list. split.
  - rewrite E. cbn [Graph_add triples]. rewrite E0, <- !app_assoc. done.
  - apply elem_of_app. right. by left.
Qed.

Lemma to_rdf_extends depth : forall v g ω r g' ω',
  to_rdf depth v g ω = Ok ((r, g'), ω') -> Graph_extends g g'.
Proof.
  induction depth as [|depth IH]; intros v g ω r g' ω' Hrun; cbn [to_rdf] in Hrun; [done|].
  destruct v as [|s|l|s|iri|a|a|n f|p|name]; try done.
  - injection Hrun as _ <- _. apply Graph_extends_refl.
  - apply bind_Ok in Hrun as (n & ω1 & _ & Hrun). injection Hrun as _ <- _.
    apply Graph_extends_refl.
  - apply bind_Ok in Hrun as (g1 & ω1 & Hax & Hrun). injection Hrun as _ <- _.
    unfold Axiom_to_rdf in Hax. injection Hax as <- _. by eexists.
  - apply bind_Ok in Hrun as (ns & ω1 & _ & Hrun). injection Hrun as _ <- _.
    exists []. simpl. by rewrite app_nil_r.
  - apply bind_Ok in Hrun as ([u g1] & ω1 & Hbody & Hrun). injection Hrun as _ <- _.
    destruct (Ontology_to_rdf_body_extends _ _ _ _ _ _ _ IH Hbody) as (ts & E & _).
    by exists ts.
Qed.

(** X7.  [to_rdf] only adds to the graph.  Whatever the value rendered and
    whatever its slots hold, when [to_rdf] returns the triples the graph
    held are still there, in place, followed by those added; for an ontology
    the type triple of the subject returned is among those added; and the
    same holds of the triples for a document. *)
Theorem to_rdf_adds_only :
  (forall depth v g ω r g' ω',
     to_rdf depth v g ω = Ok ((r, g'), ω') -> Graph_extends g g')
  /\ (forall self g ω u g' ω',
        Ontology_to_rdf self g ω = Ok ((u, g'), ω') ->
        exists ts, triples g' = (triples g ++ ts)%list /\ (u, RDF_type, OWL_Ontology) ∈ ts)
  /\ (forall doc g ω r g' ω',
        Document_to_rdf doc g ω = Ok ((r, g'), ω') -> Graph_extends g g').
Proof.
  split_and!.
  - apply to_rdf_extends.
  - intros self g ω u g' ω'. unfold Ontology_to_rdf, recursion_limit.
    change 1000 with (S 999). cbn [Ontology_to_rdf_at].
    apply Ontology_to_rdf_body_extends, to_rdf_extends.
  - intros doc g ω r g' ω'. unfold Document_to_rdf, recursion_limit.
    change 1000 with (S 999). cbn [Document_to_rdf_at]. intros Hrun.
    apply bind_Ok in Hrun as (prefixes & ω1 & _ & Hrun).
    apply bind_Ok in Hrun as (g1 & ω2 & Hprefixes & Hrun).
    apply bind_Ok in Hrun as (ontology & ω3 & _ & Hrun).
    eapply Graph_extends_trans; [|by eapply to_rdf_extends].
    eapply for_each_extends; [|exact Hprefixes]. intros x ga ωa gb ωb Hstep.
    apply bind_Ok in Hstep as ([n g2] & ω4 & Hn & Hstep). injection Hstep as <- _.
    by eapply to_rdf_extends.
Qed.

End GraphInvariant.

(** * The document *)

Section Document.
Context `{!Outside, !Library}.

Lemma Document_init_other prefix ontology :
  (forall l0, prefix ≠ [VList l0]) ->
  Document___init__ prefix ontology =
  match last prefix with
  | Some (VOntology r) =>
      self ← lift (Document___setattr__ ∅ "prefixDeclarations"
                     (VList (take (length prefix - 1) prefix)));
      lift (Document___setattr__ self "ontology" (VOntology r))
  | _ =>
      self ← lift (Document___setattr__ ∅ "prefixDeclarations" (VList prefix));
      ontology ← (if truthy ontology then mret ontology else Ontology_new [] []);
      lift (Document___setattr__ self "ontology" ontology)
  end.
Proof.
  intros Hne. destruct prefix as [|p [|q rest]]; [done| |by destruct p].
  destruct p; try done. by destruct (Hne l).
Qed.

Lemma Document_setattr_field (self : obj) k v :
  str_in k ["prefixDeclarations"; "ontology"] = true ->
  Document___setattr__ self k v = Ok (<[k := v]> self).
Proof. unfold Document___setattr__. intros ->. by rewrite orb_true_r. Qed.

Lemma Document_init_default prefix ontology ω v ω' :
  (if truthy ontology then mret ontology else Ontology_new [] []) ω = Ok (v, ω') ->
  (self ← lift (Document___setattr__ ∅ "prefixDeclarations" (VList prefix));
   ontology ← (if truthy ontology then mret ontology else Ontology_new [] []);
   lift (Document___setattr__ self "ontology" ontology)) ω
  = Ok (<["ontology" := v]> (<["prefixDeclarations" := VList prefix]> ∅), ω').
Proof.
  intros Hrun. rewrite bind_run, lift_run, Document_setattr_field by done.
  rewrite bind_run, Hrun, lift_run. by rewrite Document_setattr_field.
Qed.

Lemma last_take {A} (l : list A) x :
  last l = Some x -> (take (length l - 1) l ++ [x])%list = l.
Proof.
  intros (l' & ->)%last_Some. rewrite length_app. simpl.
  by rewrite Nat.add_sub, take_app_length.
Qed.

(** X8.  The constructor of the document always returns, and sets the two
    fields and nothing else.  Called with one list, it keeps the list and
    the ontology given by name, be it None.  Otherwise, when the last
    positional value is an ontology, that one is the ontology of the
    document, the values before it are the prefixes, and the ontology given
    by name is ignored; and when it is not, all the values are the prefixes
    and the ontology is the one given by name or, when that is missing or
    empty, a new one built with no argument.  So the ontology slot holds
    None only after a call with one list and no ontology. *)
Theorem Document_init_cases (prefix : list value) (ontology : value) (ω : world) :
  exists l v ω',
    Document___init__ prefix ontology ω
    = Ok (<["ontology" := v]> (<["prefixDeclarations" := VList l]> ∅), ω')
    /\ (forall l0, prefix = [VList l0] -> l = l0 /\ v = ontology /\ ω' = ω)
    /\ ((forall l0, prefix ≠ [VList l0]) -> forall r, last prefix = Some (VOntology r) ->
          (l ++ [VOntology r])%list = prefix /\ v = VOntology r /\ ω' = ω)
    /\ ((forall l0, prefix ≠ [VList l0]) -> (forall r, last prefix ≠ Some (VOntology r)) ->
          l = prefix
          /\ if truthy ontology then v = ontology /\ ω' = ω
             else v = VOntology (next_ref ω) /\ ω' = allocated Ontology_empty ω)
    /\ (v = VNone -> prefix = [VList l] /\ ontology = VNone).
Proof.
  assert (Hcase : (exists l0, prefix = [VList l0]) \/ forall l0, prefix ≠ [VList l0]).
  { destruct prefix as [|p [|q rest]]; [by right| |by right].
    destruct p; try (by right). left. eauto. }
  destruct Hcase as [[l0 ->]|Hne'].
  - exists l0, ontology, ω. split_and!; [done| | | |by intros ->].
    + by intros l1 [= <-].
    + intros Hne. by destruct (Hne l0).
    + intros Hne. by destruct (Hne l0).
  - rewrite (Document_init_other _ _ Hne').
    destruct (last prefix) as [x|] eqn:Hlast.
    + assert (Hx : (exists r, x = VOntology r) \/ forall r, x ≠ VOntology r).
      { destruct x; try (by right). left. eauto. }
      destruct Hx as [[r ->]|Hx].
      * exists (take (length prefix - 1) prefix), (VOntology r), ω.
        split_and!; [done| | | |done].
        -- intros l0 ->. by destruct (Hne' l0).
        -- intros _ r' [= <-]. split_and!; [by apply last_take|done..].
        -- intros _ Hr. by destruct (Hr r).
      * assert (Hrun : exists v ω', 
                  (if truthy ontology then mret ontology else Ontology_new [] []) ω = Ok (v, ω')
                  /\ (if truthy ontology then v = ontology /\ ω' = ω
                      else v = VOntology (next_ref ω) /\ ω' = allocated Ontology_empty ω)
                  /\ v ≠ VNone).
        { destruct (truthy ontology) eqn:Ht; [|by eexists _, _].
          exists ontology, ω. split_and!; [done..|]. by intros ->. }
        destruct Hrun as (v & ω' & Hrun & Hv & Hnone).
        exists prefix, v, ω'. split_and!.
        -- destruct x; try (by destruct (Hx r)); by apply Document_init_default.
        -- intros l0 ->. by destruct (Hne' l0).
        -- intros _ r [= ->]. by destruct (Hx r).
        -- done.
        -- done.
    + assert (Hrun : exists v ω', 
                (if truthy ontology then mret ontology else Ontology_new [] []) ω = Ok (v, ω')
                /\ (if truthy ontology then v = ontology /\ ω' = ω
                    else v = VOntology (next_ref ω) /\ ω' = allocated Ontology_empty ω)
                /\ v ≠ VNone).
      { destruct (truthy ontology) eqn:Ht; [|by eexists _, _].
        exists ontology, ω. split_and!; [done..|]. by intros ->. }
      destruct Hrun as (v & ω' & Hrun & Hv & Hnone).
      exists prefix, v, ω'. split_and!; [|intros l0 ->; by destruct (Hne' l0)|done..].
      by apply Document_init_default.
Qed.

(** ** [prefixes] *)

Lemma Document_attr_list (self : obj) l :
  Document_attr self "prefixDeclarations" = Ok (VList l) ->
  self !! "prefixDeclarations" = Some (VList l).
Proof. unfold Document_attr. destruct (self !! "prefixDeclarations"); simpl; congruence. Qed.

Lemma prefixDeclarations_append_run (self : obj) l p :
  self !! "prefixDeclarations" = Some (VList l) ->
  prefixDeclarations_append self p = Ok (<["prefixDeclarations" := VList (l ++ [p])]> self).
Proof. intros Hl. unfold prefixDeclarations_append, Document_attr. by rewrite Hl. Qed.

Lemma prefixes_loop kw : forall (self : obj) l,
  self !! "prefixDeclarations" = Some (VList l) ->
  foldl (fun (acc : result obj) '(ns, iri) =>
           self ← acc; prefixDeclarations_append self (VPrefix (PrefixName ns) iri))
        (Ok self) kw
  = Ok (<["prefixDeclarations" :=
            VList (l ++ ((fun p : string * value => VPrefix (PrefixName p.1) p.2) <$> kw))]> self).
Proof.
  induction kw as [|[ns iri] kw IH]; intros self l Hl.
  - simpl. by rewrite app_nil_r, insert_id.
  - cbn [foldl mbind result_bind]. rewrite (prefixDeclarations_append_run _ _ _ Hl).
    rewrite (IH _ (l ++ [VPrefix (PrefixName ns) iri])%list) by apply lookup_insert_eq.
    by rewrite insert_insert_eq, <- app_assoc.
Qed.

Lemma Document_assign_loop kw : forall (self : obj) l,
  self !! "prefixDeclarations" = Some (VList l) ->
  forallb plain_prefix kw = true ->
  Document_assign self kw
  = Ok (<["prefixDeclarations" :=
            VList (l ++ ((fun p : string * value => VPrefix (PrefixName p.1) p.2) <$> kw))]> self).
Proof.
  unfold Document_assign.
  induction kw as [|[k v] kw IH]; intros self l Hl Hkw.
  - simpl. by rewrite app_nil_r, insert_id.
  - cbn [forallb] in Hkw. apply andb_prop in Hkw as [Hkv Hkw].
    unfold plain_prefix, declares_prefix in Hkv. cbn [fst snd] in Hkv.
    apply andb_prop in Hkv as [Hkv Hv]. apply andb_prop in Hkv as [Hk Hne].
    apply negb_true_iff in Hk. destruct v as [|sv| | | | | | | |]; try discriminate.
    cbn [foldl mbind result_bind].
    assert (Hset : Document___setattr__ self k (VStr sv)
                   = Ok (<["prefixDeclarations" := VList (l ++ [VPrefix (PrefixName k) (VStr sv)])]> self)).
    { unfold Document___setattr__, Document_attr. rewrite Hk, Hl, Hne. done. }
    rewrite Hset.
    rewrite (IH _ (l ++ [VPrefix (PrefixName k) (VStr sv)])%list) by (done || apply lookup_insert_eq).
    by rewrite insert_insert_eq, <- app_assoc.
Qed.

(** X9.  [prefixes] appends to the prefix list, and touches nothing else:
    first the default prefix, with the empty short name, when a default is
    given and is not empty, then one prefix per named argument, in the order
    of the arguments.  For names that are not empty and that assignment
    takes as prefixes, and values that are strings, it does what assigning
    each value to the attribute of its name does. *)
Theorem Document_prefixes_appends (self : obj) (dflt : value) (kw : list (string * value))
    (l : list value) :
  Document_attr self "prefixDeclarations" = Ok (VList l) ->
  Document_prefixes self dflt kw
  = Ok (<["prefixDeclarations" :=
            VList (l ++ (if truthy dflt then [VPrefix (VStr "") dflt] else [])
                     ++ ((fun p : string * value => VPrefix (PrefixName p.1) p.2) <$> kw))]> self)
  /\ (forallb plain_prefix kw = true ->
      Document_assign self kw = Document_prefixes self VNone kw).
Proof.
  intros Hl%Document_attr_list.
  assert (Hrun : forall d, Document_prefixes self d kw
    = Ok (<["prefixDeclarations" :=
              VList (l ++ (if truthy d then [VPrefix (VStr "") d] else [])
                       ++ ((fun p : string * value => VPrefix (PrefixName p.1) p.2) <$> kw))]> self)).
  { intros d. unfold Document_prefixes. destruct (truthy d).
    - rewrite (prefixDeclarations_append_run _ _ _ Hl). cbn [mbind result_bind].
      rewrite (prefixes_loop kw _ (l ++ [VPrefix (VStr "") d])%list) by apply lookup_insert_eq.
      by rewrite insert_insert_eq, <- app_assoc.
    - cbn [mbind result_bind]. by rewrite (prefixes_loop kw _ l). }
  split; [apply Hrun|].
  intros Hkw. rewrite (Document_assign_loop kw self l Hl Hkw), Hrun. done.
Qed.

(** ** [__getattr__] *)

Lemma prefix_scan_first item l :
  forallb isinstance_entry l = true -> prefix_scan item l = Ok (first_named item l).
Proof.
  unfold first_named. induction l as [|p l IH]; intros Hl; [done|].
  cbn [forallb] in Hl. apply andb_prop in Hl as [Hp Hl].
  destruct p as [| | | | | | |n f| |]; try discriminate.
  cbn [prefix_scan find]. destruct (py_eq_str n item); [done|]. by apply IH.
Qed.

Lemma first_named_app item l p :
  first_named item (l ++ [p])
  = match first_named item l with
    | Some f => Some f
    | None => first_named item [p]
    end.
Proof.
  unfold first_named. induction l as [|q l IH]; [reflexivity|].
  cbn [app find].
  destruct (match q with VPrefix n _ => py_eq_str n item | _ => false end) eqn:Hq.
  - by destruct q.
  - exact IH.
Qed.

(** X10.  Reading an attribute that the document does not have.  For a name
    that passes the PrefixName check the read gives the full identifier of
    the first prefix of that short name, and is the plain one when there is
    none; for a name that does not pass it the prefixes are not looked at
    and the read is the plain one.  After an assignment that declares a
    prefix under a name that passes the check, a prefix of that name
    declared before is still the one read; when there was none, the value
    assigned is read back, but for the empty name, under which nothing is
    recorded. *)
Theorem Document_getattr_first (self : obj) (item : string) (l : list value) :
  Document_attr self "prefixDeclarations" = Ok (VList l) ->
  forallb isinstance_entry l = true ->
  Document___getattr__ self item
  = (if isinstance_PrefixName item
     then match first_named item l with
          | Some f => Ok f
          | None => Document___getattribute__ self item
          end
     else Document___getattribute__ self item)
  /\ forall key v, declares_prefix key = true ->
       exists self',
         Document___setattr__ self key v = Ok self'
         /\ Document___getattr__ self' key
            = if isinstance_PrefixName key
              then match first_named key l with
                   | Some f => Ok f
                   | None => if String.eqb key "" then Document___getattribute__ self key
                             else Ok (FullIRI v)
                   end
              else Document___getattribute__ self key.
Proof.
  intros Hattr Hl.
  assert (Hget : forall (d : obj) it l', Document_attr d "prefixDeclarations" = Ok (VList l') ->
            forallb isinstance_entry l' = true ->
            Document___getattr__ d it
            = if isinstance_PrefixName it
              then match first_named it l' with
                   | Some f => Ok f
                   | None => Document___getattribute__ d it
                   end
              else Document___getattribute__ d it).
  { intros d it l' Hd Hl'. unfold Document___getattr__.
    destruct (isinstance_PrefixName it); [|done]. rewrite Hd.
    cbn [mbind result_bind py_iter]. rewrite (prefix_scan_first _ _ Hl').
    cbn [mbind result_bind]. done. }
  split; [by apply Hget|].
  intros key v Hkey. unfold declares_prefix in Hkey. apply negb_true_iff in Hkey.
  set (p := VPrefix (if negb (String.eqb key "") then PrefixName key else VNone) (FullIRI v)).
  exists (<["prefixDeclarations" := VList (l ++ [p])]> self).
  assert (Hne : key ≠ "prefixDeclarations").
  { intros ->. by rewrite orb_true_r in Hkey. }
  assert (Hplain : Document___getattribute__ (<["prefixDeclarations" := VList (l ++ [p])]> self) key
                   = Document___getattribute__ self key).
  { unfold Document___getattribute__. by rewrite lookup_insert_ne. }
  split.
  - unfold Document___setattr__. by rewrite Hkey, Hattr.
  - rewrite (Hget _ key (l ++ [p])%list).
    + destruct (isinstance_PrefixName key); [|done].
      rewrite first_named_app. destruct (first_named key l); [done|].
      subst p. unfold first_named. cbn [find].
      destruct (String.eqb_spec key "") as [->|Hk]; cbn [negb py_eq_str PrefixName]; [done|].
      by rewrite String.eqb_refl.
    + unfold Document_attr. by rewrite lookup_insert_eq.
    + rewrite forallb_app, Hl. subst p. cbn. by destruct (String.eqb key "").
Qed.

(** ** [to_rdf] of a document that holds an ontology *)

Lemma to_rdf_Prefix depth n f g :
  to_rdf (S depth) (VPrefix n f) g
  = (ns ← lift (Prefix_register n f (namespaces g));
     mret (None, {| triples := triples g; namespaces := ns |})).
Proof. reflexivity. Qed.

Lemma prefixes_registered depth ps : forall g ω,
  forallb isinstance_Prefix ps = true ->
  for_each (fun p g => '(_, g) ← to_rdf (S depth) p g; mret g) ps g ω
  = match registered ps (namespaces g) with
    | Ok ns => Ok ({| triples := triples g; namespaces := ns |}, ω)
    | Raise e => Raise e
    end.
Proof.
  induction ps as [|p ps IH]; intros g ω Hps; [by destruct g|].
  cbn [forallb] in Hps. apply andb_prop in Hps as [Hp Hps].
  destruct p as [| | | | | | |n f| |]; try discriminate.
  cbn [for_each registered]. rewrite to_rdf_Prefix, !bind_run, lift_run.
  destruct (Prefix_register n f (namespaces g)) as [ns|e]; [|done].
  cbn [mbind result_bind mret M_ret]. cbv beta iota. by rewrite IH.
Qed.

(** X11.  [to_rdf] of a document whose prefix list holds prefixes and whose
    ontology slot holds an ontology: each prefix is registered in the graph
    by its own [to_rdf], in the order of the list, and adds no triple; an
    error raised by a registration is the error of the document.  Then the
    ontology is rendered, its identifiers resolved under the bindings the
    graph then has; when it returns, its subject is returned, and its error
    is the error of the document otherwise. *)
Theorem Document_to_rdf_ontology (doc : obj) (ps : list value) (self : ref)
    (g : Graph) (ω : world) (o : obj)
    (iri version : option string) (targets : list value) (names : list string)
    (axs : list OwlAxiom) (anns : list Annotation) :
  Document_attr doc "prefixDeclarations" = Ok (VList ps) ->
  forallb isinstance_Prefix ps = true ->
  Document_attr doc "ontology" = Ok (VOntology self) ->
  heap ω !! self = Some o ->
  Ontology_getattr o "iri" = Some (opt_IRI iri) ->
  Ontology_getattr o "version" = Some (opt_IRI version) ->
  Ontology_getattr o "directlyImportsDocuments" = Some (VList (VImport <$> targets)) ->
  Forall2 (Import_resolves (heap ω)) targets names ->
  Ontology_getattr o "axioms" = Some (VList (VAxiom <$> axs)) ->
  Ontology_getattr o "annotations" = Some (VList (VAnnotation <$> anns)) ->
  Document_to_rdf doc g ω
  = match registered ps (namespaces g) with
    | Raise e => Raise e
    | Ok ns =>
        match Ontology_to_rdf self {| triples := triples g; namespaces := ns |} ω with
        | Ok ((u, g'), ω') => Ok ((Some u, g'), ω')
        | Raise e => Raise e
        end
    end
  /\ forall ns vuri,
       registered ps (namespaces g) = Ok ns -> version_uri ns version = Ok vuri ->
       exists u ts ω',
         Document_to_rdf doc g ω
         = Ok ((Some u, {| triples := triples g ++ ts; namespaces := ns |}), ω')
         /\ (u, RDF_type, OWL_Ontology) ∈ ts
         /\ ts = Ontology_triples u ns vuri names
                   (match iri with Some _ => next_bnode ω | None => S (next_bnode ω) end)
                   axs anns.
Proof.
  intros Hps Hprefix Honto Hself Hiri Hver Himp Hres Hax Hann.
  assert (Hdoc : Document_to_rdf doc g ω
                 = match registered ps (namespaces g) with
                   | Raise e => Raise e
                   | Ok ns =>
                       ('(n, g) ← Ontology_to_rdf_body (to_rdf 998) self
                                    {| triples := triples g; namespaces := ns |};
                        mret (Some n, g)) ω
                   end).
  { unfold Document_to_rdf, recursion_limit. change 1000 with (S (S 998)).
    cbn [Document_to_rdf_at]. rewrite bind_run, lift_run, Hps. cbn [mbind result_bind py_iter].
    rewrite bind_run, (prefixes_registered 998 ps g ω Hprefix).
    destruct (registered ps (namespaces g)) as [ns|e]; [|done].
    rewrite bind_run, lift_run, Honto. reflexivity. }
  split.
  - rewrite Hdoc. destruct (registered ps (namespaces g)) as [ns|e]; [|done].
    set (g1 := {| triples := triples g; namespaces := ns |}).
    rewrite Ontology_to_rdf_unfold. change 998 with (S 997). rewrite bind_run.
    destruct (version_uri (namespaces g1) version) as [vuri|e] eqn:Hvuri.
    + by rewrite !(Ontology_to_rdf_body_closed _ self g1 ω o iri version vuri
                     targets names axs anns Hself Hiri Hver Himp Hres Hax Hann Hvuri).
    + by rewrite !(Ontology_to_rdf_body_version _ self g1 ω o iri version e
                     Hself Hiri Hver Hvuri).
  - intros ns vuri Hns Hvuri. rewrite Hdoc, Hns.
    set (g1 := {| triples := triples g; namespaces := ns |}).
    change 998 with (S 997). rewrite bind_run.
    rewrite (Ontology_to_rdf_body_closed 997 self g1 ω o iri version vuri
               targets names axs anns Hself Hiri Hver Himp Hres Hax Hann Hvuri).
    eexists _, _, _. split; [reflexivity|]. split.
    + unfold Ontology_triples. apply elem_of_app. left. by left.
    + destruct iri; simpl; [done|]. by rewrite Nat.add_1_r.
Qed.

End Document.

(** * Functional syntax *)

Section Functional.
Context `{!Outside, !Library}.

Lemma to_functional_child depth v w ω :
  isinstance_child v = true ->
  to_functional (S (S depth)) v w ω = Ok (child_written v w, ω).
Proof.
  destruct v as [| | |s|iri| | | | |]; try discriminate; try reflexivity.
  destruct iri; try discriminate. reflexivity.
Qed.

Lemma w_iter_children depth l : forall w ω,
  forallb isinstance_child l = true ->
  w_iter (to_functional (S (S depth))) (VList l) w ω = Ok (children_written l w, ω).
Proof.
  unfold w_iter, children_written. intros w ω Hl. rewrite bind_run, lift_run.
  cbn [py_iter]. revert w ω.
  induction l as [|v l IH]; intros w ω; [done|].
  cbn [forallb] in Hl. apply andb_prop in Hl as [Hv Hl].
  cbn [for_each foldl]. rewrite bind_run, bind_run, (to_functional_child _ _ _ _ Hv).
  cbn [mret M_ret]. by apply IH.
Qed.

Lemma w_opt_child depth v w ω :
  (v = VNone \/ exists s, v = VIRI s) ->
  w_opt (to_functional (S depth)) v w ω = Ok (child_written v w, ω).
Proof. by intros [->|[s ->]]. Qed.

Lemma forallb_fmap_true {A} (p : value -> bool) (f : A -> value) (l : list A) :
  (forall x, p (f x) = true) -> forallb p (f <$> l) = true.
Proof.
  intros Hp. induction l as [|x l IH]; [done|].
  rewrite fmap_cons. cbn [forallb]. by rewrite Hp, IH.
Qed.

(** The closed form of [Ontology.to_functional] on an ontology whose slots
    hold what they are declared to hold, every Import wrapping an
    identifier. *)
Lemma Ontology_to_functional_body_closed depth (self : ref) (w : option FunctionalWriter)
    (ω : world) (o : obj) (iri version : option string) (names : list string)
    (axs : list OwlAxiom) (anns : list Annotation) :
  heap ω !! self = Some o ->
  Ontology_getattr o "iri" = Some (opt_IRI iri) ->
  Ontology_getattr o "version" = Some (opt_IRI version) ->
  Ontology_getattr o "directlyImportsDocuments" = Some (VList (VImport <$> (VIRI <$> names))) ->
  Ontology_getattr o "axioms" = Some (VList (VAxiom <$> axs)) ->
  Ontology_getattr o "annotations" = Some (VList (VAnnotation <$> anns)) ->
  (is_Some version -> is_Some iri) ->
  Ontology_to_functional_body (to_functional (S (S depth))) self w ω
  = Ok (Ontology_written (opt_IRI iri) (opt_IRI version) (VImport <$> (VIRI <$> names))
          (VAnnotation <$> anns) (VAxiom <$> axs) (default FunctionalWriter_new w), ω).
Proof.
  intros Hself Hiri Hver Himp Hax Hann Hguard.
  unfold Ontology_to_functional_body.
  rewrite bind_run, (deref_run _ _ _ Hself).
  rewrite bind_run, lift_run, (Ontology_attr_Some _ _ _ Hver).
  rewrite bind_run, lift_run, (Ontology_attr_Some _ _ _ Hiri).
  assert (Hg : truthy (opt_IRI version) && negb (truthy (opt_IRI iri)) = false).
  { destruct version, iri; try done. by destruct Hguard. }
  rewrite Hg. cbv zeta.
  rewrite bind_run, lift_run, (Ontology_attr_Some _ _ _ Himp).
  rewrite bind_run, lift_run, (Ontology_attr_Some _ _ _ Hann).
  rewrite bind_run, lift_run, (Ontology_attr_Some _ _ _ Hax).
  unfold w_func. rewrite bind_run.
  rewrite bind_run, w_opt_child by (destruct iri; eauto).
  rewrite bind_run, w_opt_child by (destruct version; eauto).
  rewrite bind_run, w_iter_children
    by (rewrite <- list_fmap_compose; by apply forallb_fmap_true).
  rewrite bind_run, w_iter_children by (by apply forallb_fmap_true).
  rewrite w_iter_children by (by apply forallb_fmap_true).
  reflexivity.
Qed.

(** X12.  [to_functional] of an ontology whose slots hold what they are
    declared to hold, every Import wrapping an identifier, and whose version
    is set only with its identifier: the keyword and the opening
    parenthesis, the identifier, the version, a line break when there is any
    import, annotation or axiom, then the imports, the annotations and the
    axioms in this order, each on its line, and the closing parenthesis;
    nothing in the world changes.  For the ontology built with no argument
    and a new writer the text is the keyword and an empty pair of
    parentheses. *)
Theorem Ontology_to_functional_writes (self : ref) (w : option FunctionalWriter)
    (ω : world) (o : obj) (iri version : option string) (names : list string)
    (axs : list OwlAxiom) (anns : list Annotation) :
  heap ω !! self = Some o ->
  Ontology_getattr o "iri" = Some (opt_IRI iri) ->
  Ontology_getattr o "version" = Some (opt_IRI version) ->
  Ontology_getattr o "directlyImportsDocuments" = Some (VList (VImport <$> (VIRI <$> names))) ->
  Ontology_getattr o "axioms" = Some (VList (VAxiom <$> axs)) ->
  Ontology_getattr o "annotations" = Some (VList (VAnnotation <$> anns)) ->
  (is_Some version -> is_Some iri) ->
  Ontology_to_functional self w ω
  = Ok (Ontology_written (opt_IRI iri) (opt_IRI version) (VImport <$> (VIRI <$> names))
          (VAnnotation <$> anns) (VAxiom <$> axs) (default FunctionalWriter_new w), ω)
  /\ forall ω0,
       exists w', Ontology_to_functional (next_ref ω0) None (allocated Ontology_empty ω0)
                  = Ok (w', allocated Ontology_empty ω0)
                  /\ output w' = "Ontology()".
Proof.
  intros Hself Hiri Hver Himp Hax Hann Hguard. split.
  - unfold Ontology_to_functional, recursion_limit. change 1000 with (S (S (S 997))).
    cbn [Ontology_to_functional_at]. by eapply Ontology_to_functional_body_closed.
  - intros ω0. eexists. split.
    + unfold Ontology_to_functional, recursion_limit. change 1000 with (S (S (S 997))).
      cbn [Ontology_to_functional_at].
      apply (Ontology_to_functional_body_closed 997 _ None _ Ontology_empty None None [] [] []);
        solve [apply lookup_insert_eq | done
              | unfold Ontology_empty, Ontology_getattr;
                repeat first [rewrite lookup_insert_eq | rewrite lookup_insert_ne by done];
                rewrite ?lookup_empty; reflexivity].
    + reflexivity.
Qed.

Lemma to_functional_Ontology depth r w :
  to_functional (S depth) (VOntology r) w
  = Ontology_to_functional_body (to_functional depth) r (Some w).
Proof. reflexivity. Qed.

Lemma bind_prefix_bound ps : forall w ω,
  forallb isinstance_Prefix ps = true ->
  for_each bind_prefix ps w ω = Ok (w_bound ps w, ω).
Proof.
  induction ps as [|p ps IH]; intros w ω Hps; [done|].
  cbn [forallb] in Hps. apply andb_prop in Hps as [Hp Hps].
  destruct p as [| | | | | | |n f| |]; try discriminate.
  cbn [for_each]. rewrite bind_run. cbn [bind_prefix mret M_ret]. by rewrite IH.
Qed.

(** X13.  [to_functional] of a document whose prefix list holds prefixes and
    whose ontology slot holds such an ontology: every prefix of the document
    is bound in the registry of the writer before anything is written; then
    one Prefix line is written for every binding the registry then holds,
    those it had before included, then a line break, then the ontology; no
    ontology is built and nothing in the world changes. *)
Theorem Document_to_functional_writes (doc : obj) (ps : list value) (self : ref)
    (w : option FunctionalWriter) (ω : world) (o : obj)
    (iri version : option string) (names : list string)
    (axs : list OwlAxiom) (anns : list Annotation) :
  Document_attr doc "prefixDeclarations" = Ok (VList ps) ->
  forallb isinstance_Prefix ps = true ->
  Document_attr doc "ontology" = Ok (VOntology self) ->
  heap ω !! self = Some o ->
  Ontology_getattr o "iri" = Some (opt_IRI iri) ->
  Ontology_getattr o "version" = Some (opt_IRI version) ->
  Ontology_getattr o "directlyImportsDocuments" = Some (VList (VImport <$> (VIRI <$> names))) ->
  Ontology_getattr o "axioms" = Some (VList (VAxiom <$> axs)) ->
  Ontology_getattr o "annotations" = Some (VList (VAnnotation <$> anns)) ->
  (is_Some version -> is_Some iri) ->
  let w1 := w_bound ps (default FunctionalWriter_new w) in
  Document_to_functional doc w ω
  = Ok (Ontology_written (opt_IRI iri) (opt_IRI version) (VImport <$> (VIRI <$> names))
          (VAnnotation <$> anns) (VAxiom <$> axs)
          (w_hardbr
             (children_written
                ((fun b : string * string => VPrefix (VStr b.1) (VStr b.2)) <$> w_namespaces w1)
                w1)), ω).
Proof.
  intros Hps Hprefix Honto Hself Hiri Hver Himp Hax Hann Hguard w1.
  unfold Document_to_functional, recursion_limit. change 1000 with (S (S (S (S 996)))).
  cbn [Document_to_functional_at].
  rewrite bind_run, lift_run, Hps. cbn [mbind result_bind py_iter].
  rewrite bind_run, (bind_prefix_bound ps _ ω Hprefix). fold w1.
  rewrite bind_run, w_iter_children by (by apply forallb_fmap_true).
  cbv zeta. rewrite bind_run, lift_run, Honto. cbn [truthy].
  rewrite bind_run. cbn [mret M_ret]. rewrite to_functional_Ontology.
  by eapply Ontology_to_functional_body_closed.
Qed.

End Functional.

(** * A document built from one list *)

Section ListDocument.
Context `{!Outside, !Library}.

Lemma constant_lift {A} (r : result A) : constant (lift r).
Proof. by exists r. Qed.

Lemma constant_ret {A} (a : A) : constant (mret a).
Proof. by exists (Ok a). Qed.

Lemma constant_raise {A} e : constant (@raise A e).
Proof. by exists (Raise e). Qed.

Lemma constant_bind {A B} (m : M A) (f : A -> M B) :
  constant m -> (forall a, constant (f a)) -> constant (m ≫= f).
Proof.
  intros [r Hm] Hf. destruct r as [a|e].
  - destruct (Hf a) as [r' Hfa]. exists r'. intros ω.
    by rewrite bind_run, Hm, lift_run, Hfa.
  - exists (Raise e). intros ω. by rewrite bind_run, Hm.
Qed.

Lemma constant_for_each {A S} (f : A -> S -> M S) l :
  (forall x, x ∈ l -> forall s, constant (f x s)) -> forall s, constant (for_each f l s).
Proof.
  induction l as [|x l IH]; intros Hf s; simpl.
  - apply constant_ret.
  - apply constant_bind; [apply Hf; by left|].
    intros s'. apply IH. intros y Hy. apply Hf. by right.
Qed.

Lemma constant_bind_prefix p w : constant (bind_prefix p w).
Proof. destruct p; first [apply constant_ret | apply constant_raise]. Qed.

Lemma constant_prefix_lines depth ns w :
  constant (w_iter (to_functional (S depth))
              (VList ((fun b : string * string => VPrefix (VStr b.1) (VStr b.2)) <$> ns)) w).
Proof.
  destruct (constant_for_each
              (fun x w => w ← to_functional (S depth) x w; mret (w_br true w))
              ((fun b : string * string => VPrefix (VStr b.1) (VStr b.2)) <$> ns)) with (s := w)
    as [r Hr].
  - intros x (b & -> & _)%list_elem_of_fmap s.
    apply constant_bind; [apply constant_ret|]. intro. apply constant_ret.
  - exists r. intros ω. unfold w_iter. rewrite bind_run, lift_run. apply Hr.
Qed.

Lemma last_char_newline s : last_char (s ++ newline) = Some (Ascii.ascii_of_nat 10).
Proof.
  induction s as [|c s IH]; [done|].
  change (String c s ++ newline)%string with (String c (s ++ newline)).
  cbn [last_char]. destruct (s ++ newline)%string eqn:E; [|exact IH].
  by destruct s.
Qed.

Lemma string_app_assoc (s1 s2 s3 : string) :
  String.append (String.append s1 s2) s3 = String.append s1 (String.append s2 s3).
Proof.
  induction s1 as [|c s1 IH]; [done|].
  change (String c (String.append (String.append s1 s2) s3)
          = String c (String.append s1 (String.append s2 s3))).
  by rewrite IH.
Qed.

(** After a line break the keyword starts the line. *)
Lemma Ontology_written_empty w :
  output (Ontology_written VNone VNone [] [] [] (w_hardbr w))
  = (output w ++ newline ++ "Ontology()")%string.
Proof.
  unfold Ontology_written, w_hardbr, w_close, w_emit, separator. cbn.
  rewrite last_char_newline. cbn.
  match goal with |- context [w_br ?b _] => change b with false end.
  match goal with |- context [if ?b then _ else _] => change b with true end.
  cbn [w_br output]. rewrite !string_app_assoc. reflexivity.
Qed.

(** C9.  The document built from one list and no ontology keeps None in its
    ontology slot, and no ontology is allocated.  Functional rendering of it
    builds an ontology with no argument and writes that one: when the list
    holds prefixes, it returns the writer in which the prefixes were bound,
    one Prefix line was written per binding, then a line break, then the
    text of the empty ontology, and the new ontology is left allocated.
    Whatever the list holds, it is the rendering of the same document
    holding an ontology newly built with no argument.  RDF rendering builds
    nothing: it never returns, and once the prefixes are registered it
    raises the attribute error of None. *)
Theorem Document_list_argument (l : list value) (ω : world) :
  let doc : obj := <["ontology" := VNone]> (<["prefixDeclarations" := VList l]> ∅) in
  Document___init__ [VList l] VNone ω = Ok (doc, ω)
  /\ Document_attr doc "ontology" = Ok VNone
  /\ Ontology_new [] [] ω = Ok (VOntology (next_ref ω), allocated Ontology_empty ω)
  /\ (forallb isinstance_Prefix l = true ->
      forall w,
        let w1 := w_bound l (default FunctionalWriter_new w) in
        let w2 := children_written
                    ((fun b : string * string => VPrefix (VStr b.1) (VStr b.2))
                       <$> w_namespaces w1) w1 in
        Document_to_functional doc w ω
        = Ok (Ontology_written VNone VNone [] [] [] (w_hardbr w2),
              allocated Ontology_empty ω)
        /\ output (Ontology_written VNone VNone [] [] [] (w_hardbr w2))
           = (output w2 ++ newline ++ "Ontology()")%string)
  /\ (forall w, Document_to_functional doc w ω
                = Document_to_functional (<["ontology" := VOntology (next_ref ω)]> doc) w
                    (allocated Ontology_empty ω))
  /\ (forall g r, Document_to_rdf doc g ω ≠ Ok r)
  /\ (forallb isinstance_Prefix l = true ->
      forall g, Document_to_rdf doc g ω
                = match registered l (namespaces g) with
                  | Ok _ => Raise AttributeError
                  | Raise e => Raise e
                  end).
Proof.
  intros doc.
  assert (Hpd : forall d : obj, d !! "prefixDeclarations" = Some (VList l) ->
            lift (Document_attr d "prefixDeclarations" ≫= py_iter) = lift (Ok l)).
  { intros d Hd. unfold Document_attr. by rewrite Hd. }
  assert (Hdoc : doc !! "prefixDeclarations" = Some (VList l)).
  { subst doc. by rewrite lookup_insert_ne, lookup_insert_eq. }
  split_and!; [done..| | | |].
  - intros Hl w w1 w2. split; [|apply Ontology_written_empty].
    unfold Document_to_functional, recursion_limit. change 1000 with (S (S (S (S 996)))).
    cbn [Document_to_functional_at].
    rewrite bind_run, (Hpd doc Hdoc), lift_run.
    rewrite bind_run, (bind_prefix_bound l _ ω Hl). fold w1.
    rewrite bind_run, w_iter_children by (by apply forallb_fmap_true).
    fold w2. cbv zeta. rewrite bind_run, lift_run.
    subst doc. unfold Document_attr. rewrite lookup_insert_eq. cbn [truthy].
    rewrite bind_run, Ontology_new_empty. rewrite to_functional_Ontology.
    apply (Ontology_to_functional_body_closed 996 _ (Some (w_hardbr w2)) _ Ontology_empty
             None None [] [] []);
      solve [apply lookup_insert_eq | done
            | unfold Ontology_empty, Ontology_getattr;
              repeat first [rewrite lookup_insert_eq | rewrite lookup_insert_ne by done];
              rewrite ?lookup_empty; reflexivity].
  - intros w. unfold Document_to_functional, recursion_limit.
    change 1000 with (S (S 998)). cbn [Document_to_functional_at].
    set (w0 := default FunctionalWriter_new w).
    rewrite !bind_run, !Hpd by (subst doc; by rewrite !lookup_insert_ne, ?lookup_insert_eq by done).
    rewrite !lift_run.
    destruct (constant_for_each bind_prefix l
                (fun x _ s => constant_bind_prefix x s) w0) as [r1 Hr1].
    rewrite !bind_run, !Hr1, !lift_run. destruct r1 as [w1|e]; [|done].
    destruct (constant_prefix_lines 998 (w_namespaces w1) w1) as [r2 Hr2].
    rewrite !bind_run, !Hr2, !lift_run. destruct r2 as [w2|e]; [|done].
    cbv zeta. rewrite !bind_run, !lift_run.
    subst doc. unfold Document_attr. rewrite !lookup_insert_eq. cbn [truthy].
    rewrite !bind_run. reflexivity.
  - intros g r. unfold Document_to_rdf, recursion_limit.
    change 1000 with (S 999). cbn [Document_to_rdf_at].
    rewrite bind_run. destruct (lift _ ω) as [[prefixes ω1]|e]; [|done].
    rewrite bind_run. destruct (for_each _ prefixes g ω1) as [[g' ω2]|e]; [|done].
    rewrite bind_run, lift_run. subst doc. unfold Document_attr.
    by rewrite lookup_insert_eq.
  - intros Hl g. unfold Document_to_rdf, recursion_limit.
    change 1000 with (S 999). cbn [Document_to_rdf_at].
    rewrite bind_run, (Hpd doc Hdoc), lift_run.
    rewrite bind_run, (prefixes_registered 998 l g ω Hl).
    destruct (registered l (namespaces g)) as [ns|e]; [|done].
    rewrite bind_run, lift_run. subst doc. unfold Document_attr.
    by rewrite lookup_insert_eq.
Qed.

End ListDocument.

(** * The statements at the sample values *)

Section Examples.
#[local] Existing Instance plain.

Example sample_named_built :
  Ontology___init__ [VIRI "http://x/o"; VImport (VIRI "http://x/i"); VAxiom sample_restriction] []
  = Ok sample_named.
Proof. reflexivity. Qed.

Example sample_anonymous_built :
  Ontology___init__ [VAxiom sample_restriction] [] = Ok sample_anonymous.
Proof. reflexivity. Qed.

(** C1 at a call with one named field, where adding to the list read back
    from a slot returns None: the axioms slot ends as None, and the slots
    read back give neither the axiom given by position nor the one given by
    name. *)
Lemma Ontology_init_slot_contents_witness :
  (length [VIRI "http://x/o"; VIRI "http://x/v"] ≤ 2)%nat
  /\ forallb is_identifier [VIRI "http://x/o"; VIRI "http://x/v"] = true
  /\ forallb isinstance_Import [VImport (VIRI "http://x/i")] = true
  /\ forallb isinstance_Axiom [VAxiom sample_axiom] = true
  /\ (exists o,
        Ontology___init__
          [VIRI "http://x/o"; VIRI "http://x/v"; VImport (VIRI "http://x/i"); VAxiom sample_axiom]
          [] = Ok o
        /\ slot_contents o =
           [VIRI "http://x/o"; VIRI "http://x/v"; VImport (VIRI "http://x/i");
            VAxiom sample_axiom])
  /\ exists o,
       Ontology___init__
         [VIRI "http://x/o"; VIRI "http://x/v"; VImport (VIRI "http://x/i"); VAxiom sample_axiom]
         [("axioms", VList [VAxiom sample_restriction])] = Ok o
       /\ Ontology_getattr o "axioms" = Some VNone
       /\ slot_contents o =
          [VIRI "http://x/o"; VIRI "http://x/v"; VImport (VIRI "http://x/i")].
Proof.
  assert (Hlen : (length [VIRI "http://x/o"; VIRI "http://x/v"] ≤ 2)%nat) by (simpl; lia).
  destruct (Ontology_init_slot_contents
              [VIRI "http://x/o"; VIRI "http://x/v"] [VImport (VIRI "http://x/i")]
              [VAxiom sample_axiom] Hlen eq_refl eq_refl eq_refl)
    as (Hpos & _ & _ & Hadd).
  split_and!; [exact Hlen|reflexivity..|exact Hpos|].
  exact (Hadd (VList [VAxiom sample_restriction]) VNone eq_refl).
Defined.

Lemma Ontology_init_leftover_witness :
  (Ontology_positional [VAxiom sample_axiom; VImport (VIRI "http://x/i")]).2
  = [VImport (VIRI "http://x/i")]
  /\ Ontology___init__ [VAxiom sample_axiom; VImport (VIRI "http://x/i")] []
     = Raise (ValueError_Unrecognized_arguments [VImport (VIRI "http://x/i")]).
Proof.
  split; [reflexivity|].
  apply (Ontology_init_leftover [VAxiom sample_axiom; VImport (VIRI "http://x/i")] []
           (VImport (VIRI "http://x/i")) []). reflexivity.
Defined.

(** C5 as stated fails: an Import is left over after an axiom, and the
    error raised is the one of the unknown named field. *)
Lemma Ontology_init_leftover_named_first :
  (Ontology_positional [VAxiom sample_axiom; VImport (VIRI "http://x/i")]).2
  = [VImport (VIRI "http://x/i")]
  /\ Ontology___init__ [VAxiom sample_axiom; VImport (VIRI "http://x/i")] [("foo", VIRI "http://x/y")]
     = Raise (ValueError_Unknown_argument "foo")
  /\ Ontology___init__ [VAxiom sample_axiom; VImport (VIRI "http://x/i")] [("foo", VIRI "http://x/y")]
     ≠ Raise (ValueError_Unrecognized_arguments [VImport (VIRI "http://x/i")]).
Proof. split_and!; [reflexivity..|discriminate]. Qed.

(** C6 at a call with a named field for the axioms and one named as the
    method [imports]: the list read back from the slot is added to the value
    given, and where that returns None the slot ends as None; the method is
    found by the attribute lookup, so that the error is the type error of
    adding a list to a method and not the error of the unknown name. *)
Lemma Ontology_init_named_fields_witness :
  NoDup [("axioms", VList [VAxiom sample_restriction]); ("imports", VList [])].*1
  /\ ("axioms", VList [VAxiom sample_restriction])
     ∈ [("axioms", VList [VAxiom sample_restriction]); ("imports", VList [])]
  /\ apply_kwarg (before_kwargs [VAxiom sample_axiom] [])
       ("axioms", VList [VAxiom sample_restriction])
     = Ok (<["axioms" := VNone]> (before_kwargs [VAxiom sample_axiom] []))
  /\ Ontology___init__ [] [("imports", VList [])] = Raise TypeError.
Proof.
  assert (Hnd : NoDup [("axioms", VList [VAxiom sample_restriction]);
                       ("imports", VList [])].*1).
  { apply NoDup_cons. split; [|apply NoDup_singleton].
    intros Hin. apply list_elem_of_singleton in Hin. discriminate. }
  assert (Hin : ("axioms", VList [VAxiom sample_restriction])
                ∈ [("axioms", VList [VAxiom sample_restriction]); ("imports", VList [])]).
  { apply elem_of_cons. left. reflexivity. }
  split_and!; [exact Hnd|exact Hin|..];
    destruct (Ontology_init_named_fields [VAxiom sample_axiom]
                [("axioms", VList [VAxiom sample_restriction]); ("imports", VList [])]
                "axioms" (VList [VAxiom sample_restriction]) Hnd Hin)
      as (_ & _ & Hlist & _ & Hmethod).
  - rewrite (Hlist (before_kwargs [VAxiom sample_axiom] []) [VAxiom sample_axiom] eq_refl);
      [reflexivity|discriminate].
  - exact (Hmethod [] "imports" [] eq_refl).
Defined.

Lemma sample_world_0 : heap sample_world !! 0 = Some sample_named.
Proof. reflexivity. Qed.

Lemma sample_world_1 : heap sample_world !! 1 = Some sample_anonymous.
Proof. reflexivity. Qed.

Lemma Import_to_rdf_identifier_witness :
  Import_resolves (heap sample_world) (VOntology 0) "http://x/o"
  /\ Import_to_rdf (VOntology 0) Graph_new sample_world
     = Ok (URIRef "http://x/o", sample_world).
Proof.
  assert (Hres : Import_resolves (heap sample_world) (VOntology 0) "http://x/o").
  { right. exists 0, sample_named. split_and!; reflexivity. }
  split; [exact Hres|].
  apply (Import_to_rdf_identifier (VOntology 0) "http://x/o" Graph_new sample_world Hres).
Defined.

(** C3 as stated fails: the ontology at reference 1 has no identifier, and
    the Import wrapping it returns the resource named by the string form of
    None. *)
Lemma Import_to_rdf_anonymous :
  heap sample_world !! 1 = Some sample_anonymous
  /\ Ontology_getattr sample_anonymous "iri" = Some VNone
  /\ Import_to_rdf (VOntology 1) Graph_new sample_world = Ok (URIRef "None", sample_world).
Proof. split_and!; reflexivity. Qed.

(** C4 at the ontology built with an identifier and a version, whose
    version has no [full_uri]: [to_rdf] raises the attribute error; and at
    the ontology at reference 0, which has no version. *)
Lemma Ontology_to_rdf_emits_witness :
  Ontology_new [VIRI "http://x/o"; VIRI "http://x/v"] [] empty_world
  = Ok (VOntology 0, allocated sample_versioned empty_world)
  /\ Ontology_to_rdf 0 Graph_new (allocated sample_versioned empty_world)
     = Raise AttributeError
  /\ heap sample_world !! 0 = Some sample_named
  /\ Forall2 (Import_resolves (heap sample_world)) [VIRI "http://x/i"] ["http://x/i"]
  /\ Ontology_to_rdf 0 Graph_new sample_world
     = Ok ((URIRef "http://x/o",
            {| triples := [(URIRef "http://x/o", RDF_type, OWL_Ontology);
                           (URIRef "http://x/o", OWL_imports, URIRef "http://x/i");
                           (URIRef "http://x/A", rdfs_subClassOf, BNode 0);
                           (BNode 0, RDF_type,
                            URIRef "http://www.w3.org/2002/07/owl#Restriction")];
               namespaces := [] |}),
           mint 1 sample_world).
Proof.
  assert (Hres : Forall2 (Import_resolves (heap sample_world))
                   [VIRI "http://x/i"] ["http://x/i"]).
  { repeat constructor. }
  split_and!; [reflexivity| |reflexivity|exact Hres|].
  - destruct (Ontology_to_rdf_emits 0 Graph_new (allocated sample_versioned empty_world)
                sample_versioned (Some "http://x/o") (Some "http://x/v") [] [] [] []
                eq_refl eq_refl eq_refl eq_refl ltac:(constructor) eq_refl eq_refl)
      as (_ & Hversion & _).
    exact (Hversion "http://x/v" eq_refl eq_refl).
  - destruct (Ontology_to_rdf_emits 0 Graph_new sample_world sample_named
                (Some "http://x/o") None [VIRI "http://x/i"] ["http://x/i"]
                [sample_restriction] [] eq_refl eq_refl eq_refl eq_refl Hres eq_refl eq_refl)
      as [Hrun _].
    rewrite Hrun. reflexivity.
Defined.

(** C2 at the ontology built with a version and no identifier: functional
    rendering raises its error, and [to_rdf] raises the attribute error. *)
Lemma Ontology_version_without_iri_witness :
  Ontology_new [] [("version", VIRI "http://x/v")] empty_world
  = Ok (VOntology 0, allocated (Ontology_versioned "http://x/v" []) empty_world)
  /\ Ontology_to_functional 0 None (allocated (Ontology_versioned "http://x/v" []) empty_world)
     = Raise ValueError_versionIRI_without_ontologyIRI
  /\ Ontology_to_rdf 0 Graph_new (allocated (Ontology_versioned "http://x/v" []) empty_world)
     = Raise AttributeError.
Proof.
  destruct (Ontology_version_without_iri "http://x/v" [] empty_world)
    as (Hnew & _ & _ & Hfun & Hrdf & _).
  split_and!; [exact Hnew|exact (Hfun None)|exact (Hrdf Graph_new)].
Defined.

Lemma Document_setattr_prefix_witness :
  Document_attr sample_document "prefixDeclarations" = Ok (VList [])
  /\ exists self',
       Document___setattr__ sample_document "ex" (VStr "http://example.org/") = Ok self'
       /\ Document_attr self' "prefixDeclarations"
          = Ok (VList [VPrefix (VStr "ex") (VStr "http://example.org/")])
       /\ forall k, k ≠ "prefixDeclarations" -> self' !! k = sample_document !! k.
Proof.
  split; [reflexivity|].
  apply (Document_setattr_prefix sample_document "ex" (VStr "http://example.org/") []).
  reflexivity.
Defined.

(** C7 as stated fails: [_x] is neither of the two fields, and assigning to
    it sets an attribute and leaves the prefix list as it was. *)
Lemma Document_setattr_underscore :
  str_in "_x" ["prefixDeclarations"; "ontology"] = false
  /\ Document___setattr__ sample_document "_x" (VStr "http://example.org/")
     = Ok (<["_x" := VStr "http://example.org/"]> sample_document)
  /\ Document_attr (<["_x" := VStr "http://example.org/"]> sample_document) "prefixDeclarations"
     = Ok (VList []).
Proof. split_and!; reflexivity. Qed.

Lemma Ontology_render_twice_witness :
  Ontology_to_rdf 1 Graph_new sample_world
  = Ok ((BNode 0,
         {| triples := [(BNode 0, RDF_type, OWL_Ontology);
                        (URIRef "http://x/A", rdfs_subClassOf, BNode 1);
                        (BNode 1, RDF_type,
                         URIRef "http://www.w3.org/2002/07/owl#Restriction")];
            namespaces := [] |}),
        mint 2 sample_world)
  /\ exists n,
       Ontology_to_rdf 1 Graph_new (mint 2 sample_world)
       = Ok ((BNode (n + 0),
              {| triples := [(BNode (n + 0), RDF_type, OWL_Ontology);
                             (URIRef "http://x/A", rdfs_subClassOf, BNode (n + 1));
                             (BNode (n + 1), RDF_type,
                              URIRef "http://www.w3.org/2002/07/owl#Restriction")];
                 namespaces := [] |}),
             mint n (mint 2 sample_world)).
Proof.
  assert (Hfirst : Ontology_to_rdf 1 Graph_new sample_world
    = Ok ((BNode 0,
           {| triples := [(BNode 0, RDF_type, OWL_Ontology);
                          (URIRef "http://x/A", rdfs_subClassOf, BNode 1);
                          (BNode 1, RDF_type,
                           URIRef "http://www.w3.org/2002/07/owl#Restriction")];
              namespaces := [] |}),
          mint 2 sample_world)).
  { vm_compute. reflexivity. }
  split; [exact Hfirst|].
  destruct (Ontology_render_twice 1 sample_world) as [_ Hrdf].
  destruct (Hrdf _ _ _ Hfirst) as (n & _ & _ & Hsecond).
  exists n. exact Hsecond.
Defined.


End Examples.

(** * The further statements at the sample values *)

Section FurtherExamples.
#[local] Existing Instance plain.
#[local] Existing Instance plain_library.

Lemma Ontology_init_kwargs_order_witness :
  NoDup sample_kwargs.*1
  /\ sample_kwargs ≡ₚ sample_kwargs_swapped
  /\ exists o, Ontology___init__ [] sample_kwargs = Ok o
               /\ Ontology___init__ [] sample_kwargs_swapped = Ok o.
Proof.
  assert (Hnd : NoDup sample_kwargs.*1).
  { apply NoDup_cons. split; [|apply NoDup_singleton].
    intros Hin%list_elem_of_singleton. discriminate. }
  assert (Hperm : sample_kwargs ≡ₚ sample_kwargs_swapped) by apply perm_swap.
  split_and!; [exact Hnd|exact Hperm|].
  eexists. split; [reflexivity|].
  apply (Ontology_init_kwargs_order [] sample_kwargs sample_kwargs_swapped _ Hnd Hperm).
  reflexivity.
Defined.

Lemma Ontology_chain_appends_witness :
  heap sample_world !! 1 = Some sample_anonymous
  /\ (forall k, k ∈ Ontology_list_slots ->
        exists l, Ontology_getattr sample_anonymous k = Some (VList l))
  /\ Forall (fun c => exists kx, made (heap sample_world) c = Ok kx) sample_calls
  /\ exists ω' o',
       chain 1 sample_calls sample_world = Ok (VOntology 1, ω')
       /\ heap ω' !! 1 = Some o'
       /\ Ontology_getattr o' "axioms"
          = Some (VList [VAxiom sample_restriction; VAxiom sample_axiom;
                         VAxiom {| axiom_functional := "Declaration()"; axiom_fresh := 0;
                                   axiom_triples := [] |}])
       /\ Ontology_getattr o' "annotations"
          = Some (VList [VAnnotation {| annotation_property := "http://x/p";
                                        annotation_value := AV_IRI "http://x/v" |}])
       /\ Ontology_getattr o' "directlyImportsDocuments"
          = Some (VList [VImport (VIRI "http://x/o")]).
Proof.
  assert (Hlists : forall k, k ∈ Ontology_list_slots ->
            exists l, Ontology_getattr sample_anonymous k = Some (VList l)).
  { intros k Hk. unfold Ontology_list_slots in Hk.
    repeat (apply elem_of_cons in Hk as [->|Hk]; [eexists; reflexivity|]).
    by apply elem_of_nil in Hk. }
  assert (Hmade : Forall (fun c => exists kx, made (heap sample_world) c = Ok kx) sample_calls).
  { repeat constructor; eexists; reflexivity. }
  split_and!; [reflexivity|exact Hlists|exact Hmade|].
  destruct (Ontology_chain_appends 1 sample_calls sample_world sample_anonymous
              eq_refl Hlists Hmade) as (ω' & o' & Hrun & Hself & Hitems & _).
  assert (Hin : forall k, str_in k Ontology_list_slots = true -> k ∈ Ontology_list_slots).
  { intros k Hk. unfold str_in in Hk. apply existsb_exists in Hk as (x & Hx & ->%String.eqb_eq).
    by apply list_elem_of_In. }
  exists ω', o'.
  split_and!; [exact Hrun|exact Hself|rewrite Hitems by (by apply Hin); reflexivity..].
Defined.



Lemma Ontology_new_call_to_rdf_witness :
  made (heap empty_world) (Call_subClassOf (VIRI "http://x/A") (VIRI "http://x/B"))
  = Ok ("axioms", VAxiom sample_axiom)
  /\ exists ω1,
       (v ← Ontology_new [] [];
        match v with
        | VOntology r => Ontology_call r (Call_subClassOf (VIRI "http://x/A") (VIRI "http://x/B"))
        | _ => raise AttributeError
        end) empty_world = Ok (VOntology 0, ω1)
       /\ Ontology_to_rdf 0 Graph_new ω1
          = Ok ((BNode 0,
                 {| triples := [(BNode 0, RDF_type, OWL_Ontology);
                                (URIRef "http://x/A", rdfs_subClassOf, URIRef "http://x/B")];
                    namespaces := [] |}),
                mint 1 ω1).
Proof.
  assert (Hmade : made (heap empty_world)
                    (Call_subClassOf (VIRI "http://x/A") (VIRI "http://x/B"))
                  = Ok ("axioms", VAxiom sample_axiom)) by reflexivity.
  split; [exact Hmade|].
  destruct (Ontology_new_call_to_rdf (Call_subClassOf (VIRI "http://x/A") (VIRI "http://x/B"))
              sample_axiom empty_world Hmade) as (Hrun & _ & Hrdf).
  eexists. split; [exact Hrun|]. rewrite Hrdf. reflexivity.
Defined.

Lemma Document_prefixes_appends_witness :
  Document_attr sample_document "prefixDeclarations" = Ok (VList [])
  /\ forallb plain_prefix [("ex", VStr "http://example.org/")] = true
  /\ Document_prefixes sample_document (VStr "http://x/") [("ex", VStr "http://example.org/")]
     = Ok (<["prefixDeclarations" :=
               VList [VPrefix (VStr "") (VStr "http://x/");
                      VPrefix (VStr "ex") (VStr "http://example.org/")]]> sample_document)
  /\ Document_assign sample_document [("ex", VStr "http://example.org/")]
     = Document_prefixes sample_document VNone [("ex", VStr "http://example.org/")].
Proof.
  destruct (Document_prefixes_appends sample_document (VStr "http://x/")
              [("ex", VStr "http://example.org/")] [] eq_refl) as [Hrun _].
  destruct (Document_prefixes_appends sample_document VNone
              [("ex", VStr "http://example.org/")] [] eq_refl) as [_ Hassign].
  split_and!; [reflexivity|reflexivity|exact Hrun|exact (Hassign eq_refl)].
Defined.

Lemma Document_getattr_first_witness :
  Document_attr sample_document "prefixDeclarations" = Ok (VList [])
  /\ forallb isinstance_entry [] = true
  /\ declares_prefix "ex" = true
  /\ isinstance_PrefixName "ex" = true
  /\ Document___getattr__ sample_document "ex" = Raise AttributeError
  /\ exists self',
       Document___setattr__ sample_document "ex" (VStr "http://example.org/") = Ok self'
       /\ Document___getattr__ self' "ex" = Ok (VStr "http://example.org/").
Proof.
  destruct (Document_getattr_first sample_document "ex" [] eq_refl eq_refl) as (Hget & Hset).
  split_and!; [reflexivity..|exact Hget|].
  destruct (Hset "ex" (VStr "http://example.org/") eq_refl) as (self' & H1 & H2).
  exists self'. split; [exact H1|exact H2].
Defined.

(** A graph in which the short name [ex] is bound already. *)
Lemma Document_to_rdf_ontology_witness :
  Document_attr sample_prefixed "prefixDeclarations"
  = Ok (VList [VPrefix (VStr "ex") (VStr "http://example.org/")])
  /\ Document_attr sample_prefixed "ontology" = Ok (VOntology 0)
  /\ heap sample_world !! 0 = Some sample_named
  /\ Forall2 (Import_resolves (heap sample_world)) [VIRI "http://x/i"] ["http://x/i"]
  /\ Document_to_rdf sample_prefixed
       {| triples := []; namespaces := [("ex", "http://other.org/")] |} sample_world
     = Ok ((Some (URIRef "http://x/o"),
            {| triples := [(URIRef "http://x/o", RDF_type, OWL_Ontology);
                           (URIRef "http://x/o", OWL_imports, URIRef "http://x/i");
                           (URIRef "http://x/A", rdfs_subClassOf, BNode 0);
                           (BNode 0, RDF_type,
                            URIRef "http://www.w3.org/2002/07/owl#Restriction")];
               namespaces := [("ex", "http://other.org/"); ("ex1", "http://example.org/")] |}),
           mint 1 sample_world).
Proof.
  assert (Hres : Forall2 (Import_resolves (heap sample_world))
                   [VIRI "http://x/i"] ["http://x/i"]).
  { repeat constructor. }
  split_and!; [reflexivity|reflexivity|reflexivity|exact Hres|].
  destruct (Document_to_rdf_ontology sample_prefixed
              [VPrefix (VStr "ex") (VStr "http://example.org/")] 0
              {| triples := []; namespaces := [("ex", "http://other.org/")] |} sample_world
              sample_named (Some "http://x/o") None [VIRI "http://x/i"] ["http://x/i"]
              [sample_restriction] []
              eq_refl eq_refl eq_refl eq_refl eq_refl eq_refl eq_refl Hres eq_refl eq_refl)
    as [Hrun _].
  rewrite Hrun. vm_compute. reflexivity.
Defined.

Lemma Ontology_to_functional_writes_witness :
  heap sample_world !! 0 = Some sample_named
  /\ (is_Some (None : option string) -> is_Some (Some "http://x/o"))
  /\ exists w,
       Ontology_to_functional 0 None sample_world = Ok (w, sample_world)
       /\ output w
          = "Ontology(<http://x/o>" ++ newline
            ++ "Import(<http://x/i>)" ++ newline
            ++ "SubClassOf(<http://x/A> ObjectSomeValuesFrom(<http://x/p> <http://x/B>))"
            ++ newline ++ ")".
Proof.
  assert (Hguard : is_Some (None : option string) -> is_Some (Some "http://x/o")) by eauto.
  split_and!; [reflexivity|exact Hguard|].
  destruct (Ontology_to_functional_writes 0 None sample_world sample_named
              (Some "http://x/o") None ["http://x/i"] [sample_restriction] []
              eq_refl eq_refl eq_refl eq_refl eq_refl eq_refl Hguard) as [Hrun _].
  eexists. split; [exact Hrun|reflexivity].
Defined.

Lemma Document_to_functional_writes_witness :
  Document_attr sample_prefixed "prefixDeclarations"
  = Ok (VList [VPrefix (VStr "ex") (VStr "http://example.org/")])
  /\ Document_attr sample_prefixed "ontology" = Ok (VOntology 0)
  /\ heap sample_world !! 0 = Some sample_named
  /\ exists w,
       Document_to_functional sample_prefixed None sample_world = Ok (w, sample_world)
       /\ w_namespaces w = [("ex", "http://example.org/")]
       /\ output w
          = "Prefix(ex:=<http://example.org/>)" ++ newline ++ newline
            ++ "Ontology(<http://x/o>" ++ newline
            ++ "Import(<http://x/i>)" ++ newline
            ++ "SubClassOf(<http://x/A> ObjectSomeValuesFrom(<http://x/p> <http://x/B>))"
            ++ newline ++ ")".
Proof.
  assert (Hguard : is_Some (None : option string) -> is_Some (Some "http://x/o")) by eauto.
  split_and!; [reflexivity..|].
  eexists. split_and!.
  - exact (Document_to_functional_writes sample_prefixed
             [VPrefix (VStr "ex") (VStr "http://example.org/")] 0 None sample_world
             sample_named (Some "http://x/o") None ["http://x/i"] [sample_restriction] []
             eq_refl eq_refl eq_refl eq_refl eq_refl eq_refl eq_refl eq_refl eq_refl Hguard).
  - reflexivity.
  - reflexivity.
Defined.

(** C9 at the list of one prefix, with a new writer and a new graph. *)
Lemma Document_list_argument_witness :
  forallb isinstance_Prefix [VPrefix (VStr "ex") (VStr "http://example.org/")] = true
  /\ Document___init__ [VList [VPrefix (VStr "ex") (VStr "http://example.org/")]] VNone
       empty_world
     = Ok (<["ontology" := VNone]>
             (<["prefixDeclarations" :=
                  VList [VPrefix (VStr "ex") (VStr "http://example.org/")]]> ∅),
           empty_world)
  /\ (exists w,
        Document_to_functional
          (<["ontology" := VNone]>
             (<["prefixDeclarations" :=
                  VList [VPrefix (VStr "ex") (VStr "http://example.org/")]]> ∅))
          None empty_world
        = Ok (w, allocated Ontology_empty empty_world)
        /\ output w
           = "Prefix(ex:=<http://example.org/>)" ++ newline ++ newline ++ "Ontology()")
  /\ Document_to_rdf
       (<["ontology" := VNone]>
          (<["prefixDeclarations" :=
               VList [VPrefix (VStr "ex") (VStr "http://example.org/")]]> ∅))
       Graph_new empty_world
     = Raise AttributeError.
Proof.
  destruct (Document_list_argument [VPrefix (VStr "ex") (VStr "http://example.org/")]
              empty_world) as (Hinit & _ & _ & Hfun & _ & _ & Hrdf).
  split_and!; [reflexivity|exact Hinit| |exact (Hrdf eq_refl Graph_new)].
  destruct (Hfun eq_refl None) as [Hrun _].
  eexists. split; [exact Hrun|reflexivity].
Defined.

End FurtherExamples.
